(** * PrimecurePayrollApp: the front-end handlers, embedded and verified

    The repository is a React single-page application.  Its components are
    closures over React state that talk to the backend through axios, to the
    user through toast notifications and to the browser through localStorage
    and the router.  This development embeds

    - the fragment of JavaScript the handlers rely on (values, objects with
      ordered keys, truthiness, [||], [parseInt], [parseFloat], template
      literals, JSON serialisation of a request body);
    - a small state/exception/trace monad in which every handler is written
      statement by statement as in the source;
    - the components [App], [Settings], [Promotions], [Employees],
      [Dashboard] and both revisions of [Payslips];

    and then proves the properties of the specification about them. *)

From Stdlib Require Import ZArith NArith Ascii String List Bool Lia.
From stdpp Require Import base option list strings gmap.

Local Open Scope string_scope.
Local Open Scope list_scope.

(* ===================================================================== *)
(** * The JavaScript fragment                                             *)
(* ===================================================================== *)

Module JS.

(** ** Numbers

    A JavaScript number is NaN, an infinity or a finite binary64 value.  A
    finite value is written as the signed decimal [(-1)^neg * m * 10^e] it
    is equal to (every binary64 value has such an expansion): an integer
    with [e = 0], any other value with [m] not a multiple of ten.
    [Fin true 0 0] is the negative zero.  [round_binary64] takes a decimal
    to the nearest binary64 value, a tie to the one with an even
    significand, beyond the range to an infinity: [parseInt] and
    [parseFloat] end with it, and truthiness, [number_to_string] and the
    serialisation start with it, so that a [Fin] which is no binary64
    value (a number as written in a response body) stands for its
    rounding. *)

Inductive number : Type :=
| NaN
| Infinity (neg : bool)
| Fin (neg : bool) (m : N) (e : Z).

#[global] Instance number_eq_dec : EqDecision number.
Proof. solve_decision. Defined.

(** An integer of the source text or a count; those at hand are far below
    [2^53], where every integer is a binary64 value. *)
Definition of_Z (z : Z) : number := Fin (z <? 0)%Z (Z.abs_N z) 0.

Definition zero : number := Fin false 0 0.

Definition num_is_nan (n : number) : bool :=
  match n with NaN => true | _ => false end.

(** ** Rounding to binary64 *)

(** [a / b] rounded to an integer, a tie going to the even neighbour. *)
Definition round_half_even (a b : Z) : Z :=
  let q := (a / b)%Z in
  let r := (a mod b)%Z in
  if (2 * r <? b)%Z then q
  else if (b <? 2 * r)%Z then (q + 1)%Z
  else if Z.even q then q else (q + 1)%Z.

(** The fraction [num / den] divided by [2^k]. *)
Definition scaled (num den k : Z) : Z * Z :=
  if (0 <=? k)%Z then (num, den * 2 ^ k)%Z else (num * 2 ^ (- k), den)%Z.

(** [M * 2^k] as a decimal in lowest form. *)
Definition dyadic (neg : bool) (M k : Z) : number :=
  if (0 <=? k)%Z then Fin neg (Z.to_N (M * 2 ^ k)) 0
  else
    let g := Z.gcd M (2 ^ (- k)) in
    let t := (- k - Z.log2 g)%Z in
    Fin neg (Z.to_N (M / g * 5 ^ t)) (- t).

(** The binary64 value nearest to [m * 10^e].  The significand [M] has 53
    bits, fewer for a subnormal value, whose exponent [k] stays at -1074;
    the two early exits only spare the computation of a huge power of
    ten: above [10^310] everything is infinite, and below [2^-1076]
    everything rounds to zero. *)
Definition round_binary64 (neg : bool) (m : N) (e : Z) : number :=
  if (m =? 0)%N then Fin neg 0 0
  else if (310 <? e)%Z then Infinity neg
  else if (Z.of_N (N.log2 m) + 3 * e <? -1076)%Z then Fin neg 0 0
  else
    let num := if (0 <=? e)%Z then (Z.of_N m * 10 ^ e)%Z else Z.of_N m in
    let den := if (0 <=? e)%Z then 1%Z else (10 ^ (- e))%Z in
    let k0 := Z.max (Z.log2 num - Z.log2 den - 52) (-1074) in
    let '(a0, b0) := scaled num den k0 in
    let k := if ((a0 / b0 <? 2 ^ 52) && (-1074 <? k0))%Z then (k0 - 1)%Z else k0 in
    let '(a, b) := scaled num den k in
    let M := round_half_even a b in
    if (M =? 0)%Z then Fin neg 0 0
    else if (1024 <=? Z.log2 M + k)%Z then Infinity neg
    else dyadic neg M k.

(** The binary64 value a number stands for. *)
Definition rounded (n : number) : number :=
  match n with
  | Fin neg m e => round_binary64 neg m e
  | _ => n
  end.

Definition num_is_zero (n : number) : bool :=
  match rounded n with
  | Fin _ m _ => (m =? 0)%N
  | _ => false
  end.

(** ** Values *)

#[warnings="-register-all"]
Inductive value : Type :=
| VUndefined
| VNull
| VBool (b : bool)
| VNum (n : number)
| VStr (s : string)
| VObj (fields : list (string * value))
| VArr (items : list value)
| VBlob (content : value).

Definition VInt (z : Z) : value := VNum (of_Z z).

(** What a handler can throw or an awaited promise can reject with: an
    axios error (carrying [error.response.data] when the server answered),
    or a TypeError raised by the language itself. *)
Inductive exn : Type :=
| AxiosError (response_data : option value)
| TypeError (what : string).

Inductive completion (A : Type) : Type :=
| Normal (a : A)
| Abrupt (e : exn).
Arguments Normal {A} a.
Arguments Abrupt {A} e.

(** ToBoolean. *)
Definition truthy (v : value) : bool :=
  match v with
  | VUndefined | VNull => false
  | VBool b => b
  | VNum n => negb (num_is_nan n || num_is_zero n)
  | VStr s => negb (String.eqb s "")
  | VObj _ | VArr _ | VBlob _ => true
  end.

(** [a || b] *)
Definition or_else (a b : value) : value := if truthy a then a else b.

(** ** Strings, characters and digits

    A string is kept as the UTF-8 encoding of its text. *)

Definition byte (c : ascii) : N := N_of_ascii c.

(** The white space and line terminators of one byte: TAB, LF, VT, FF, CR
    and the space. *)
Definition is_space (c : ascii) : bool :=
  let n := byte c in
  ((9 <=? n) && (n <=? 13) || (n =? 32))%N.

(** U+00A0, the no-break space. *)
Definition is_space2 (c1 c2 : ascii) : bool :=
  ((byte c1 =? 194) && (byte c2 =? 160))%N.

(** The white space and line terminators of three bytes: U+1680, U+2000
    to U+200A, U+2028, U+2029, U+202F, U+205F, U+3000 and U+FEFF. *)
Definition is_space3 (c1 c2 c3 : ascii) : bool :=
  let b1 := byte c1 in
  let b2 := byte c2 in
  let b3 := byte c3 in
  ((b1 =? 225) && (b2 =? 154) && (b3 =? 128)
   || (b1 =? 226) && (b2 =? 128)
      && ((128 <=? b3) && (b3 <=? 138) || (b3 =? 168) || (b3 =? 169) || (b3 =? 175))
   || (b1 =? 226) && (b2 =? 129) && (b3 =? 159)
   || (b1 =? 227) && (b2 =? 128) && (b3 =? 128)
   || (b1 =? 239) && (b2 =? 187) && (b3 =? 191))%N.

Definition digit_of (c : ascii) : option N :=
  let n := N_of_ascii c in
  if ((48 <=? n) && (n <=? 57))%N then Some (n - 48)%N else None.

Definition hex_digit_of (c : ascii) : option N :=
  let n := N_of_ascii c in
  if ((48 <=? n) && (n <=? 57))%N then Some (n - 48)%N
  else if ((97 <=? n) && (n <=? 102))%N then Some (n - 87)%N
  else if ((65 <=? n) && (n <=? 70))%N then Some (n - 55)%N
  else None.

(** TrimString(s, start): every leading white space character and line
    terminator goes.  A byte below 194 begins none of more than one byte. *)
Fixpoint trim_start (s : string) : string :=
  match s with
  | EmptyString => EmptyString
  | String c1 r1 =>
      if is_space c1 then trim_start r1
      else if (byte c1 <? 194)%N then s
      else
        match r1 with
        | EmptyString => s
        | String c2 r2 =>
            if is_space2 c1 c2 then trim_start r2
            else
              match r2 with
              | EmptyString => s
              | String c3 r3 => if is_space3 c1 c2 c3 then trim_start r3 else s
              end
        end
  end.

(** The longest prefix of radix-[R] digits of [s], as a list of digit
    values, together with the rest of the string. *)
Fixpoint take_digits (dig : ascii -> option N) (s : string) : list N * string :=
  match s with
  | String c r =>
      match dig c with
      | Some d => let '(ds, rest) := take_digits dig r in (d :: ds, rest)
      | None => ([], s)
      end
  | EmptyString => ([], EmptyString)
  end.

Definition digits_value (R : N) (ds : list N) : N :=
  fold_left (fun acc d => acc * R + d)%N ds 0%N.

Definition strip_sign (s : string) : bool * string :=
  match s with
  | String c r =>
      if Ascii.eqb c "-" then (true, r)
      else if Ascii.eqb c "+" then (false, r)
      else (false, s)
  | EmptyString => (false, s)
  end.

(** ** parseInt(string) with the radix left undefined *)

Definition parseInt_string (input : string) : number :=
  let '(neg, s) := strip_sign (trim_start input) in
  let '(R, dig, s) :=
    match s with
    | String c (String x r) =>
        if (Ascii.eqb c "0" && (Ascii.eqb x "x" || Ascii.eqb x "X"))%bool
        then (16%N, hex_digit_of, r)
        else (10%N, digit_of, s)
    | _ => (10%N, digit_of, s)
    end in
  match fst (take_digits dig s) with
  | [] => NaN
  | ds => round_binary64 neg (digits_value R ds) 0
  end.

(** ** parseFloat(string): the longest StrDecimalLiteral prefix *)

Definition exponent_part (s : string) : Z :=
  match s with
  | String c r =>
      if (Ascii.eqb c "e" || Ascii.eqb c "E")%bool then
        let '(eneg, r') := strip_sign r in
        match fst (take_digits digit_of r') with
        | [] => 0%Z
        | ds => let x := Z.of_N (digits_value 10 ds) in if eneg then (- x)%Z else x
        end
      else 0%Z
  | EmptyString => 0%Z
  end.

Definition parseFloat_string (input : string) : number :=
  let '(neg, s) := strip_sign (trim_start input) in
  if String.prefix "Infinity" s then Infinity neg else
  let '(ip, s1) := take_digits digit_of s in
  let '(fp, s2) :=
    match s1 with
    | String c r => if Ascii.eqb c "." then take_digits digit_of r else ([], s1)
    | EmptyString => ([], s1)
    end in
  match ip ++ fp with
  | [] => NaN
  | ds => round_binary64 neg (digits_value 10 ds) (exponent_part s2 - Z.of_nat (length fp))
  end.

(** ** ToString *)

Definition digit_char (d : N) : ascii := ascii_of_N (48 + d).

Definition digits_string (ds : list N) : string :=
  string_of_list_ascii (map digit_char ds).

Fixpoint N_digits_aux (fuel : nat) (n : N) (acc : list N) : list N :=
  match fuel with
  | O => acc
  | S fuel' =>
      if (n <? 10)%N then n :: acc
      else N_digits_aux fuel' (n / 10)%N ((n mod 10)%N :: acc)
  end.

(** The decimal digits of [n], most significant first ([[0]] for 0). *)
Definition N_digits (n : N) : list N := N_digits_aux (S (N.to_nat (N.log2 n))) n [].

Fixpoint drop_trailing_zeros (rev_ds : list N) : list N * nat :=
  match rev_ds with
  | d :: r =>
      if (d =? 0)%N then let '(ds, z) := drop_trailing_zeros r in (ds, S z)
      else (rev_ds, O)
  | [] => ([], O)
  end.

Definition Z_to_string (z : Z) : string :=
  (if (z <? 0)%Z then "-" else "") +:+ digits_string (N_digits (Z.abs_N z)).

Definition zeros (n : nat) : string := string_of_list_ascii (repeat "0"%char n).

(** Number::toString prints the shortest decimal that reads back as the
    value.  For the binary64 value [m * 10^e], whose expansion has [len]
    digits, [shortest] keeps [k = 1, 2, ...] digits and tries the two
    neighbours [s * 10^x] of the value at that length, the closer first
    and the even one on a tie; 17 digits always suffice. *)
Fixpoint shortest (fuel : nat) (k : nat) (neg : bool) (m : N) (e : Z) (len : nat) : N * Z :=
  match fuel with
  | O => (m, e)
  | S fuel' =>
      if (len <=? k)%nat then (m, e)
      else
        let unit := (10 ^ N.of_nat (len - k))%N in
        let x := (e + Z.of_nat (len - k))%Z in
        let lo := (m / unit)%N in
        let hi := (lo + 1)%N in
        let r := (m mod unit)%N in
        let ok s := bool_decide (round_binary64 neg s x = Fin neg m e) in
        let first := if (2 * r <? unit)%N then lo
                     else if (unit <? 2 * r)%N then hi
                     else if N.even lo then lo else hi in
        let second := if (first =? lo)%N then hi else lo in
        if ok first then (first, x)
        else if ok second then (second, x)
        else shortest fuel' (S k) neg m e len
  end.

(** The text of [s * 10^x]: with [k] significant digits [ds] and the
    decimal point after digit [n], the four layouts of the standard. *)
Definition layout (neg : bool) (s : N) (x : Z) : string :=
  let '(rds, z) := drop_trailing_zeros (rev (N_digits s)) in
  let ds := rev rds in
  let k := Z.of_nat (length ds) in
  let n := (k + Z.of_nat z + x)%Z in
  let body :=
    if ((k <=? n) && (n <=? 21))%Z then
      digits_string ds +:+ zeros (Z.to_nat (n - k))
    else if ((0 <? n) && (n <=? 21))%Z then
      digits_string (take (Z.to_nat n) ds) +:+ "." +:+
      digits_string (drop (Z.to_nat n) ds)
    else if ((-6 <? n) && (n <=? 0))%Z then
      "0." +:+ zeros (Z.to_nat (- n)) +:+ digits_string ds
    else
      let ex := (if (0 <=? n - 1)%Z then "+" else "-") +:+
                digits_string (N_digits (Z.abs_N (n - 1))) in
      match ds with
      | [d] => digits_string [d] +:+ "e" +:+ ex
      | d :: r => digits_string [d] +:+ "." +:+ digits_string r +:+ "e" +:+ ex
      | [] => ""
      end in
  (if neg then "-" else "") +:+ body.

Definition number_to_string (x : number) : string :=
  match x with
  | NaN => "NaN"
  | Infinity neg => if neg then "-Infinity" else "Infinity"
  | Fin neg m e =>
      match round_binary64 neg m e with
      | NaN => "NaN"
      | Infinity neg' => if neg' then "-Infinity" else "Infinity"
      | Fin neg' m' e' =>
          if (m' =? 0)%N then "0"
          else
            let '(s, x) := shortest 17 1 neg' m' e' (length (N_digits m')) in
            layout neg' s x
      end
  end.

Fixpoint join_with (sep : string) (l : list string) : string :=
  match l with
  | [] => ""
  | [x] => x
  | x :: r => x +:+ sep +:+ join_with sep r
  end.

(** ToString of any value (what a template literal or [parseInt] applies
    to its argument). *)
Fixpoint to_string (v : value) : string :=
  match v with
  | VUndefined => "undefined"
  | VNull => "null"
  | VBool b => if b then "true" else "false"
  | VNum n => number_to_string n
  | VStr s => s
  | VObj _ => "[object Object]"
  | VArr items =>
      join_with ","
        (map (fun x => match x with
                       | VUndefined | VNull => ""
                       | _ => to_string x
                       end) items)
  | VBlob _ => "[object Blob]"
  end.

Definition parseInt (v : value) : number := parseInt_string (to_string v).
Definition parseFloat (v : value) : number := parseFloat_string (to_string v).

(** ** The code units of a string

    The indexed properties of a string are its UTF-16 code units.  A
    character of up to three bytes is one code unit; one of four bytes is
    two, a surrogate pair, each half of which is written here with the
    three bytes the encoding would give it. *)

Definition ascii_of (n : N) : ascii := ascii_of_N n.

Definition three_bytes (u : N) : string :=
  String (ascii_of (224 + u / 4096))
    (String (ascii_of (128 + (u / 64) mod 64))
       (String (ascii_of (128 + u mod 64)) EmptyString)).

Definition surrogate_pair (c1 c2 c3 c4 : ascii) : list string :=
  let cp := ((byte c1 mod 8) * 262144 + (byte c2 mod 64) * 4096
             + (byte c3 mod 64) * 64 + byte c4 mod 64)%N in
  let v := (cp - 65536)%N in
  [ three_bytes (55296 + v / 1024); three_bytes (56320 + v mod 1024) ].

Fixpoint code_units (s : string) : list string :=
  match s with
  | EmptyString => []
  | String c1 r1 =>
      if (byte c1 <? 192)%N then String c1 EmptyString :: code_units r1
      else
        match r1 with
        | EmptyString => [s]
        | String c2 r2 =>
            if (byte c1 <? 224)%N then String c1 (String c2 EmptyString) :: code_units r2
            else
              match r2 with
              | EmptyString => [s]
              | String c3 r3 =>
                  if (byte c1 <? 240)%N
                  then String c1 (String c2 (String c3 EmptyString)) :: code_units r3
                  else
                    match r3 with
                    | EmptyString => [s]
                    | String c4 r4 => surrogate_pair c1 c2 c3 c4 ++ code_units r4
                    end
              end
        end
  end.

(** ** Objects: ordered string-keyed property lists *)

Definition props := list (string * value).

Fixpoint lookup_prop (k : string) (o : props) : option value :=
  match o with
  | [] => None
  | (k', v) :: r => if String.eqb k' k then Some v else lookup_prop k r
  end.

(** [o[k] = v]: an existing key keeps its place, a new key goes last. *)
Fixpoint set_prop (k : string) (v : value) (o : props) : props :=
  match o with
  | [] => [(k, v)]
  | (k', v') :: r => if String.eqb k' k then (k, v) :: r else (k', v') :: set_prop k v r
  end.

(** An object literal [{ k1: v1, ..., kn: vn }] evaluated left to right. *)
Definition literal (kvs : list (string * value)) : props :=
  fold_left (fun o kv => set_prop (fst kv) (snd kv) o) kvs [].

(** The key of the element at index [i]. *)
Definition index_key (i : nat) : string := digits_string (N_digits (N.of_nat i)).

(** [{ ...v }]: the own enumerable properties of [v], in order: the
    properties of an object, the elements of an array and the code units
    of a string under their indices, nothing for null, undefined, a
    boolean, a number or a Blob. *)
Definition spread (v : value) : list (string * value) :=
  match v with
  | VObj o => o
  | VArr items => imap (fun i x => (index_key i, x)) items
  | VStr s => imap (fun i u => (index_key i, VStr u)) (code_units s)
  | _ => []
  end.

(** [v.k] for a key [k] that names data: a TypeError on null and
    undefined, the property of an object, [undefined] when absent.  (No
    handler reads an index or one of the accessors [length], [size] and
    [type] of the built-in prototypes.) *)
Definition get (v : value) (k : string) : completion value :=
  match v with
  | VUndefined | VNull =>
      Abrupt (TypeError ("Cannot read properties of " +:+ to_string v))
  | VObj o => Normal (default VUndefined (lookup_prop k o))
  | _ => Normal VUndefined
  end.

(** [v?.k] *)
Definition get_opt (v : value) (k : string) : value :=
  match v with
  | VObj o => default VUndefined (lookup_prop k o)
  | _ => VUndefined
  end.

(** [v === s] for a string [s]. *)
Definition strict_eq_string (v : value) (s : string) : bool :=
  match v with
  | VStr s' => String.eqb s' s
  | _ => false
  end.

(** ** JSON.stringify, as a tree

    The body axios puts on the wire for a plain object.  A property whose
    value is [undefined] is dropped, an [undefined] array element and a
    non-finite number become [null], the negative zero prints as 0, and a
    Blob, which has no enumerable property, as the empty object. *)

#[warnings="-register-all"]
Inductive json : Type :=
| JNull
| JBool (b : bool)
| JNumber (neg : bool) (m : N) (e : Z)
| JString (s : string)
| JObject (members : list (string * json))
| JArray (elements : list json).

Fixpoint to_json (v : value) : option json :=
  match v with
  | VUndefined => None
  | VNull => Some JNull
  | VBool b => Some (JBool b)
  | VNum n =>
      Some (match rounded n with
            | Fin neg m e => if (m =? 0)%N then JNumber false 0 0 else JNumber neg m e
            | _ => JNull
            end)
  | VStr s => Some (JString s)
  | VObj o =>
      Some (JObject
        ((fix members (o : list (string * value)) : list (string * json) :=
            match o with
            | [] => []
            | (k, x) :: r =>
                match to_json x with
                | Some j => (k, j) :: members r
                | None => members r
                end
            end) o))
  | VArr items =>
      Some (JArray (map (fun x => default JNull (to_json x)) items))
  | VBlob _ => Some (JObject [])
  end.

Fixpoint json_member (k : string) (ms : list (string * json)) : option json :=
  match ms with
  | [] => None
  | (k', j) :: r => if String.eqb k' k then Some j else json_member k r
  end.

End JS.

(* ===================================================================== *)
(** * Effects: React state, localStorage, axios, toast, the browser       *)
(* ===================================================================== *)

Module Eff.
Import JS.

Inductive method : Type := GET | POST | PUT | DELETE.

(** One axios call: [axios.<method>(url, data?, { headers, responseType })]. *)
Record request : Type := mkRequest {
  req_method : method;
  req_url : string;
  req_data : option value;
  req_authorization : option string;
  req_blob : bool
}.

(** What the backend does with a request: it answers with a body and a
    status that makes the promise resolve, or with one that makes it
    reject, or it does not answer at all ([Rejected None]). *)
Inductive reply : Type :=
| Resolved (data : value)
| Rejected (response_data : option value).

(** Everything a handler does that is visible outside the component. *)
Inductive event : Type :=
| Request (r : request)
| ToastSuccess (message : value)
| ToastError (message : value)
| ConsoleError (label : string) (e : exn)
| SaveFile (filename : string) (content : value).

(** The surroundings a handler reads but cannot change: the build-time
    backend address, the clock, and the backend, whose answer to a request
    may depend on every request made before it. *)
Record env : Type := mkEnv {
  BACKEND_URL : string;
  full_year : Z;
  server : list request -> request -> reply
}.

Definition API (e : env) : string := BACKEND_URL e +:+ "/api".

(** The mutable world: the pending React state [ui] of the component, the
    browser's localStorage, and the events so far, newest first. *)
Record world (S : Type) : Type := mkWorld {
  ui : S;
  localStorage : gmap string string;
  trace : list event
}.
Arguments mkWorld {S} _ _ _.
Arguments ui {S} _.
Arguments localStorage {S} _.
Arguments trace {S} _.

Definition requests_of (t : list event) : list request :=
  omap (fun ev => match ev with Request r => Some r | _ => None end) (rev t).

Arguments requests_of _ : simpl never.


(** [emits w w' es]: between [w] and [w'] exactly the events [es] happened,
    in that order. *)
Definition emits {S} (w w' : world S) (es : list event) : Prop :=
  trace w' = (rev es ++ trace w)%list.

(** The requests among a list of events, oldest first. *)
Definition requests_in (es : list event) : list request :=
  omap (fun ev => match ev with Request r => Some r | _ => None end) es.

(** ** The handler monad *)

Definition M (S A : Type) : Type := env -> world S -> completion A * world S.

Definition ret {S A} (a : A) : M S A := fun _ w => (Normal a, w).

Definition bind {S A B} (c : M S A) (k : A -> M S B) : M S B :=
  fun e w =>
    match c e w with
    | (Normal a, w') => k a e w'
    | (Abrupt x, w') => (Abrupt x, w')
    end.

#[global] Instance M_ret {S} : MRet (M S) := @ret S.
#[global] Instance M_bind {S} : MBind (M S) := fun A B k c => bind c k.

Definition throw {S A} (x : exn) : M S A := fun _ w => (Abrupt x, w).

(** Lift a pure evaluation that may throw. *)
Definition eval {S A} (c : completion A) : M S A := fun _ w => (c, w).

(** [try { body } catch (error) { handler }] *)
Definition try_catch {S A} (body : M S A) (handler : exn -> M S A) : M S A :=
  fun e w =>
    match body e w with
    | (Normal a, w') => (Normal a, w')
    | (Abrupt x, w') => handler x e w'
    end.

(** [try { body } finally { final }] *)
Definition try_finally {S A} (body : M S A) (final : M S unit) : M S A :=
  fun e w =>
    match body e w with
    | (r, w') =>
        match final e w' with
        | (Normal _, w'') => (r, w'')
        | (Abrupt x, w'') => (Abrupt x, w'')
        end
    end.

(** A call to an async function whose promise is dropped: its effects
    happen, a rejection is not seen by the caller. *)
Definition detached {S} (c : M S unit) : M S unit :=
  fun e w => (Normal tt, snd (c e w)).

Definition ask {S} : M S env := fun e w => (Normal e, w).

Definition emit {S} (ev : event) : M S unit :=
  fun _ w => (Normal tt, mkWorld (ui w) (localStorage w) (ev :: trace w)).

(** A React state setter: [setX(v)] or [setX(prev => f prev)]. *)
Definition set_state {S} (f : S -> S) : M S unit :=
  fun _ w => (Normal tt, mkWorld (f (ui w)) (localStorage w) (trace w)).

(** A functional update whose updater may itself throw. *)
Definition update_state {S} (f : S -> completion S) : M S unit :=
  fun _ w =>
    match f (ui w) with
    | Normal s => (Normal tt, mkWorld s (localStorage w) (trace w))
    | Abrupt x => (Abrupt x, w)
    end.

(** localStorage *)
Definition getItem {S} (k : string) : M S (option string) :=
  fun _ w => (Normal (localStorage w !! k), w).

Definition setItem {S} (k v : string) : M S unit :=
  fun _ w => (Normal tt, mkWorld (ui w) (<[k := v]> (localStorage w)) (trace w)).

Definition removeItem {S} (k : string) : M S unit :=
  fun _ w => (Normal tt, mkWorld (ui w) (delete k (localStorage w)) (trace w)).

(** [`Bearer ${token}`], where a missing token prints as [null]. *)
Definition bearer (token : option string) : string :=
  "Bearer " +:+ default "null" token.

(** The body of an answer as axios hands it over: with [responseType:
    'blob'] it is a Blob, whether the request succeeded or not. *)
Definition delivered (r : request) (body : value) : value :=
  if req_blob r then VBlob body else body.

Definition delivered_error (r : request) (body : option value) : option value :=
  if req_blob r then VBlob <$> body else body.

(** [await axios.<m>(...)]: the request goes out, the backend answers. *)
Definition axios {S} (r : request) : M S value :=
  fun e w =>
    let w' := mkWorld (ui w) (localStorage w) (Request r :: trace w) in
    match server e (requests_of (trace w)) r with
    | Resolved d => (Normal (delivered r d), w')
    | Rejected rd => (Abrupt (AxiosError (delivered_error r rd)), w')
    end.

(** [await Promise.all([axios.get(a), axios.get(b)])]: both requests go out
    before either answer is looked at; the result rejects as soon as one of
    them does.  (When both fail, which error wins depends on timing; the
    callers ignore the error.) *)
Definition axios_all2 {S} (a b : request) : M S (value * value) :=
  fun e w =>
    let ra := server e (requests_of (trace w)) a in
    let rb := server e (requests_of (Request a :: trace w)) b in
    let w' := mkWorld (ui w) (localStorage w) (Request b :: Request a :: trace w) in
    match ra, rb with
    | Resolved da, Resolved db => (Normal (delivered a da, delivered b db), w')
    | Rejected rd, _ => (Abrupt (AxiosError (delivered_error a rd)), w')
    | _, Rejected rd => (Abrupt (AxiosError (delivered_error b rd)), w')
    end.

Definition axios_get (url : string) (token : option string) : request :=
  mkRequest GET url None (Some (bearer token)) false.

Definition toast_success {S} (m : string) : M S unit := emit (ToastSuccess (VStr m)).
Definition toast_error {S} (m : value) : M S unit := emit (ToastError m).

(** [error.response?.data?.detail] *)
Definition error_detail (x : exn) : value :=
  match x with
  | AxiosError (Some d) => get_opt d "detail"
  | _ => VUndefined
  end.

(** Run a handler on a world. *)
Definition run {S A} (c : M S A) (e : env) (w : world S) : completion A * world S := c e w.

End Eff.

(* ===================================================================== *)
(** * frontend/src/App.js: session store and router                       *)
(* ===================================================================== *)

Module App.
Import JS Eff.

Record state : Type := mkState {
  isAuthenticated : bool;
  isLoading : bool
}.

(** [useState(false)], [useState(true)] *)
Definition initial : state := mkState false true.

Definition setIsAuthenticated (b : bool) : M state unit :=
  set_state (fun s => mkState b (isLoading s)).
Definition setIsLoading (b : bool) : M state unit :=
  set_state (fun s => mkState (isAuthenticated s) b).

(** The result of [localStorage.getItem]: a stored string or [null]. *)
Definition item_value (t : option string) : value :=
  match t with Some s => VStr s | None => VNull end.

(** The mount effect. *)
Definition useEffect_mount : M state unit :=
  token ← getItem "token";
  (if truthy (item_value token) then setIsAuthenticated true else mret tt);;
  setIsLoading false.

(** [localStorage.setItem(k, v)] stores [String(v)]. *)
Definition handleLogin (token username : value) : M state unit :=
  setItem "token" (to_string token);;
  setItem "username" (to_string username);;
  setIsAuthenticated true.

Definition handleLogout : M state unit :=
  removeItem "token";;
  removeItem "username";;
  setIsAuthenticated false.

(** ** Routes *)

Inductive element : Type :=
| Navigate (to : string)
| Login
| Layout
| Dashboard
| Employees
| Promotions
| Payslips
| Settings.

(** A [<Route>]: an index route has no [path]. *)
#[warnings="-register-all"]
Inductive route : Type :=
| Route (path : option string) (el : element) (children : list route).

Definition login_route (isAuthenticated : bool) : route :=
  Route (Some "/login")
    (if isAuthenticated then Navigate "/dashboard" else Login) [].

Definition section_route (isAuthenticated : bool) : route :=
  Route (Some "/")
    (if isAuthenticated then Layout else Navigate "/login")
    [ Route None (Navigate "/dashboard") [];
      Route (Some "dashboard") Dashboard [];
      Route (Some "employees") Employees [];
      Route (Some "promotions") Promotions [];
      Route (Some "payslips") Payslips [];
      Route (Some "settings") Settings [] ].

Definition routes (isAuthenticated : bool) : list route :=
  [ login_route isAuthenticated; section_route isAuthenticated ].

(** *** Matching a location

    What follows is the matching of the router for routes whose paths are
    static, as they all are here.  [pathname] is the pathname of the
    location as the router compares it: decoded, and with no basename. *)

Definition lower (c : ascii) : ascii :=
  let n := N_of_ascii c in
  if ((65 <=? n) && (n <=? 90))%N then ascii_of_N (n + 32) else c.

Fixpoint lowercase (s : string) : string :=
  match s with
  | EmptyString => EmptyString
  | String c r => String (lower c) (lowercase r)
  end.

Fixpoint all_slashes (s : string) : bool :=
  match s with
  | EmptyString => true
  | String c r => Ascii.eqb c "/" && all_slashes r
  end.

Fixpoint drop_leading_slashes (s : string) : string :=
  match s with
  | String c r => if Ascii.eqb c "/" then drop_leading_slashes r else s
  | EmptyString => EmptyString
  end.

Fixpoint drop_trailing_slashes (s : string) : string :=
  match s with
  | EmptyString => EmptyString
  | String c r =>
      match drop_trailing_slashes r with
      | EmptyString => if Ascii.eqb c "/" then EmptyString else String c EmptyString
      | r' => String c r'
      end
  end.

(** [s.replace(/\/\/+/g, "/")]: of a run of slashes the first one stays;
    [after_slash] tells that the character before was one. *)
Fixpoint collapse_slashes (after_slash : bool) (s : string) : string :=
  match s with
  | String c r =>
      if Ascii.eqb c "/" then
        if after_slash then collapse_slashes true r else String c (collapse_slashes true r)
      else String c (collapse_slashes false r)
  | EmptyString => EmptyString
  end.

(** [joinPaths([a, b])] *)
Definition join_paths (a b : string) : string :=
  collapse_slashes false (a +:+ "/" +:+ b).

(** The pattern a path is compiled to: its trailing slashes go and it gets
    exactly one leading slash. *)
Definition compile (path : string) : string :=
  String "/" (drop_leading_slashes (drop_trailing_slashes path)).

(** [pattern] matches at the start of [s], letter case ignored; what is
    left of [s]. *)
Fixpoint strip_prefix (pattern s : string) : option string :=
  match pattern with
  | EmptyString => Some s
  | String p pattern' =>
      match s with
      | String c s' =>
          if Ascii.eqb (lower p) (lower c) then strip_prefix pattern' s' else None
      | EmptyString => None
      end
  end.

(** [/^pattern\/*$/i]: the pattern, then slashes only. *)
Definition matches_end (pattern s : string) : bool :=
  match strip_prefix pattern s with
  | Some rest => all_slashes rest
  | None => false
  end.

(** [s.replace(/(.)\/+$/, "$1")]: the trailing slashes go, the first
    character stays. *)
Definition base_of (s : string) : string :=
  match s with
  | String c r => String c (drop_trailing_slashes r)
  | EmptyString => EmptyString
  end.

Fixpoint string_drop (n : nat) (s : string) : string :=
  match n, s with
  | S n', String _ r => string_drop n' r
  | _, _ => s
  end.

Fixpoint string_take (n : nat) (s : string) : string :=
  match n, s with
  | S n', String c r => String c (string_take n' r)
  | _, _ => EmptyString
  end.

(** [matchPath({ path, end }, pathname)]: the [pathnameBase] of the match.
    A pattern that need not reach the end matches up to a slash or the
    end; for the path [/] it matches the leading slash alone. *)
Definition match_path (path : string) (to_end : bool) (pathname : string) : option string :=
  let pattern := compile path in
  if to_end then
    if matches_end pattern pathname then Some (base_of pathname) else None
  else if (String.eqb path "" || String.eqb path "/")%bool then
    match pathname with
    | String c _ => if Ascii.eqb c "/" then Some "/" else None
    | EmptyString => None
    end
  else
    match strip_prefix pattern pathname with
    | Some EmptyString => Some (base_of pathname)
    | Some (String c _) =>
        if Ascii.eqb c "/"
        then Some (base_of (string_take (String.length pattern) pathname))
        else None
    | None => None
    end.

(** A branch: a route that can end a match, with its ancestors, outermost
    first, each under its path relative to its parent; [branch_path] is
    the path of the whole chain and [branch_index] tells an index route. *)
Record branch : Type := mkBranch {
  branch_path : string;
  branch_index : bool;
  branch_routes : list (string * element)
}.

(** [flattenRoutes]: the branches of a route, those through its children
    first.  An absolute path is made relative to the path of the parent. *)
Fixpoint flatten_route (parent_path : string) (parents : list (string * element))
    (r : route) : list branch :=
  let 'Route path el children := r in
  let given := default "" path in
  let relative :=
    if String.prefix "/" given then string_drop (String.length parent_path) given
    else given in
  let whole := join_paths parent_path relative in
  let chain := parents ++ [(relative, el)] in
  (fix over (rs : list route) : list branch :=
     match rs with
     | [] => []
     | c :: rs' => flatten_route whole chain c ++ over rs'
     end) children
  ++ [ mkBranch whole (bool_decide (path = None)) chain ].

Definition flatten_routes (rs : list route) : list branch :=
  concat (map (flatten_route "" []) rs).

(** [path.split("/")] *)
Fixpoint split_on_slash (s cur : string) : list string :=
  match s with
  | EmptyString => [cur]
  | String c r =>
      if Ascii.eqb c "/" then cur :: split_on_slash r ""
      else split_on_slash r (cur +:+ String c "")
  end.

(** [computeScore] for a static path: one for each segment, ten more for
    a segment that is not empty and one more for an empty one, two more
    for an index route. *)
Definition score (b : branch) : nat :=
  let segments := split_on_slash (branch_path b) "" in
  (length segments + (if branch_index b then 2 else 0)
   + list_sum (map (fun seg => if String.eqb seg "" then 1 else 10) segments))%nat.

(** [rankRouteBranches]: a stable sort, the highest score first.  [b]
    comes before the branches of [l] in the route table, so it goes before
    those of the same score. *)
Fixpoint insert_ranked (b : branch) (l : list branch) : list branch :=
  match l with
  | [] => [b]
  | x :: l' => if (score x <=? score b)%nat then b :: l else x :: insert_ranked b l'
  end.

Definition rank (bs : list branch) : list branch :=
  foldr insert_ranked [] bs.

(** [matchRouteBranch]: the routes of the branch match one after the
    other, each against what the ones before it have left of the
    pathname, the last one to the end. *)
Fixpoint match_chain (chain : list (string * element)) (matched pathname : string)
    : option (list element) :=
  match chain with
  | [] => Some []
  | (relative, el) :: chain' =>
      let remaining :=
        if String.eqb matched "/" then pathname
        else match string_drop (String.length matched) pathname with
             | EmptyString => "/"
             | rest => rest
             end in
      match match_path relative (bool_decide (chain' = [])) remaining with
      | None => None
      | Some base =>
          let matched' := if String.eqb base "/" then matched else join_paths matched base in
          cons el <$> match_chain chain' matched' pathname
      end
  end.

(** The first branch, in rank order, that matches. *)
Fixpoint first_match (bs : list branch) (pathname : string) : option (list element) :=
  match bs with
  | [] => None
  | b :: bs' =>
      match match_chain (branch_routes b) "/" pathname with
      | Some m => Some m
      | None => first_match bs' pathname
      end
  end.

(** [matchRoutes], which reads [location.pathname || "/"]. *)
Definition match_routes (rs : list route) (pathname : string) : option (list element) :=
  first_match (rank (flatten_routes rs)) (if String.eqb pathname "" then "/" else pathname).

(** What a location resolves to: a redirect, a stack of rendered views
    (a layout and what its outlet shows), or nothing at all. *)
Inductive resolution : Type :=
| Redirect (to : string)
| Shows (views : list element)
| NoMatch.

(** Only [Layout] renders an [<Outlet />]; a [<Navigate>] element replaces
    everything below it. *)
Fixpoint render (matched : list element) : resolution :=
  match matched with
  | [] => Shows []
  | Navigate to :: _ => Redirect to
  | Layout :: rest =>
      match render rest with
      | Shows vs => Shows (Layout :: vs)
      | other => other
      end
  | el :: _ => Shows [el]
  end.

Definition resolve (isAuthenticated : bool) (pathname : string) : resolution :=
  match match_routes (routes isAuthenticated) pathname with
  | Some m => render m
  | None => NoMatch
  end.

End App.

(* ===================================================================== *)
(** * components/Settings: the credential-change form                     *)
(* ===================================================================== *)

Module Settings.
Import JS Eff.

(** The four inputs are text inputs; every write to the draft stores
    [e.target.value], a string. *)
Record form : Type := mkForm {
  current_password : string;
  new_username : string;
  new_password : string;
  confirm_password : string
}.

Record state : Type := mkState {
  formData : form;
  loading : bool
}.

Definition emptyForm : form := mkForm "" "" "" "".

Definition initial : state := mkState emptyForm false.

Definition setFormData (f : form) : M state unit :=
  set_state (fun s => mkState f (loading s)).
Definition setLoading (b : bool) : M state unit :=
  set_state (fun s => mkState (formData s) b).

(** The object literal passed to [axios.put]. *)
Definition payload (f : form) : value :=
  VObj (literal
    [ ("current_password", VStr (current_password f));
      ("new_username", or_else (VStr (new_username f)) VUndefined);
      ("new_password", or_else (VStr (new_password f)) VUndefined) ]).

Definition credentials_request (e : env) (token : option string) (f : form) : request :=
  mkRequest PUT (API e +:+ "/admin/credentials") (Some (payload f)) (Some (bearer token)) false.

(** [handleSubmit], closed over the rendered state [snap]. *)
Definition handleSubmit (snap : state) : M state unit :=
  let formData := formData snap in
  if negb (String.eqb (new_password formData) (confirm_password formData)) then
    toast_error (VStr "New password and confirm password do not match")
  else
    setLoading true;;
    try_finally
      (try_catch
         (token ← getItem "token";
          e ← ask;
          axios (credentials_request e token formData);;
          toast_success "Admin credentials updated successfully";;
          (if truthy (VStr (new_username formData))
           then setItem "username" (new_username formData)
           else mret tt);;
          setFormData emptyForm)
         (fun error =>
            toast_error (or_else (error_detail error)
                                 (VStr "Failed to update credentials"))))
      (setLoading false).

End Settings.

(* ===================================================================== *)
(** * components/Promotions                                               *)
(* ===================================================================== *)

Module Promotions.
Import JS Eff.

(** [promotions] and [employees] hold whatever the backend last sent;
    the draft [formData] is always an object (it is only ever replaced by an
    object literal), kept as its property list. *)
Record state : Type := mkState {
  promotions : value;
  employees : value;
  loading : bool;
  dialogOpen : bool;
  formData : props
}.

Definition zeroSalary : value :=
  VObj (literal
    [ ("basic", VInt 0);
      ("house_rent_allowance", VInt 0);
      ("transport_allowance", VInt 0);
      ("fixed_allowance", VInt 0);
      ("professional_tax", VInt 0) ]).

(** The argument of [useState] for the draft. *)
Definition initialFormData : props :=
  literal
    [ ("employee_id", VStr "");
      ("new_designation", VStr "");
      ("promotion_date", VStr "");
      ("new_salary_components", zeroSalary) ].

Definition initial : state := mkState (VArr []) (VArr []) true false initialFormData.

Definition setPromotions (v : value) : M state unit :=
  set_state (fun s => mkState v (employees s) (loading s) (dialogOpen s) (formData s)).
Definition setEmployees (v : value) : M state unit :=
  set_state (fun s => mkState (promotions s) v (loading s) (dialogOpen s) (formData s)).
Definition setLoading (b : bool) : M state unit :=
  set_state (fun s => mkState (promotions s) (employees s) b (dialogOpen s) (formData s)).
Definition setDialogOpen (b : bool) : M state unit :=
  set_state (fun s => mkState (promotions s) (employees s) (loading s) b (formData s)).
Definition setFormData (f : props -> props) : M state unit :=
  set_state (fun s => mkState (promotions s) (employees s) (loading s) (dialogOpen s)
                        (f (formData s))).

Definition prop (o : props) (k : string) : value := default VUndefined (lookup_prop k o).

Definition fetchData : M state unit :=
  try_finally
    (try_catch
       (token ← getItem "token";
        e ← ask;
        res ← axios_all2 (axios_get (API e +:+ "/promotions") token)
                         (axios_get (API e +:+ "/employees") token);
        setPromotions (fst res);;
        setEmployees (snd res))
       (fun error => toast_error (VStr "Failed to fetch data")))
    (setLoading false).

(** The object literal of [resetForm]. *)
Definition resetFormData : props :=
  literal
    [ ("employee_id", VStr "");
      ("new_designation", VStr "");
      ("promotion_date", VStr "");
      ("new_salary_components", zeroSalary) ].

Definition resetForm : M state unit := setFormData (fun _ => resetFormData).

Definition create_request (e : env) (token : option string) (formData : props) : request :=
  mkRequest POST (API e +:+ "/promotions") (Some (VObj formData)) (Some (bearer token)) false.

Definition handleSubmit (snap : state) : M state unit :=
  try_catch
    (token ← getItem "token";
     e ← ask;
     axios (create_request e token (formData snap));;
     toast_success "Promotion created successfully";;
     setDialogOpen false;;
     resetForm;;
     detached fetchData)
    (fun error =>
       toast_error (or_else (error_detail error) (VStr "Failed to create promotion"))).

(** [arr.find(e => e.id === employeeId)] *)
Fixpoint find_by_id (items : list value) (employeeId : string) : completion value :=
  match items with
  | [] => Normal VUndefined
  | e :: rest =>
      match get e "id" with
      | Abrupt x => Abrupt x
      | Normal i => if strict_eq_string i employeeId then Normal e
                    else find_by_id rest employeeId
      end
  end.

(** [employees.find(...)]: only an array has the method. *)
Definition find_employee (employees : value) (employeeId : string) : completion value :=
  match employees with
  | VArr items => find_by_id items employeeId
  | VUndefined | VNull =>
      Abrupt (TypeError ("Cannot read properties of " +:+ to_string employees))
  | _ => Abrupt (TypeError "employees.find is not a function")
  end.

(** The select hands over the chosen item's value, a string. *)
Definition handleEmployeeChange (snap : state) (employeeId : string) : M state unit :=
  employee ← eval (find_employee (employees snap) employeeId);
  if truthy employee then
    designation ← eval (get employee "designation");
    salary ← eval (get employee "salary_components");
    setFormData (fun prev =>
      literal (spread (VObj prev) ++
        [ ("employee_id", VStr employeeId);
          ("new_designation", designation);
          ("new_salary_components", VObj (literal (spread salary))) ]))
  else mret tt.

(** [handleSalaryChange] with [e.target.name] and [e.target.value]. *)
Definition handleSalaryChange (name value : string) : M state unit :=
  setFormData (fun prev =>
    literal (spread (VObj prev) ++
      [ ("new_salary_components",
         VObj (literal (spread (prop prev "new_salary_components") ++
           [ (name, or_else (VNum (parseFloat (VStr value))) (VInt 0)) ]))) ])).

End Promotions.

(* ===================================================================== *)
(** * components/Employees                                                *)
(* ===================================================================== *)

Module Employees.
Import JS Eff.

(** The draft is [value]: [handleEdit] stores a row of the fetched list in
    it as it came from the backend. *)
Record state : Type := mkState {
  employees : value;
  loading : bool;
  dialogOpen : bool;
  editingEmployee : value;
  deleteDialogOpen : bool;
  employeeToDelete : value;
  formData : value
}.

(** The argument of [useState] for the draft. *)
Definition initialFormData : value :=
  VObj (literal
    [ ("employee_no", VStr "");
      ("name", VStr "");
      ("designation", VStr "");
      ("date_of_joining", VStr "");
      ("work_location", VStr "");
      ("department", VStr "");
      ("bank_account_no", VStr "");
      ("salary_components",
       VObj (literal
         [ ("basic", VInt 0);
           ("house_rent_allowance", VInt 0);
           ("transport_allowance", VInt 0);
           ("fixed_allowance", VInt 0);
           ("professional_tax", VInt 0) ])) ]).

Definition initial : state :=
  mkState (VArr []) true false VNull false VNull initialFormData.

Definition setEmployees (v : value) : M state unit :=
  set_state (fun s => mkState v (loading s) (dialogOpen s) (editingEmployee s)
                        (deleteDialogOpen s) (employeeToDelete s) (formData s)).
Definition setLoading (b : bool) : M state unit :=
  set_state (fun s => mkState (employees s) b (dialogOpen s) (editingEmployee s)
                        (deleteDialogOpen s) (employeeToDelete s) (formData s)).
Definition setDialogOpen (b : bool) : M state unit :=
  set_state (fun s => mkState (employees s) (loading s) b (editingEmployee s)
                        (deleteDialogOpen s) (employeeToDelete s) (formData s)).
Definition setEditingEmployee (v : value) : M state unit :=
  set_state (fun s => mkState (employees s) (loading s) (dialogOpen s) v
                        (deleteDialogOpen s) (employeeToDelete s) (formData s)).
Definition setDeleteDialogOpen (b : bool) : M state unit :=
  set_state (fun s => mkState (employees s) (loading s) (dialogOpen s) (editingEmployee s)
                        b (employeeToDelete s) (formData s)).
Definition setEmployeeToDelete (v : value) : M state unit :=
  set_state (fun s => mkState (employees s) (loading s) (dialogOpen s) (editingEmployee s)
                        (deleteDialogOpen s) v (formData s)).
Definition setFormData (v : value) : M state unit :=
  set_state (fun s => mkState (employees s) (loading s) (dialogOpen s) (editingEmployee s)
                        (deleteDialogOpen s) (employeeToDelete s) v).
Definition updateFormData (f : value -> completion value) : M state unit :=
  update_state (fun s =>
    match f (formData s) with
    | Normal v => Normal (mkState (employees s) (loading s) (dialogOpen s) (editingEmployee s)
                            (deleteDialogOpen s) (employeeToDelete s) v)
    | Abrupt x => Abrupt x
    end).

Definition fetchEmployees : M state unit :=
  try_finally
    (try_catch
       (token ← getItem "token";
        e ← ask;
        data ← axios (axios_get (API e +:+ "/employees") token);
        setEmployees data)
       (fun error => toast_error (VStr "Failed to fetch employees")))
    (setLoading false).

(** The object literal of [resetForm]; it carries one key more than the
    initial draft does. *)
Definition resetFormData : value :=
  VObj (literal
    [ ("employee_no", VStr "");
      ("name", VStr "");
      ("designation", VStr "");
      ("date_of_joining", VStr "");
      ("work_location", VStr "");
      ("department", VStr "");
      ("bank_account_no", VStr "");
      ("salary_components",
       VObj (literal
         [ ("basic", VInt 0);
           ("house_rent_allowance", VInt 0);
           ("transport_allowance", VInt 0);
           ("fixed_allowance", VInt 0);
           ("home_collection_visit", VInt 0);
           ("professional_tax", VInt 0) ])) ]).

Definition resetForm : M state unit :=
  setFormData resetFormData;;
  setEditingEmployee VNull.

Definition update_request (e : env) (token : option string) (id formData : value) : request :=
  mkRequest PUT (API e +:+ "/employees/" +:+ to_string id)
    (Some formData) (Some (bearer token)) false.

Definition create_request (e : env) (token : option string) (formData : value) : request :=
  mkRequest POST (API e +:+ "/employees") (Some formData) (Some (bearer token)) false.

Definition handleSubmit (snap : state) : M state unit :=
  try_catch
    (token ← getItem "token";
     e ← ask;
     (if truthy (editingEmployee snap) then
        id ← eval (get (editingEmployee snap) "id");
        axios (update_request e token id (formData snap));;
        toast_success "Employee updated successfully"
      else
        axios (create_request e token (formData snap));;
        toast_success "Employee created successfully");;
     setDialogOpen false;;
     resetForm;;
     detached fetchEmployees)
    (fun error => toast_error (or_else (error_detail error) (VStr "Operation failed"))).

Definition handleEdit (employee : value) : M state unit :=
  setEditingEmployee employee;;
  setFormData employee;;
  setDialogOpen true.

Definition handleDeleteClick (employee : value) : M state unit :=
  setEmployeeToDelete employee;;
  setDeleteDialogOpen true.

Definition handleDelete (snap : state) : M state unit :=
  try_catch
    (token ← getItem "token";
     e ← ask;
     id ← eval (get (employeeToDelete snap) "id");
     axios (mkRequest DELETE (API e +:+ "/employees/" +:+ to_string id)
              None (Some (bearer token)) false);;
     toast_success "Employee terminated successfully";;
     setDeleteDialogOpen false;;
     detached fetchEmployees)
    (fun error => toast_error (VStr "Failed to terminate employee")).

Definition handleInputChange (name value : string) : M state unit :=
  updateFormData (fun prev =>
    Normal (VObj (literal (spread prev ++ [ (name, VStr value) ])))).

Definition handleSalaryChange (name value : string) : M state unit :=
  updateFormData (fun prev =>
    match get prev "salary_components" with
    | Abrupt x => Abrupt x
    | Normal sc =>
        Normal (VObj (literal (spread prev ++
          [ ("salary_components",
             VObj (literal (spread sc ++
               [ (name, or_else (VNum (parseFloat (VStr value))) (VInt 0)) ]))) ])))
    end).

End Employees.

(* ===================================================================== *)
(** * frontend/src/components/Dashboard.js                                *)
(* ===================================================================== *)

Module Dashboard.
Import JS Eff.

Record state : Type := mkState {
  stats : value;
  loading : bool
}.

Definition initialStats : value :=
  VObj (literal
    [ ("total_active_employees", VInt 0);
      ("total_monthly_payroll", VInt 0);
      ("total_payslips_generated", VInt 0) ]).

Definition initial : state := mkState initialStats true.

Definition setStats (v : value) : M state unit :=
  set_state (fun s => mkState v (loading s)).
Definition setLoading (b : bool) : M state unit :=
  set_state (fun s => mkState (stats s) b).

Definition fetchStats : M state unit :=
  try_finally
    (try_catch
       (token ← getItem "token";
        e ← ask;
        data ← axios (axios_get (API e +:+ "/dashboard/stats") token);
        setStats data)
       (fun error => emit (ConsoleError "Error fetching stats:" error)))
    (setLoading false).

End Dashboard.

(* ===================================================================== *)
(** * frontend/src/components/Payslips.js                                 *)
(* ===================================================================== *)

Module Payslips.
Import JS Eff.

Record state : Type := mkState {
  payslips : value;
  employees : value;
  loading : bool;
  dialogOpen : bool;
  editingPayslip : value;
  editFormData : props;
  formData : props
}.

Definition prop (o : props) (k : string) : value := default VUndefined (lookup_prop k o).

Definition defaultEditFormData : props :=
  literal [ ("paid_days", VInt 30); ("lop_days", VInt 0) ].

(** [new Date().getFullYear().toString()] *)
Definition this_year (e : env) : value := VStr (to_string (VInt (full_year e))).

(** The argument of [useState] for the draft. *)
Definition initialFormData (e : env) : props :=
  literal
    [ ("employee_id", VStr "");
      ("month", VStr "");
      ("year", this_year e);
      ("paid_days", VInt 30);
      ("lop_days", VInt 0);
      ("home_collection_visit", VInt 0) ].

Definition initial (e : env) : state :=
  mkState (VArr []) (VArr []) true false VNull defaultEditFormData (initialFormData e).

Definition months : list (string * string) :=
  [ ("1", "January"); ("2", "February"); ("3", "March"); ("4", "April");
    ("5", "May"); ("6", "June"); ("7", "July"); ("8", "August");
    ("9", "September"); ("10", "October"); ("11", "November"); ("12", "December") ].

Definition setPayslips (v : value) : M state unit :=
  set_state (fun s => mkState v (employees s) (loading s) (dialogOpen s)
                        (editingPayslip s) (editFormData s) (formData s)).
Definition setEmployees (v : value) : M state unit :=
  set_state (fun s => mkState (payslips s) v (loading s) (dialogOpen s)
                        (editingPayslip s) (editFormData s) (formData s)).
Definition setLoading (b : bool) : M state unit :=
  set_state (fun s => mkState (payslips s) (employees s) b (dialogOpen s)
                        (editingPayslip s) (editFormData s) (formData s)).
Definition setDialogOpen (b : bool) : M state unit :=
  set_state (fun s => mkState (payslips s) (employees s) (loading s) b
                        (editingPayslip s) (editFormData s) (formData s)).
Definition setEditingPayslip (v : value) : M state unit :=
  set_state (fun s => mkState (payslips s) (employees s) (loading s) (dialogOpen s)
                        v (editFormData s) (formData s)).
Definition setEditFormData (f : props -> props) : M state unit :=
  set_state (fun s => mkState (payslips s) (employees s) (loading s) (dialogOpen s)
                        (editingPayslip s) (f (editFormData s)) (formData s)).
Definition setFormData (f : props -> props) : M state unit :=
  set_state (fun s => mkState (payslips s) (employees s) (loading s) (dialogOpen s)
                        (editingPayslip s) (editFormData s) (f (formData s))).

Definition fetchData : M state unit :=
  try_finally
    (try_catch
       (token ← getItem "token";
        e ← ask;
        res ← axios_all2 (axios_get (API e +:+ "/payslips") token)
                         (axios_get (API e +:+ "/employees") token);
        setPayslips (fst res);;
        setEmployees (snd res))
       (fun error => toast_error (VStr "Failed to fetch data")))
    (setLoading false).

(** The object literal of [resetForm]. *)
Definition resetFormData (e : env) : props :=
  literal
    [ ("employee_id", VStr "");
      ("month", VStr "");
      ("year", this_year e);
      ("paid_days", VInt 30);
      ("lop_days", VInt 0);
      ("home_collection_visit", VInt 0) ].

Definition resetForm : M state unit :=
  e ← ask;
  setFormData (fun _ => resetFormData e).

Definition generate_request (e : env) (token : option string) (payload : value) : request :=
  mkRequest POST (API e +:+ "/payslips/generate") (Some payload) (Some (bearer token)) false.

(** The payload of [handleSubmit]: the draft with its numeric fields
    parsed. *)
Definition submit_payload (formData : props) : value :=
  VObj (literal (spread (VObj formData) ++
    [ ("month", VNum (parseInt (prop formData "month")));
      ("year", VNum (parseInt (prop formData "year")));
      ("paid_days", VNum (parseInt (prop formData "paid_days")));
      ("lop_days", VNum (parseInt (prop formData "lop_days")));
      ("home_collection_visit",
       or_else (VNum (parseFloat (prop formData "home_collection_visit"))) (VInt 0)) ])).

Definition handleSubmit (snap : state) : M state unit :=
  try_catch
    (token ← getItem "token";
     e ← ask;
     axios (generate_request e token (submit_payload (formData snap)));;
     toast_success "Payslip generated successfully";;
     setDialogOpen false;;
     resetForm;;
     detached fetchData)
    (fun error =>
       toast_error (or_else (error_detail error) (VStr "Failed to generate payslip"))).

(** [months[month - 1].label] for an integer [month]. *)
Definition month_label (month : Z) : completion string :=
  match (if (1 <=? month)%Z then months !! Z.to_nat (month - 1) else None) with
  | Some m => Normal (snd m)
  | None => Abrupt (TypeError "Cannot read properties of undefined (reading 'label')")
  end.

(** The template literal naming the saved file. *)
Definition download_name (employeeNo : value) (label : string) (year : value) : string :=
  "payslip_" +:+ to_string employeeNo +:+ "_" +:+ label +:+ "_" +:+ to_string year +:+ ".pdf".

Definition download_request (e : env) (token : option string) (payslipId : value) : request :=
  mkRequest GET (API e +:+ "/payslips/download/" +:+ to_string payslipId)
    None (Some (bearer token)) true.

Definition handleDownload (payslipId employeeNo : value) (month : Z) (year : value)
  : M state unit :=
  try_catch
    (token ← getItem "token";
     e ← ask;
     data ← axios (download_request e token payslipId);
     label ← eval (month_label month);
     emit (SaveFile (download_name employeeNo label year) data);;
     toast_success "Payslip downloaded successfully")
    (fun error =>
       emit (ConsoleError "Download error:" error);;
       toast_error (or_else (error_detail error) (VStr "Failed to download payslip"))).

Definition handleEditPayslip (payslip : value) : M state unit :=
  id ← eval (get payslip "id");
  setEditingPayslip id;;
  paid ← eval (get payslip "paid_days");
  lop ← eval (get payslip "lop_days");
  setEditFormData (fun _ => literal [ ("paid_days", paid); ("lop_days", lop) ]).

Definition handleCancelEdit : M state unit :=
  setEditingPayslip VNull;;
  setEditFormData (fun _ => literal [ ("paid_days", VInt 30); ("lop_days", VInt 0) ]).

(** The inline inputs: [setEditFormData(prev => ({ ...prev, [k]: e.target.value }))]. *)
Definition changeEditField (k v : string) : M state unit :=
  setEditFormData (fun prev => literal (spread (VObj prev) ++ [ (k, VStr v) ])).

(** The dialog inputs: [setFormData(prev => ({ ...prev, [k]: value }))]. *)
Definition changeField (k v : string) : M state unit :=
  setFormData (fun prev => literal (spread (VObj prev) ++ [ (k, VStr v) ])).

Definition delete_request (e : env) (token : option string) (id : value) : request :=
  mkRequest DELETE (API e +:+ "/payslips/" +:+ to_string id) None (Some (bearer token)) false.

(** The payload of the regeneration in [handleSaveEdit]. *)
Definition edit_payload (employee_id month year : value) (editFormData : props) : value :=
  VObj (literal
    [ ("employee_id", employee_id);
      ("month", month);
      ("year", year);
      ("paid_days", VNum (parseInt (prop editFormData "paid_days")));
      ("lop_days", VNum (parseInt (prop editFormData "lop_days"))) ]).

Definition handleSaveEdit (snap : state) (payslip : value) : M state unit :=
  try_catch
    (token ← getItem "token";
     e ← ask;
     id ← eval (get payslip "id");
     axios (delete_request e token id);;
     employee_id ← eval (get payslip "employee_id");
     month ← eval (get payslip "month");
     year ← eval (get payslip "year");
     axios (generate_request e token
              (edit_payload employee_id month year (editFormData snap)));;
     toast_success "Payslip updated successfully";;
     setEditingPayslip VNull;;
     detached fetchData)
    (fun error =>
       toast_error (or_else (error_detail error) (VStr "Failed to update payslip"))).

End Payslips.

(* ===================================================================== *)
(** * The earlier revision of the Payslips component                      *)
(* ===================================================================== *)

Module PayslipsBasic.
Import JS Eff.

Record state : Type := mkState {
  payslips : value;
  employees : value;
  loading : bool;
  dialogOpen : bool;
  formData : props
}.

Definition prop (o : props) (k : string) : value := default VUndefined (lookup_prop k o).

Definition initialFormData (e : env) : props :=
  literal
    [ ("employee_id", VStr "");
      ("month", VStr "");
      ("year", Payslips.this_year e);
      ("paid_days", VInt 30);
      ("lop_days", VInt 0) ].

Definition initial (e : env) : state :=
  mkState (VArr []) (VArr []) true false (initialFormData e).

Definition setPayslips (v : value) : M state unit :=
  set_state (fun s => mkState v (employees s) (loading s) (dialogOpen s) (formData s)).
Definition setEmployees (v : value) : M state unit :=
  set_state (fun s => mkState (payslips s) v (loading s) (dialogOpen s) (formData s)).
Definition setLoading (b : bool) : M state unit :=
  set_state (fun s => mkState (payslips s) (employees s) b (dialogOpen s) (formData s)).
Definition setDialogOpen (b : bool) : M state unit :=
  set_state (fun s => mkState (payslips s) (employees s) (loading s) b (formData s)).
Definition setFormData (f : props -> props) : M state unit :=
  set_state (fun s => mkState (payslips s) (employees s) (loading s) (dialogOpen s)
                        (f (formData s))).

Definition fetchData : M state unit :=
  try_finally
    (try_catch
       (token ← getItem "token";
        e ← ask;
        res ← axios_all2 (axios_get (API e +:+ "/payslips") token)
                         (axios_get (API e +:+ "/employees") token);
        setPayslips (fst res);;
        setEmployees (snd res))
       (fun error => toast_error (VStr "Failed to fetch data")))
    (setLoading false).

(** The object literal of [resetForm]. *)
Definition resetFormData (e : env) : props :=
  literal
    [ ("employee_id", VStr "");
      ("month", VStr "");
      ("year", Payslips.this_year e);
      ("paid_days", VInt 30);
      ("lop_days", VInt 0) ].

Definition resetForm : M state unit :=
  e ← ask;
  setFormData (fun _ => resetFormData e).

Definition submit_payload (formData : props) : value :=
  VObj (literal (spread (VObj formData) ++
    [ ("month", VNum (parseInt (prop formData "month")));
      ("year", VNum (parseInt (prop formData "year")));
      ("paid_days", VNum (parseInt (prop formData "paid_days")));
      ("lop_days", VNum (parseInt (prop formData "lop_days"))) ])).

Definition handleSubmit (snap : state) : M state unit :=
  try_catch
    (token ← getItem "token";
     e ← ask;
     axios (Payslips.generate_request e token (submit_payload (formData snap)));;
     toast_success "Payslip generated successfully";;
     setDialogOpen false;;
     resetForm;;
     detached fetchData)
    (fun error =>
       toast_error (or_else (error_detail error) (VStr "Failed to generate payslip"))).

Definition handleDownload (payslipId employeeNo : value) (month : Z) (year : value)
  : M state unit :=
  try_catch
    (token ← getItem "token";
     e ← ask;
     data ← axios (Payslips.download_request e token payslipId);
     label ← eval (Payslips.month_label month);
     emit (SaveFile (Payslips.download_name employeeNo label year) data);;
     toast_success "Payslip downloaded successfully")
    (fun error => toast_error (VStr "Failed to download payslip")).

End PayslipsBasic.

(* ===================================================================== *)
(** * The vocabulary of the specification                                 *)
(* ===================================================================== *)

Module Spec.
Import JS Eff.

(** ** Numeric input *)

Definition is_digit (c : ascii) : bool := bool_decide (is_Some (digit_of c)).

(** An input "is numeric" when, after leading blanks and a sign, it begins
    with a digit, with a point followed by a digit, or with [Infinity];
    the empty input and every other text is non-numeric. *)
Definition begins_number (s : string) : bool :=
  match snd (strip_sign (trim_start s)) with
  | String c r =>
      is_digit c
      || (Ascii.eqb c "." && match r with String d _ => is_digit d | EmptyString => false end)
      || String.prefix "Infinity" (String c r)
  | EmptyString => false
  end.

(** The decimal text of a natural number, as typed into a number input. *)
Definition decimal (n : N) : string := digits_string (N_digits n).

(** The whole numbers that are binary64 values whatever their size. *)
Definition exact (n : N) : Prop := (n < 2 ^ 53)%N.

(** A day-count field holding the whole number [n]: its decimal text, as
    typed, or the number itself, as the backend sends a day count. *)
Definition whole_days (v : value) (n : N) : Prop :=
  (v = VStr (decimal n) /\ exact n) \/ (v = VNum (Fin false n 0) /\ (n <= 366)%N).

(** ** Months *)

Definition month_name (month : Z) : string :=
  match month with
  | 1 => "January" | 2 => "February" | 3 => "March" | 4 => "April"
  | 5 => "May" | 6 => "June" | 7 => "July" | 8 => "August"
  | 9 => "September" | 10 => "October" | 11 => "November" | 12 => "December"
  | _ => ""
  end%Z.

Definition payslip_filename (employee_no : value) (month : Z) (year : value) : string :=
  "payslip_" +:+ to_string employee_no +:+ "_" +:+ month_name month +:+ "_"
  +:+ to_string year +:+ ".pdf".

(** ** Session *)

(** A token, that is a non-empty string, is held in durable storage. *)
Definition token_stored (st : gmap string string) : Prop :=
  exists t, st !! "token" = Some t /\ t <> "".

(** Authenticated exactly when a token is stored. *)
Definition session_inv (w : world App.state) : Prop :=
  App.isAuthenticated (ui w) = true <-> token_stored (localStorage w).

(** ** Locations *)

(** A pathname without its trailing slashes. *)
Fixpoint chomp (s : string) : string :=
  match s with
  | EmptyString => EmptyString
  | String c r =>
      let r' := chomp r in
      if (Ascii.eqb c "/" && String.eqb r' "")%bool then EmptyString else String c r'
  end.

(** The location a pathname names: the case of its letters does not
    count, nor do slashes at its end (the root stays [/]); an empty
    pathname names the root. *)
Definition location (pathname : string) : string :=
  match pathname with
  | EmptyString => "/"
  | String c r => App.lowercase (String c (chomp r))
  end.

(** The locations of the authenticated section. *)
Definition section_paths : list string :=
  ["/"; "/dashboard"; "/employees"; "/promotions"; "/payslips"; "/settings"].

Definition in_authenticated_section (pathname : string) : bool :=
  bool_decide (location pathname ∈ section_paths).

Definition is_login_path (pathname : string) : bool :=
  String.eqb (location pathname) "/login".

(** The view each location of the section shows inside the layout. *)
Definition section_view (loc : string) : option App.element :=
  if String.eqb loc "/dashboard" then Some App.Dashboard
  else if String.eqb loc "/employees" then Some App.Employees
  else if String.eqb loc "/promotions" then Some App.Promotions
  else if String.eqb loc "/payslips" then Some App.Payslips
  else if String.eqb loc "/settings" then Some App.Settings
  else None.

(** What each location resolves to, with and without a session. *)
Definition resolution (isAuthenticated : bool) (loc : string) : App.resolution :=
  if String.eqb loc "/login" then
    if isAuthenticated then App.Redirect "/dashboard" else App.Shows [App.Login]
  else if String.eqb loc "/" then
    App.Redirect (if isAuthenticated then "/dashboard" else "/login")
  else
    match section_view loc with
    | Some v => if isAuthenticated then App.Shows [App.Layout; v] else App.Redirect "/login"
    | None => App.NoMatch
    end.

(** ** Requests *)

(** The header [Authorization: Bearer <token>] for the stored token; with
    nothing stored the header reads [Bearer null]. *)
Definition authorization_header (token : option string) : string :=
  match token with
  | Some t => "Bearer " +:+ t
  | None => "Bearer null"
  end.

(** An authorised call of the backend API: the method, the path under
    [<backend>/api] and the JSON body if there is one. *)
Definition call (e : env) (token : option string) (m : method) (path : string)
    (body : option value) : request :=
  mkRequest m ((BACKEND_URL e +:+ "/api") +:+ path) body
    (Some (authorization_header token)) false.

(** The same, asking for binary content. *)
Definition call_binary (e : env) (token : option string) (path : string) : request :=
  mkRequest GET ((BACKEND_URL e +:+ "/api") +:+ path) None
    (Some (authorization_header token)) true.

(** ** Backend answers *)

(** The answers to a batch of requests sent one after the other, the first
    on top of the requests of [history]. *)
Fixpoint answers (e : env) (history : list request) (rs : list request) : list reply :=
  match rs with
  | [] => []
  | r :: rs' => server e history r :: answers e (history ++ [r]) rs'
  end.

(** The response bodies when every fetch of the batch succeeded. *)
Fixpoint all_resolved (ans : list reply) : option (list value) :=
  match ans with
  | [] => Some []
  | Resolved d :: rest => (fun ds => d :: ds) <$> all_resolved rest
  | Rejected _ :: _ => None
  end.

(** An error notification shown to the user. *)
Definition notification (ev : event) : bool :=
  match ev with ToastError _ => true | _ => false end.

Definition saved_file (ev : event) : option (string * value) :=
  match ev with SaveFile name content => Some (name, content) | _ => None end.

(** The message a failed mutation surfaces: the [detail] of the error body
    when the server sent a (non-empty) one, the fallback otherwise. *)
Definition server_message (response_data : option value) (fallback : string) : value :=
  match response_data with
  | Some (VObj o) =>
      match lookup_prop "detail" o with
      | Some d => if truthy d then d else VStr fallback
      | None => VStr fallback
      end
  | _ => VStr fallback
  end.

(** ** The fetches of one load of each view *)

Definition employees_fetches (e : env) (token : option string) : list request :=
  [ axios_get (API e +:+ "/employees") token ].

Definition promotions_fetches (e : env) (token : option string) : list request :=
  [ axios_get (API e +:+ "/promotions") token; axios_get (API e +:+ "/employees") token ].

Definition payslips_fetches (e : env) (token : option string) : list request :=
  [ axios_get (API e +:+ "/payslips") token; axios_get (API e +:+ "/employees") token ].

Definition dashboard_fetches (e : env) (token : option string) : list request :=
  [ axios_get (API e +:+ "/dashboard/stats") token ].

(** ** The list-view contract (section 4.3) *)

Section ListView.
Context {S : Type}.
(** [load] is the view's load operation, [fetches] the requests it sends,
    [items] the collections it holds, [loading] its flag; [notify] tells
    whether a failure is surfaced as a notification. *)
Variable load : M S unit.
Variable fetches : env -> option string -> list request.
Variable items : S -> list value.
Variable loading : S -> bool.

Definition load_contract (notify : bool) : Prop :=
  forall e w,
    let '(r, w') := run load e w in
    let rs := fetches e (localStorage w !! "token") in
    r = Normal tt
    /\ loading (ui w') = false
    /\ match all_resolved (answers e (requests_of (trace w)) rs) with
       | Some ds =>
           emits w w' (map Request rs) /\ items (ui w') = ds
       | None =>
           exists es, emits w w' (map Request rs ++ es)
             /\ requests_in es = []
             /\ existsb notification es = notify
             /\ items (ui w') = items (ui w)
       end.
End ListView.

(** ** The create-form contract (section 4.4) *)

(** The drafts the forms are reset to. *)
Definition employee_defaults : value :=
  VObj [ ("employee_no", VStr ""); ("name", VStr ""); ("designation", VStr "");
         ("date_of_joining", VStr ""); ("work_location", VStr ""); ("department", VStr "");
         ("bank_account_no", VStr "");
         ("salary_components",
          VObj [ ("basic", VInt 0); ("house_rent_allowance", VInt 0);
                 ("transport_allowance", VInt 0); ("fixed_allowance", VInt 0);
                 ("home_collection_visit", VInt 0); ("professional_tax", VInt 0) ]) ].




Section CreateForm.
Context {S D : Type}.
(** [submit] is the form's submit handler closed over the rendered state;
    [creating] singles out the renders in which the form creates; the
    creation is a POST to [path] and [refetch] are the requests of one
    load of the owning list view. *)
Variable submit : S -> M S unit.
Variable creating : S -> Prop.
Variable path : string.
Variable refetch : env -> option string -> list request.
Variable dialogOpen : S -> bool.
Variable draft : S -> D.
Variable defaults : env -> D.
Variable fallback : string.

End CreateForm.

(** ** Payslip download *)

Section Download.
Context {S : Type}.
Variable download : value -> value -> Z -> value -> M S unit.

Definition download_contract : Prop :=
  forall e w payslipId employeeNo month year,
    (1 <= month <= 12)%Z ->
    let req := call_binary e (localStorage w !! "token")
                 ("/payslips/download/" +:+ to_string payslipId) in
    let '(r, w') := run (download payslipId employeeNo month year) e w in
    r = Normal tt
    /\ ui w' = ui w
    /\ localStorage w' = localStorage w
    /\ exists es, emits w w' (Request req :: es)
         /\ requests_in es = []
         /\ match server e (requests_of (trace w)) req with
            | Resolved content =>
                omap saved_file es
                = [(payslip_filename employeeNo month year, VBlob content)]
                /\ existsb notification es = false
            | Rejected _ =>
                omap saved_file es = []
                /\ filter notification es = [ToastError (VStr "Failed to download payslip")]
            end.
End Download.

(** ** Promotion form: the employee selector *)

(** The row's [id] is the selected one. *)
Definition has_id (employeeId : string) (row : value) : bool :=
  strict_eq_string (get_opt row "id") employeeId.

(** The rows of a fetched collection (none when it is not an array). *)
Definition rows (collection : value) : list value :=
  match collection with VArr items => items | _ => [] end.

(** A row whose properties can be read. *)
Definition readable (row : value) : Prop :=
  match row with VUndefined | VNull => False | _ => True end.

End Spec.

(* ===================================================================== *)
(** * Sample surroundings for the concrete runs                           *)
(* ===================================================================== *)

Module Samples.
Import JS Eff.

Definition accepting : env :=
  mkEnv "https://payroll.example" 2025 (fun _ _ => Resolved VNull).

Definition rejecting : env :=
  mkEnv "https://payroll.example" 2025
    (fun _ _ => Rejected (Some (VObj [("detail", VStr "Employee not found")]))).

Definition signed_in : gmap string string :=
  {[ "token" := "t0k3n"; "username" := "admin" ]}.

Definition fresh {S} (s : S) : world S := mkWorld s signed_in [].

Definition alice : value :=
  VObj [ ("id", VStr "e1"); ("employee_no", VStr "EMP001"); ("name", VStr "Alice");
         ("designation", VStr "Engineer");
         ("salary_components",
          VObj [ ("basic", VInt 50000); ("house_rent_allowance", VInt 20000);
                 ("transport_allowance", VInt 1600); ("fixed_allowance", VInt 5000);
                 ("professional_tax", VInt 200) ]) ].

Definition june_payslip : value :=
  VObj [ ("id", VStr "p1"); ("employee_id", VStr "e1"); ("employee_no", VStr "EMP001");
         ("month", VInt 6); ("year", VInt 2025); ("paid_days", VInt 30);
         ("lop_days", VInt 0) ].

(** The text of a no-break space (U+00A0) followed by the digit 5. *)
Definition no_break_space_5 : string :=
  String (ascii_of 194) (String (ascii_of 160) "5").

(** The Employees view with the dialog open on a new employee. *)
Definition creating_employee : Employees.state :=
  Employees.mkState (VArr []) false true VNull false VNull Employees.initialFormData.




End Samples.

(* ===================================================================== *)
(** * components/Login                                                    *)
(* ===================================================================== *)

Module Login.
Import JS Eff.

Record state : Type := mkState {
  username : string;
  password : string;
  loading : bool
}.

Definition initial : state := mkState "" "" false.

(** The login page is rendered by [App], which hands it [handleLogin] as
    [onLogin]: the state in play is the one of [App] beside its own. *)
Record page : Type := mkPage {
  app : App.state;
  own : state
}.

(** A handler of [App] run from the page. *)
Definition in_app {A} (c : M App.state A) : M page A :=
  fun e w =>
    let '(r, w') := c e (mkWorld (app (ui w)) (localStorage w) (trace w)) in
    (r, mkWorld (mkPage (ui w') (own (ui w))) (localStorage w') (trace w')).

Definition setLoading (b : bool) : M page unit :=
  set_state (fun s => mkPage (app s) (mkState (username (own s)) (password (own s)) b)).

Definition login_request (e : env) (snap : state) : request :=
  mkRequest POST (API e +:+ "/auth/login")
    (Some (VObj (literal [ ("username", VStr (username snap));
                           ("password", VStr (password snap)) ])))
    None false.

Definition handleSubmit (snap : state) (onLogin : value -> value -> M page unit)
  : M page unit :=
  setLoading true;;
  try_finally
    (try_catch
       (e ← ask;
        data ← axios (login_request e snap);
        toast_success "Login successful!";;
        token ← eval (get data "token");
        name ← eval (get data "username");
        onLogin token name)
       (fun error => toast_error (or_else (error_detail error) (VStr "Login failed"))))
    (setLoading false).

(** The page as [App] mounts it. *)
Definition submit (snap : state) : M page unit :=
  handleSubmit snap (fun token name => in_app (App.handleLogin token name)).

End Login.

(* ===================================================================== *)
(** * components/Layout                                                   *)
(* ===================================================================== *)

Module Layout.
Import JS Eff.

(** [navItems]: target and label of each link. *)
Definition navItems : list (string * string) :=
  [ ("/dashboard", "Dashboard");
    ("/employees", "Employees");
    ("/promotions", "Promotions");
    ("/payslips", "Payslips");
    ("/settings", "Settings") ].

(** What a render of the component keeps: the username is read from
    localStorage in the body of the component, that is each time the
    component renders and only then. *)
Record view : Type := mkView {
  username : value
}.

Definition render (storage : gmap string string) : view :=
  mkView (App.item_value (storage !! "username")).


(** A view shown in the outlet of the layout: its state beside what the
    layout rendered.  A handler of the view sets the state of the view,
    which renders the view again and not the layout around it. *)
Record page (S : Type) : Type := mkPage {
  shell : view;
  inner : S
}.
Arguments mkPage {S} _ _.
Arguments shell {S} _.
Arguments inner {S} _.



End Layout.

(* ===================================================================== *)
(** * The dialogs of the entity views                                     *)
(* ===================================================================== *)

(** Each view passes the same two closures to its dialog: [onOpenChange],
    called by the dialog when the user opens or dismisses it, and the click
    handler of the Cancel button. *)
Module Dialogs.
Import JS Eff.

Definition Employees_onOpenChange (open : bool) : M Employees.state unit :=
  Employees.setDialogOpen open;;
  if negb open then Employees.resetForm else mret tt.

Definition Employees_cancel : M Employees.state unit := Employees.setDialogOpen false.

Definition Promotions_onOpenChange (open : bool) : M Promotions.state unit :=
  Promotions.setDialogOpen open;;
  if negb open then Promotions.resetForm else mret tt.

Definition Promotions_cancel : M Promotions.state unit := Promotions.setDialogOpen false.

Definition Payslips_onOpenChange (open : bool) : M Payslips.state unit :=
  Payslips.setDialogOpen open;;
  if negb open then Payslips.resetForm else mret tt.

Definition Payslips_cancel : M Payslips.state unit := Payslips.setDialogOpen false.

End Dialogs.

(* ===================================================================== *)
(** * Properties of handlers as computations                              *)
(* ===================================================================== *)

Module Laws.
Import JS Eff.

(** The header of a request names the token: [Authorization: Bearer]
    followed by the token, or by [null] when there is none. *)
Definition carries (token : option string) (r : request) : Prop :=
  req_authorization r
  = Some ("Bearer " +:+ match token with Some t => t | None => "null" end).

(** With [token] the stored token, the computation leaves localStorage as
    it is, and every request it sends carries that token. *)
Definition authorised {S A} (token : option string) (c : M S A) : Prop :=
  forall e w,
    localStorage w !! "token" = token ->
    let '(r, w') := run c e w in
    localStorage w' = localStorage w
    /\ exists es, emits w w' es /\ Forall (carries token) (requests_in es).

(** The same for a computation run on any world, against the token
    that world holds. *)
Definition sends_stored_token {S A} (c : M S A) : Prop :=
  forall e w,
    let '(r, w') := run c e w in
    localStorage w' = localStorage w
    /\ exists es, emits w w' es
         /\ Forall (carries (localStorage w !! "token")) (requests_in es).

(** The request of [handleDelete] in the Employees view. *)
Definition terminate_request (e : env) (token : option string) (id : value) : request :=
  mkRequest DELETE (API e +:+ "/employees/" +:+ to_string id) None (Some (bearer token)) false.

(** A fresh page load: the React state is the initial one again, the
    storage is what the previous page left. *)
Definition reload (w : world App.state) : world App.state :=
  mkWorld App.initial (localStorage w) [].

Definition section_elements : list App.element :=
  [ App.Dashboard; App.Employees; App.Promotions; App.Payslips; App.Settings ].

(** A user typing into the inline edit inputs of a payslip row, any number
    of times: each change is one call of the input's [onChange]. *)
Fixpoint edit_typing (changes : list (string * string)) : M Payslips.state unit :=
  match changes with
  | [] => mret tt
  | (k, v) :: rest => Payslips.changeEditField k v;; edit_typing rest
  end.

End Laws.

(* ===================================================================== *)
(** * Further surroundings for the concrete runs                          *)
(* ===================================================================== *)

Module Scenarios.
Import JS Eff.


(** A backend that deletes what it is asked to and rejects the rest. *)
Definition deleting_only : env :=
  mkEnv "https://payroll.example" 2025
    (fun _ r =>
       match req_method r with
       | DELETE => Resolved VNull
       | _ => Rejected (Some (VObj [("detail", VStr "Employee not found")]))
       end).

(** The fields of Alice's row. *)
Definition alice_fields : props :=
  [ ("id", VStr "e1"); ("employee_no", VStr "EMP001"); ("name", VStr "Alice");
    ("designation", VStr "Engineer");
    ("salary_components",
     VObj [ ("basic", VInt 50000); ("house_rent_allowance", VInt 20000);
            ("transport_allowance", VInt 1600); ("fixed_allowance", VInt 5000);
            ("professional_tax", VInt 200) ]) ].

(** Alice's row open in the dialog of the Employees view. *)
Definition editing_alice : Employees.state :=
  Employees.mkState (VArr [Samples.alice]) false true Samples.alice false VNull Samples.alice.

(** Alice chosen for termination. *)
Definition terminating_alice : Employees.state :=
  Employees.mkState (VArr [Samples.alice]) false false VNull true Samples.alice
    Employees.initialFormData.

(** The settings form with a new username and no new password. *)
Definition renaming : Settings.state :=
  Settings.mkState (Settings.mkForm "old" "root" "" "") false.

(** The login page with typed credentials, nothing stored yet. *)
Definition typed_login : Login.state := Login.mkState "admin" "secret" false.

Definition login_page : world Login.page :=
  mkWorld (Login.mkPage App.initial typed_login) ∅ [].

(** The fields of the June payslip of the sample data. *)
Definition june_fields : props :=
  [ ("id", VStr "p1"); ("employee_id", VStr "e1"); ("employee_no", VStr "EMP001");
    ("month", VInt 6); ("year", VInt 2025); ("paid_days", VInt 30);
    ("lop_days", VInt 0) ].

(** A generate draft as typed: every field a string. *)
Definition typed_draft : props :=
  [ ("employee_id", VStr "e1"); ("month", VStr "6"); ("year", VStr "2025");
    ("paid_days", VStr "28"); ("lop_days", VStr "2") ].

End Scenarios.

(* ===================================================================== *)
(** * Facts about the JavaScript fragment                                 *)
(* ===================================================================== *)

Import JS Eff.

(** ** Property lists *)

Lemma lookup_set_prop_eq k v o : lookup_prop k (set_prop k v o) = Some v.
Proof.
  induction o as [|[k' v'] o IH]; cbn.
  - by rewrite String.eqb_refl.
  - destruct (String.eqb k' k) eqn:Hk; cbn.
    + by rewrite String.eqb_refl.
    + by rewrite Hk.
Qed.

Lemma lookup_set_prop_ne k k' v o :
  k <> k' -> lookup_prop k' (set_prop k v o) = lookup_prop k' o.
Proof.
  intros Hne. induction o as [|[k0 v0] o IH]; cbn.
  - by rewrite (proj2 (String.eqb_neq k k')).
  - destruct (String.eqb_spec k0 k) as [->|Hk0]; cbn.
    + by rewrite (proj2 (String.eqb_neq k k')).
    + by rewrite IH.
Qed.

(** The last binding of an object literal wins. *)
Lemma lookup_literal_last kvs k v : lookup_prop k (literal (kvs ++ [(k, v)])) = Some v.
Proof.
  unfold literal. rewrite fold_left_app. cbn. apply lookup_set_prop_eq.
Qed.

Lemma get_opt_literal_last kvs k v : get_opt (VObj (literal (kvs ++ [(k, v)]))) k = v.
Proof. cbn. by rewrite lookup_literal_last. Qed.

(** ** Digits *)

Lemma small_digit (P : N -> Prop) :
  List.Forall P [0; 1; 2; 3; 4; 5; 6; 7; 8; 9]%N -> forall d, (d < 10)%N -> P d.
Proof.
  intros HP d Hd.
  rewrite List.Forall_forall in HP. apply HP. simpl. lia.
Qed.

Lemma digit_char_facts d :
  (d < 10)%N ->
  digit_of (digit_char d) = Some d /\ is_space (digit_char d) = false
  /\ Ascii.eqb (digit_char d) "-" = false /\ Ascii.eqb (digit_char d) "+" = false
  /\ Ascii.eqb (digit_char d) "x" = false /\ Ascii.eqb (digit_char d) "X" = false.
Proof.
  revert d. apply small_digit. repeat constructor.
Qed.

(** No white space begins with a digit. *)
Lemma trim_start_digit d r :
  (d < 10)%N -> trim_start (String (digit_char d) r) = String (digit_char d) r.
Proof.
  revert d. apply small_digit. repeat constructor.
Qed.

Lemma take_digits_digits ds :
  Forall (fun d => d < 10)%N ds ->
  take_digits digit_of (digits_string ds) = (ds, "").
Proof.
  induction 1 as [|d ds Hd _ IH]; [done|].
  unfold digits_string in *. cbn.
  destruct (digit_char_facts d Hd) as (-> & _).
  by rewrite IH.
Qed.

Lemma fold_digits_acc R ds a :
  fold_left (fun acc d => acc * R + d)%N ds a
  = (a * R ^ N.of_nat (length ds) + fold_left (fun acc d => acc * R + d)%N ds 0)%N.
Proof.
  revert a. induction ds as [|d ds IH]; intros a.
  - cbn. lia.
  - cbn [fold_left length]. rewrite IH, (IH (0 * R + d)%N).
    rewrite Nat2N.inj_succ, N.pow_succ_r'. lia.
Qed.

Lemma digits_value_cons R d ds :
  digits_value R (d :: ds) = (d * R ^ N.of_nat (length ds) + digits_value R ds)%N.
Proof.
  unfold digits_value. cbn [fold_left]. rewrite fold_digits_acc. lia.
Qed.

Lemma N_digits_aux_spec fuel : forall n acc,
  (n < 2 ^ N.of_nat fuel)%N ->
  fuel <> O \/ acc <> [] ->
  Forall (fun d => d < 10)%N acc ->
  let ds := N_digits_aux fuel n acc in
  Forall (fun d => d < 10)%N ds /\ ds <> []
  /\ digits_value 10 ds = (n * 10 ^ N.of_nat (length acc) + digits_value 10 acc)%N.
Proof.
  induction fuel as [|fuel IH]; intros n acc Hn Hne Hacc.
  - change (N.of_nat 0) with 0%N in Hn. rewrite N.pow_0_r in Hn.
    assert (n = 0%N) as -> by lia. cbn [N_digits_aux].
    split; [done|]. split; [by destruct Hne|]. lia.
  - cbn [N_digits_aux]. destruct (N.ltb_spec n 10) as [Hlt|Hge].
    + split; [by constructor|]. split; [done|]. apply digits_value_cons.
    + assert (n / 10 < 2 ^ N.of_nat fuel)%N as Hdiv.
      { rewrite Nat2N.inj_succ, N.pow_succ_r' in Hn.
        apply N.Div0.div_lt_upper_bound. lia. }
      assert (n mod 10 < 10)%N as Hmod by (apply N.mod_lt; lia).
      destruct (IH (n / 10)%N ((n mod 10)%N :: acc) Hdiv) as (H1 & H2 & H3);
        [by right | by constructor |].
      split; [done|]. split; [done|].
      rewrite H3, digits_value_cons. cbn [length].
      rewrite Nat2N.inj_succ, N.pow_succ_r'.
      pose proof (N.div_mod n 10). lia.
Qed.

(** The digits of [n] are decimal digits, there is at least one, and they
    denote [n]. *)
Lemma N_digits_spec n :
  Forall (fun d => d < 10)%N (N_digits n) /\ N_digits n <> []
  /\ digits_value 10 (N_digits n) = n.
Proof.
  unfold N_digits.
  destruct (N_digits_aux_spec (S (N.to_nat (N.log2 n))) n []) as (H1 & H2 & H3).
  - rewrite Nat2N.inj_succ, N2Nat.id.
    destruct n as [|p]; [done|]. apply N.log2_spec. lia.
  - by left.
  - done.
  - split; [done|]. split; [done|]. rewrite H3. cbn. lia.
Qed.

(** ** Rounding *)

Lemma dyadic_integer neg n j :
  (0 <= n)%Z -> (0 <= j)%Z -> dyadic neg (n * 2 ^ j) (- j) = Fin neg (Z.to_N n) 0.
Proof.
  intros Hn Hj. unfold dyadic.
  destruct (Z.leb_spec 0 (- j)) as [H0|Hneg].
  - assert (j = 0)%Z as -> by lia. cbn [Z.opp]. rewrite Z.pow_0_r, !Z.mul_1_r. reflexivity.
  - rewrite Z.opp_involutive.
    assert (0 < 2 ^ j)%Z as Hpos by (apply Z.pow_pos_nonneg; lia).
    assert (Z.gcd (n * 2 ^ j) (2 ^ j) = 2 ^ j)%Z as ->.
    { rewrite Z.gcd_comm, (Z.mul_comm n). apply Z.gcd_mul_diag_l. lia. }
    rewrite Z.log2_pow2 by lia.
    replace (j - j)%Z with 0%Z by lia. rewrite Z.pow_0_r, Z.mul_1_r.
    rewrite Z.div_mul by lia. reflexivity.
Qed.

(** A natural number below [2^53] is a binary64 value: rounding leaves it
    as it is. *)
Lemma round_binary64_exact neg n :
  (n < 2 ^ 53)%N -> round_binary64 neg n 0 = Fin neg n 0.
Proof.
  intros Hn. unfold round_binary64.
  destruct (N.eqb_spec n 0) as [->|Hn0]; [reflexivity|].
  change (310 <? 0)%Z with false. cbv iota.
  rewrite Z.mul_0_r, Z.add_0_r.
  pose proof (N2Z.is_nonneg (N.log2 n)) as HL0.
  destruct (Z.ltb_spec (Z.of_N (N.log2 n)) (-1076)) as [Habs|_]; [lia|].
  change (0 <=? 0)%Z with true. cbv iota.
  rewrite Z.pow_0_r, Z.mul_1_r. change (Z.log2 1) with 0%Z. rewrite Z.sub_0_r.
  set (z := Z.of_N n).
  assert (0 < z < 2 ^ 53)%Z as Hz.
  { unfold z. split; [lia|]. change (2 ^ 53)%Z with (Z.of_N (2 ^ 53)). lia. }
  set (L := Z.log2 z).
  assert (0 <= L < 53)%Z as HL.
  { unfold L. split; [apply Z.log2_nonneg|]. apply Z.log2_lt_pow2; lia. }
  assert (2 ^ L <= z)%Z as Hlow by (apply Z.log2_spec; lia).
  rewrite Z.max_l by lia.
  set (j := (52 - L)%Z).
  assert (0 <= j)%Z as Hj by lia.
  assert (0 < 2 ^ j)%Z as Hpj by (apply Z.pow_pos_nonneg; lia).
  assert (2 ^ 52 <= z * 2 ^ j)%Z as Hbig.
  { replace (2 ^ 52)%Z with (2 ^ L * 2 ^ j)%Z.
    - apply Z.mul_le_mono_nonneg_r; lia.
    - rewrite <- Z.pow_add_r by lia. f_equal. lia. }
  assert (scaled z 1 (L - 52) = (z * 2 ^ j, 1)%Z) as Hsc.
  { unfold scaled. destruct (Z.leb_spec 0 (L - 52)) as [H0|Hneg].
    - assert (L = 52)%Z as HL52 by lia. unfold j. rewrite HL52.
      change (52 - 52)%Z with 0%Z. by rewrite Z.pow_0_r, !Z.mul_1_r.
    - f_equal. f_equal. f_equal. lia. }
  rewrite Hsc. rewrite Z.div_1_r.
  destruct (Z.ltb_spec (z * 2 ^ j) (2 ^ 52)) as [Habs|_]; [lia|].
  cbn [andb]. rewrite Hsc.
  assert (round_half_even (z * 2 ^ j) 1 = z * 2 ^ j)%Z as ->.
  { unfold round_half_even. rewrite Z.mod_1_r, Z.div_1_r. reflexivity. }
  destruct (Z.eqb_spec (z * 2 ^ j) 0) as [Habs|_]; [lia|].
  assert (Z.log2 (z * 2 ^ j) = L + j)%Z as Hlog.
  { rewrite Z.log2_mul_pow2 by lia. lia. }
  rewrite Hlog.
  destruct (Z.leb_spec 1024 (L + j + (L - 52))) as [Habs|_]; [lia|].
  replace (L - 52)%Z with (- j)%Z by lia.
  rewrite dyadic_integer by lia. unfold z. by rewrite N2Z.id.
Qed.

(** ** parseInt and parseFloat *)

Example parseInt_examples :
  parseInt (VStr "25") = of_Z 25
  /\ parseInt (VStr " 25.9 days") = of_Z 25
  /\ parseInt (VStr "-0x1F") = of_Z (-31)
  /\ parseInt (VStr "") = NaN
  /\ parseInt (VStr "abc") = NaN
  /\ parseInt (VInt 30) = of_Z 30
  /\ parseInt (VNum (Fin false 255 (-1))) = of_Z 25
  /\ parseInt VUndefined = NaN
  /\ parseInt (VStr Samples.no_break_space_5) = of_Z 5
  /\ parseInt (VStr "9007199254740993") = Fin false 9007199254740992 0.
Proof. vm_compute. repeat split. Qed.

Example parseFloat_examples :
  parseFloat (VStr "1500.50") = Fin false 15005 (-1)
  /\ to_string (VNum (parseFloat (VStr ".5e-3x"))) = "0.0005"
  /\ parseFloat (VStr "12abc") = Fin false 12 0
  /\ parseFloat (VStr "-Infinity") = Infinity true
  /\ parseFloat (VStr "") = NaN
  /\ parseFloat (VStr ".") = NaN
  /\ parseFloat (VStr "abc") = NaN
  /\ parseFloat (VInt 0) = Fin false 0 0
  /\ parseFloat (VStr Samples.no_break_space_5) = Fin false 5 0
  /\ parseFloat (VStr "9007199254740993") = Fin false 9007199254740992 0
  /\ parseFloat (VStr "0.1")
     = Fin false 1000000000000000055511151231257827021181583404541015625 (-55)
  /\ parseFloat (VStr "1.7976931348623159e308") = Infinity false
  /\ parseFloat (VStr "2.4703282292062327e-324") = Fin false 0 0.
Proof. vm_compute. repeat split. Qed.

Example rounded_examples :
  truthy (VNum (Fin false 1 (-400))) = false
  /\ truthy (VNum (Fin false 5 (-324))) = true
  /\ to_json (VNum (Fin false 9007199254740993 0)) = Some (JNumber false 9007199254740992 0)
  /\ to_json (VNum (Fin false 1 400)) = Some JNull
  /\ to_json (VNum (Fin true 0 0)) = Some (JNumber false 0 0).
Proof. vm_compute. repeat split. Qed.

Example number_to_string_examples :
  map number_to_string
    [ of_Z 30; of_Z (-1200); Fin false 255 (-1); Fin false 1 (-7); Fin false 123 (-8);
      Fin false 1 21; Fin true 0 0; NaN; Fin false 1 (-1); parseFloat (VStr "0.1");
      Fin false 9007199254740993 0; Fin false 123456789012345678901 0; Fin false 1 400 ]
  = [ "30"; "-1200"; "25.5"; "1e-7"; "0.00000123"; "1e+21"; "0"; "NaN"; "0.1"; "0.1";
      "9007199254740992"; "123456789012345680000"; "Infinity" ].
Proof. vm_compute. reflexivity. Qed.

(** The decimal text of a natural number below [2^53] reads back as that
    number. *)
Lemma parseInt_string_decimal n :
  (n < 2 ^ 53)%N -> parseInt_string (Spec.decimal n) = Fin false n 0.
Proof.
  intros Hn. unfold Spec.decimal.
  destruct (N_digits_spec n) as (Hall & Hne & Hval).
  unfold parseInt_string.
  destruct (N_digits n) as [|d ds] eqn:Hds; [done|].
  apply Forall_cons in Hall as [Hd Hds'].
  destruct (digit_char_facts d Hd) as (Hdig & Hsp & Hm & Hp & Hx & HX).
  unfold digits_string. cbn [map string_of_list_ascii].
  rewrite (trim_start_digit d _ Hd). cbn [strip_sign]. rewrite Hm, Hp.
  destruct ds as [|d2 ds].
  - cbn. rewrite Hdig. cbn. rewrite <- Hval. cbn. apply round_binary64_exact.
    by rewrite <- Hval in Hn.
  - pose proof Hds' as Hds2. apply Forall_cons in Hds2 as [Hd2 _].
    destruct (digit_char_facts d2 Hd2) as (_ & _ & _ & _ & Hx2 & HX2).
    cbn [map string_of_list_ascii]. rewrite Hx2, HX2. cbn [orb]. rewrite andb_false_r.
    change (String (digit_char d) (String (digit_char d2) (string_of_list_ascii (map digit_char ds))))
      with (digits_string (d :: d2 :: ds)).
    rewrite take_digits_digits by (by constructor). cbn [fst].
    rewrite Hval. by apply round_binary64_exact.
Qed.

Lemma parseInt_typed_days n :
  (n < 2 ^ 53)%N -> parseInt (VStr (Spec.decimal n)) = Fin false n 0.
Proof. apply parseInt_string_decimal. Qed.

(** A day count held as a number (as the backend sends it) reads back
    unchanged. *)
Lemma parseInt_day_number n :
  (0 <= n <= 366)%Z -> parseInt (VInt n) = of_Z n.
Proof.
  intros Hn.
  assert (forallb (fun k => bool_decide (parseInt (VInt (Z.of_nat k)) = of_Z (Z.of_nat k)))
            (seq 0 367) = true) as Hall by (vm_compute; reflexivity).
  rewrite forallb_forall in Hall.
  rewrite <- (Z2Nat.id n) by lia.
  eapply bool_decide_eq_true_1, Hall, in_seq. lia.
Qed.

(** Rounding never invents a NaN. *)
Lemma round_binary64_not_NaN neg m e : round_binary64 neg m e <> NaN.
Proof.
  unfold round_binary64, dyadic.
  repeat (case_match; try discriminate).
Qed.

(** [parseFloat] yields NaN exactly on the non-numeric inputs. *)
Lemma parseFloat_string_NaN s :
  parseFloat_string s = NaN <-> Spec.begins_number s = false.
Proof.
  assert (forall neg m e, round_binary64 neg m e = NaN <-> true = false) as Hround.
  { intros neg m e. split; [|discriminate]. intros H. by apply round_binary64_not_NaN in H. }
  unfold parseFloat_string, Spec.begins_number.
  destruct (strip_sign (trim_start s)) as [neg r]. cbn [snd].
  destruct r as [|c r].
  - cbn. done.
  - destruct (String.prefix "Infinity" (String c r)) eqn:Hinf.
    { rewrite orb_true_r. split; discriminate. }
    rewrite orb_false_r.
    cbn [take_digits]. unfold Spec.is_digit.
    destruct (digit_of c) as [d|] eqn:Hc.
    { destruct (take_digits digit_of r) as [ip s1].
      rewrite bool_decide_eq_true_2 by eauto. cbn [orb].
      destruct s1 as [|c1 s1]; [apply Hround|].
      destruct (Ascii.eqb c1 "."); [|apply Hround].
      destruct (take_digits digit_of s1). apply Hround. }
    rewrite bool_decide_eq_false_2 by (intros [? ?]; discriminate). cbn [orb].
    destruct (Ascii.eqb c ".") eqn:Hdot; [|done].
    cbn [andb].
    destruct r as [|d r]; [done|].
    cbn [take_digits].
    destruct (digit_of d) eqn:Hd.
    + rewrite bool_decide_eq_true_2 by eauto.
      destruct (take_digits digit_of r). apply Hround.
    + rewrite bool_decide_eq_false_2 by (intros [? ?]; discriminate). done.
Qed.


Lemma empty_is_not_a_number : Spec.begins_number "" = false.
Proof. reflexivity. Qed.

(** A numeric input survives the coercion unless it denotes zero. *)
Lemma currency_coercion_numeric s :
  Spec.begins_number s = true ->
  or_else (VNum (parseFloat (VStr s))) (VInt 0) =
    if num_is_zero (parseFloat (VStr s)) then VInt 0 else VNum (parseFloat (VStr s)).
Proof.
  intros H. unfold or_else, parseFloat. cbn [to_string truthy].
  destruct (parseFloat_string s) eqn:Hp.
  - apply parseFloat_string_NaN in Hp. congruence.
  - done.
  - cbn [num_is_nan orb]. by destruct (num_is_zero _).
Qed.

(** The message surfaced by [error.response?.data?.detail || fallback]. *)
Lemma surfaced_message rd fallback :
  or_else (error_detail (AxiosError rd)) (VStr fallback) = Spec.server_message rd fallback.
Proof.
  unfold or_else, error_detail, Spec.server_message, get_opt.
  destruct rd as [[]|]; try done.
  destruct (lookup_prop "detail" fields); done.
Qed.

Lemma server_message_detail o s fallback :
  lookup_prop "detail" o = Some (VStr s) -> s <> "" ->
  Spec.server_message (Some (VObj o)) fallback = VStr s.
Proof.
  intros Ho Hs. unfold Spec.server_message. rewrite Ho. cbn.
  by rewrite (proj2 (String.eqb_neq s "")).
Qed.

Lemma server_message_absent o fallback :
  lookup_prop "detail" o = None ->
  Spec.server_message (Some (VObj o)) fallback = VStr fallback
  /\ Spec.server_message None fallback = VStr fallback.
Proof. intros Ho. unfold Spec.server_message. by rewrite Ho. Qed.

(* ===================================================================== *)
(** * Running the handlers                                                *)
(* ===================================================================== *)

Lemma requests_of_cons r t : requests_of (Request r :: t) = requests_of t ++ [r].
Proof. unfold requests_of. cbn. by rewrite omap_app. Qed.

Lemma requests_of_toast_error m t : requests_of (ToastError m :: t) = requests_of t.
Proof. unfold requests_of. cbn. rewrite omap_app. apply app_nil_r. Qed.

(** Unfold the monad down to the state transformer. *)
Ltac step_handler :=
  unfold run, try_finally, try_catch, detached, mbind, M_bind, mret, M_ret, bind, ret,
    eval, ask, getItem, setItem, removeItem, axios, axios_all2, delivered, delivered_error,
    toast_success, toast_error, emit, set_state, update_state; cbn.

(** Exhibit the events of a run, whose number is known once the answers
    of the backend are. *)
Ltac give_events :=
  first [ eexists []; split; [reflexivity|by repeat split]
        | eexists [_]; split; [reflexivity|by repeat split]
        | eexists [_; _]; split; [reflexivity|by repeat split]
        | eexists [_; _; _]; split; [reflexivity|by repeat split]
        | eexists [_; _; _; _]; split; [reflexivity|by repeat split]
        | eexists [_; _; _; _; _]; split; [reflexivity|by repeat split]
        | eexists [_; _; _; _; _; _]; split; [reflexivity|by repeat split] ].

(* ===================================================================== *)
(** * Settings: the credential-change form                                *)
(* ===================================================================== *)

Section SettingsForm.
Variables (e : env) (w : world Settings.state) (snap : Settings.state).

Let f := Settings.formData snap.
Let token := localStorage w !! "token".

(** What a submission with matching passwords does, by the answer of the
    backend. *)
Lemma Settings_submit_run :
  Settings.new_password f = Settings.confirm_password f ->
  run (Settings.handleSubmit snap) e w =
    match server e (requests_of (trace w)) (Settings.credentials_request e token f) with
    | Resolved _ =>
        (Normal tt,
         mkWorld (Settings.mkState Settings.emptyForm false)
           (if truthy (VStr (Settings.new_username f))
            then <["username" := Settings.new_username f]> (localStorage w)
            else localStorage w)
           (ToastSuccess (VStr "Admin credentials updated successfully")
              :: Request (Settings.credentials_request e token f) :: trace w))
    | Rejected rd =>
        (Normal tt,
         mkWorld (Settings.mkState (Settings.formData (ui w)) false) (localStorage w)
           (ToastError (Spec.server_message rd "Failed to update credentials")
              :: Request (Settings.credentials_request e token f) :: trace w))
    end.
Proof.
  intros Heq. unfold Settings.handleSubmit. fold f. rewrite Heq, String.eqb_refl.
  step_handler. fold token.
  destruct (server e _ _) as [d|rd]; cbn.
  - by destruct (Settings.new_username f =? "")%string.
  - by rewrite <- surfaced_message.
Qed.

Lemma Settings_mismatch_run :
  Settings.new_password f <> Settings.confirm_password f ->
  run (Settings.handleSubmit snap) e w =
    (Normal tt,
     mkWorld (ui w) (localStorage w)
       (ToastError (VStr "New password and confirm password do not match") :: trace w)).
Proof.
  intros Hne. unfold Settings.handleSubmit. fold f.
  destruct (String.eqb_spec (Settings.new_password f) (Settings.confirm_password f))
    as [Heq|_]; [done|].
  reflexivity.
Qed.

(** C4.  Submitting the credential-change form with a new password that
    differs from its confirmation aborts locally: the mismatch error is
    shown, no request is performed, and neither the form state nor the
    durable storage changes. *)
Theorem C4_password_mismatch_aborts :
  Settings.new_password f <> Settings.confirm_password f ->
  let '(r, w') := run (Settings.handleSubmit snap) e w in
  r = Normal tt
  /\ emits w w' [ToastError (VStr "New password and confirm password do not match")]
  /\ requests_of (trace w') = requests_of (trace w)
  /\ ui w' = ui w
  /\ localStorage w' = localStorage w.
Proof.
  intros Hne. rewrite (Settings_mismatch_run Hne).
  cbn. repeat split. apply requests_of_toast_error.
Qed.

(** C3.  A submission of the credential-change form sends (when the
    passwords match) one PUT whose body, once serialised, always has the
    key current_password, has new_username exactly when the draft's
    new_username is non-empty and new_password exactly when the draft's
    new_password is non-empty; an empty one is left out, not sent as
    an empty string. *)
Theorem C3_credentials_payload_keys :
  let w' := snd (run (Settings.handleSubmit snap) e w) in
  (exists es, emits w w' es
     /\ requests_in es =
          if String.eqb (Settings.new_password f) (Settings.confirm_password f)
          then [Settings.credentials_request e token f] else [])
  /\ req_method (Settings.credentials_request e token f) = PUT
  /\ req_data (Settings.credentials_request e token f) = Some (Settings.payload f)
  /\ exists ms, to_json (Settings.payload f) = Some (JObject ms)
     /\ json_member "current_password" ms = Some (JString (Settings.current_password f))
     /\ json_member "new_username" ms =
          (if String.eqb (Settings.new_username f) "" then None
           else Some (JString (Settings.new_username f)))
     /\ json_member "new_password" ms =
          (if String.eqb (Settings.new_password f) "" then None
           else Some (JString (Settings.new_password f))).
Proof.
  cbn zeta. split; [|split; [done|split; [done|]]].
  - destruct (String.eqb_spec (Settings.new_password f) (Settings.confirm_password f))
      as [Heq|Hne].
    + rewrite (Settings_submit_run Heq).
      destruct (server e _ _) as [d|rd]; cbn [snd]; eexists [_; _]; split; reflexivity.
    + rewrite (Settings_mismatch_run Hne). cbn [snd]. by eexists [_].
  - unfold Settings.payload, or_else. cbn.
    destruct (Settings.new_username f =? "")%string;
      destruct (Settings.new_password f =? "")%string;
      cbn; eexists; (split; [reflexivity|]); cbn; done.
Qed.

End SettingsForm.


(* ===================================================================== *)
(** * App: the session store                                              *)
(* ===================================================================== *)

Lemma truthy_item t :
  truthy (App.item_value t) = true <-> exists s, t = Some s /\ s <> "".
Proof.
  destruct t as [s|]; cbn.
  - destruct (String.eqb_spec s ""); cbn; split.
    + discriminate.
    + intros (? & [= <-] & ?). done.
    + eauto.
    + done.
  - split; [discriminate|]. intros (? & ? & _). discriminate.
Qed.

Lemma mount_run e w :
  run App.useEffect_mount e w =
    (Normal tt,
     mkWorld (App.mkState (truthy (App.item_value (localStorage w !! "token"))
                           || App.isAuthenticated (ui w)) false)
       (localStorage w) (trace w)).
Proof.
  unfold App.useEffect_mount. step_handler.
  destruct (truthy _); reflexivity.
Qed.

Lemma login_run e w token username :
  run (App.handleLogin token username) e w =
    (Normal tt,
     mkWorld (App.mkState true (App.isLoading (ui w)))
       (<["username" := to_string username]> (<["token" := to_string token]> (localStorage w)))
       (trace w)).
Proof. reflexivity. Qed.

Lemma logout_run e w :
  run App.handleLogout e w =
    (Normal tt,
     mkWorld (App.mkState false (App.isLoading (ui w)))
       (delete "username" (delete "token" (localStorage w)))
       (trace w)).
Proof. reflexivity. Qed.

(** C7 (as amended).  [login(token, username)] persists both values and
    sets the authenticated state to true; [logout()] removes both and sets
    it to false; at startup the authenticated state is computed as true
    exactly when a non-empty token is held in durable storage.  Hence
    "authenticated iff a non-empty token is stored" holds after startup,
    after every logout, and after every login with a non-empty token. *)
Theorem C7_session_store e w token username :
  (let w' := snd (run (App.handleLogin token username) e w) in
     localStorage w' !! "token" = Some (to_string token)
     /\ localStorage w' !! "username" = Some (to_string username)
     /\ App.isAuthenticated (ui w') = true
     /\ (to_string token <> "" -> Spec.session_inv w'))
  /\ (let w' := snd (run App.handleLogout e w) in
     localStorage w' !! "token" = None
     /\ localStorage w' !! "username" = None
     /\ App.isAuthenticated (ui w') = false
     /\ Spec.session_inv w')
  /\ (ui w = App.initial ->
      let w' := snd (run App.useEffect_mount e w) in
      localStorage w' = localStorage w
      /\ (App.isAuthenticated (ui w') = true <-> Spec.token_stored (localStorage w))
      /\ Spec.session_inv w').
Proof.
  split; [|split].
  - rewrite login_run. unfold Spec.session_inv, Spec.token_stored.
    cbn [snd ui localStorage App.isAuthenticated].
    assert (<["username":=to_string username]> (<["token":=to_string token]> (localStorage w))
              !! "token" = Some (to_string token)) as Ht.
    { rewrite lookup_insert_ne by done. apply lookup_insert_eq. }
    split; [done|]. split; [apply lookup_insert_eq|]. split; [done|].
    intros Htok. split; [eauto|done].
  - rewrite logout_run. unfold Spec.session_inv, Spec.token_stored.
    cbn [snd ui localStorage App.isAuthenticated].
    assert (delete "username" (delete "token" (localStorage w)) !! "token" = None) as Ht.
    { rewrite lookup_delete_ne by done. apply lookup_delete_eq. }
    split; [done|]. split; [apply lookup_delete_eq|]. split; [done|].
    split; [done|].
    intros (t & Hsome & _). rewrite Ht in Hsome. discriminate.
  - intros Hinit. rewrite mount_run, Hinit. unfold Spec.session_inv.
    cbn [snd ui localStorage App.isAuthenticated App.initial]. rewrite orb_false_r.
    split; [done|].
    assert (truthy (App.item_value (localStorage w !! "token")) = true
            <-> Spec.token_stored (localStorage w)) as Hiff by apply truthy_item.
    done.
Qed.

(** The startup check alone, with no assumption on what is stored. *)
Lemma startup_authenticated e w :
  ui w = App.initial ->
  App.isAuthenticated (ui (snd (run App.useEffect_mount e w))) = true
  <-> Spec.token_stored (localStorage w).
Proof.
  intros Hinit. rewrite mount_run, Hinit. cbn. rewrite orb_false_r. apply truthy_item.
Qed.

(* ===================================================================== *)
(** * App: the router                                                     *)
(* ===================================================================== *)

Lemma lower_slash c : Ascii.eqb (App.lower c) "/" = Ascii.eqb c "/".
Proof. by destruct c as [[] [] [] [] [] [] [] []]. Qed.

Lemma lowercase_empty s : App.lowercase s = "" <-> s = "".
Proof. by destruct s. Qed.

Lemma chomp_empty s : Spec.chomp s = "" <-> App.all_slashes s = true.
Proof.
  induction s as [|c s IH]; cbn; [done|].
  destruct (Ascii.eqb c "/"); cbn; [|done].
  destruct (String.eqb_spec (Spec.chomp s) "") as [He|Hne].
  - split; [intros _; by apply IH|done].
  - split; [done|]. intros H. by apply IH in H.
Qed.

(** A pattern that is in lower case and has no slash at its end matches,
    followed by slashes only, exactly the strings it is the location of. *)
Lemma matches_chomp p : forall s,
  App.lowercase p = p -> Spec.chomp p = p ->
  App.matches_end p s = true <-> App.lowercase (Spec.chomp s) = p.
Proof.
  unfold App.matches_end.
  induction p as [|a p IH]; intros s Hlow Hchomp.
  - cbn. rewrite lowercase_empty. symmetry. apply chomp_empty.
  - cbn in Hlow. injection Hlow as Ha Hp.
    assert (Spec.chomp p = p /\ (Ascii.eqb a "/" && String.eqb p "")%bool = false)
      as [Hcp Hlast].
    { cbn in Hchomp.
      destruct (Ascii.eqb a "/" && String.eqb (Spec.chomp p) "")%bool eqn:Hc;
        [discriminate|].
      injection Hchomp as Hcp. rewrite Hcp in Hc. done. }
    destruct s as [|c s]; cbn [App.strip_prefix Spec.chomp]; [done|].
    rewrite Ha.
    destruct (Ascii.eqb c "/" && String.eqb (Spec.chomp s) "")%bool eqn:Hc.
    + apply andb_true_iff in Hc as [Hc1 Hc2].
      apply Ascii.eqb_eq in Hc1 as ->. apply String.eqb_eq in Hc2.
      split; [|done].
      destruct (Ascii.eqb_spec a (App.lower "/")) as [->|_]; [|done].
      intros Hm. apply (IH s Hp Hcp) in Hm. rewrite Hc2 in Hm. cbn in Hm. subst p.
      discriminate Hlast.
    + cbn [App.lowercase].
      destruct (Ascii.eqb_spec a (App.lower c)) as [->|Hne].
      * rewrite (IH s Hp Hcp). split; [by intros ->|]. by intros [= ->].
      * split; [done|]. intros [= H _]. by rewrite H in Hne.
Qed.

(** The same for a whole pathname, whose first character always stays. *)
Lemma matches_location p c r :
  App.lowercase p = p -> Spec.chomp p = p ->
  App.matches_end (String "/" p) (String c r)
  = String.eqb (Spec.location (String c r)) (String "/" p).
Proof.
  intros Hlow Hchomp.
  unfold App.matches_end. cbn [App.strip_prefix Spec.location App.lowercase].
  change (App.lower "/") with "/"%char.
  destruct (Ascii.eqb_spec "/" (App.lower c)) as [Hc|Hc].
  - rewrite <- Hc.
    pose proof (matches_chomp p r Hlow Hchomp) as Hiff. unfold App.matches_end in Hiff.
    destruct (String.eqb_spec (String "/" (App.lowercase (Spec.chomp r))) (String "/" p))
      as [He|Hne].
    + apply Hiff. by injection He.
    + destruct (match App.strip_prefix p r with Some rest => _ | None => _ end) eqn:Hm;
        [|done].
      exfalso. apply Hne. f_equal. by apply Hiff.
  - symmetry. apply String.eqb_neq. intros [= H _]. by rewrite H in Hc.
Qed.

(** The chain of a route standing alone. *)
Lemma chain_single path el pathname :
  App.match_chain [(path, el)] "/" pathname =
    if App.matches_end (App.compile path) pathname then Some [el] else None.
Proof.
  cbn [App.match_chain]. change ("/" =? "/")%string with true. cbv iota.
  unfold App.match_path. rewrite bool_decide_eq_true_2 by done.
  by destruct (App.matches_end _ _).
Qed.

(** The chain of a route under the route of the section. *)
Lemma chain_section top path el pathname :
  App.match_chain [("/", top); (path, el)] "/" pathname =
    if App.matches_end (App.compile path) pathname then Some [top; el] else None.
Proof.
  cbn [App.match_chain]. change ("/" =? "/")%string with true. cbv iota.
  unfold App.match_path at 1. rewrite bool_decide_eq_false_2 by done.
  change ("/" =? "")%string with false. change ("/" =? "/")%string with true. cbn [orb].
  unfold App.matches_end, App.compile. cbn [App.strip_prefix].
  change (App.lower "/") with "/"%char.
  destruct pathname as [|c r]; [reflexivity|].
  destruct (Ascii.eqb_spec c "/") as [->|Hc].
  - change ("/" =? "/")%char with true. cbv iota.
    unfold App.match_path. rewrite bool_decide_eq_true_2 by done.
    unfold App.matches_end, App.compile.
    cbn [String.eqb Ascii.eqb Bool.eqb App.strip_prefix].
    change (App.lower "/") with "/"%char. cbn [Ascii.eqb Bool.eqb].
    destruct (App.strip_prefix _ r) as [rest|]; [|reflexivity].
    by destruct (App.all_slashes rest).
  - destruct (Ascii.eqb_spec "/" (App.lower c)) as [He|_]; [|reflexivity].
    exfalso. apply Hc. apply Ascii.eqb_eq. rewrite <- lower_slash, <- He. reflexivity.
Qed.

(** What a location resolves to is read off the table of the locations. *)
Lemma resolve_table b pathname :
  App.resolve b pathname = Spec.resolution b (Spec.location pathname).
Proof.
  destruct pathname as [|c r]; [by destruct b|].
  unfold App.resolve, App.match_routes.
  change (String.eqb (String c r) "") with false. cbv iota.
  destruct b.
  - let t := eval vm_compute in (App.rank (App.flatten_routes (App.routes true))) in
    change (App.rank (App.flatten_routes (App.routes true))) with t.
    cbn [App.first_match App.branch_routes].
    rewrite !chain_section, !chain_single.
    change (App.compile "/login") with "/login".
    change (App.compile "dashboard") with "/dashboard".
    change (App.compile "employees") with "/employees".
    change (App.compile "promotions") with "/promotions".
    change (App.compile "payslips") with "/payslips".
    change (App.compile "settings") with "/settings".
    change (App.compile "") with "/". change (App.compile "/") with "/".
    rewrite !matches_location by reflexivity.
    unfold Spec.resolution, Spec.section_view.
    generalize (Spec.location (String c r)). intros loc.
    repeat (match goal with
            | |- context [String.eqb loc ?p] =>
                destruct (String.eqb_spec loc p) as [->|?]; [reflexivity|]
            end).
    reflexivity.
  - let t := eval vm_compute in (App.rank (App.flatten_routes (App.routes false))) in
    change (App.rank (App.flatten_routes (App.routes false))) with t.
    cbn [App.first_match App.branch_routes].
    rewrite !chain_section, !chain_single.
    change (App.compile "/login") with "/login".
    change (App.compile "dashboard") with "/dashboard".
    change (App.compile "employees") with "/employees".
    change (App.compile "promotions") with "/promotions".
    change (App.compile "payslips") with "/payslips".
    change (App.compile "settings") with "/settings".
    change (App.compile "") with "/". change (App.compile "/") with "/".
    rewrite !matches_location by reflexivity.
    unfold Spec.resolution, Spec.section_view.
    generalize (Spec.location (String c r)). intros loc.
    repeat (match goal with
            | |- context [String.eqb loc ?p] =>
                destruct (String.eqb_spec loc p) as [->|?]; [reflexivity|]
            end).
    reflexivity.
Qed.

(** Decide an equivalence between a choice of locations and an equation
    between resolutions, once the location is known or excluded. *)
Ltac settle_location :=
  split; intros Hx;
  first [ discriminate Hx
        | reflexivity
        | solve [ repeat (first [left; reflexivity | right]) ]
        | solve [ repeat (destruct Hx as [Hx|Hx]); first [discriminate Hx | done] ] ].

(** C8.  Without a session the locations under the authenticated section
    (the root, /dashboard, /employees, /promotions, /payslips and
    /settings, in any letter case and with any slashes at the end), and
    no others, resolve to a redirect to the login path; with a session the
    login path resolves to a redirect to the dashboard. *)
Theorem C8_route_guards pathname :
  (Spec.in_authenticated_section pathname = true
   <-> App.resolve false pathname = App.Redirect "/login")
  /\ (Spec.is_login_path pathname = true ->
      App.resolve true pathname = App.Redirect "/dashboard").
Proof.
  rewrite !resolve_table.
  unfold Spec.in_authenticated_section, Spec.is_login_path, Spec.resolution,
    Spec.section_view, Spec.section_paths.
  generalize (Spec.location pathname). intros loc. split.
  - rewrite bool_decide_eq_true, !elem_of_cons, elem_of_nil.
    repeat (match goal with
            | |- context [String.eqb loc ?p] =>
                destruct (String.eqb_spec loc p) as [->|?]; [settle_location|]
            end).
    settle_location.
  - intros ->%String.eqb_eq. reflexivity.
Qed.

(** The declared paths of the section are in the section. *)
Lemma protected_paths_in_section :
  Forall (fun p => Spec.in_authenticated_section p = true) Spec.section_paths.
Proof. repeat constructor. Qed.

(** Without a session nothing but the login page is ever shown. *)
Lemma unauthenticated_resolution pathname :
  App.resolve false pathname = App.Redirect "/login"
  \/ App.resolve false pathname = App.Shows [App.Login]
  \/ App.resolve false pathname = App.NoMatch.
Proof.
  rewrite resolve_table. unfold Spec.resolution, Spec.section_view.
  repeat (case_match; auto).
Qed.

(* ===================================================================== *)
(** * List views: the load operations                                     *)
(* ===================================================================== *)

Lemma Employees_fetch_run e w :
  run Employees.fetchEmployees e w =
    let s := ui w in
    let a := axios_get (API e +:+ "/employees") (localStorage w !! "token") in
    match server e (requests_of (trace w)) a with
    | Resolved d =>
        (Normal tt,
         mkWorld (Employees.mkState d false (Employees.dialogOpen s)
                    (Employees.editingEmployee s) (Employees.deleteDialogOpen s)
                    (Employees.employeeToDelete s) (Employees.formData s))
           (localStorage w) (Request a :: trace w))
    | Rejected _ =>
        (Normal tt,
         mkWorld (Employees.mkState (Employees.employees s) false (Employees.dialogOpen s)
                    (Employees.editingEmployee s) (Employees.deleteDialogOpen s)
                    (Employees.employeeToDelete s) (Employees.formData s))
           (localStorage w)
           (ToastError (VStr "Failed to fetch employees") :: Request a :: trace w))
    end.
Proof.
  unfold Employees.fetchEmployees. step_handler.
  destruct (server e _ _); reflexivity.
Qed.

Lemma Promotions_fetch_run e w :
  run Promotions.fetchData e w =
    let s := ui w in
    let a := axios_get (API e +:+ "/promotions") (localStorage w !! "token") in
    let b := axios_get (API e +:+ "/employees") (localStorage w !! "token") in
    match server e (requests_of (trace w)) a, server e (requests_of (trace w) ++ [a]) b with
    | Resolved da, Resolved db =>
        (Normal tt,
         mkWorld (Promotions.mkState da db false (Promotions.dialogOpen s)
                    (Promotions.formData s))
           (localStorage w) (Request b :: Request a :: trace w))
    | _, _ =>
        (Normal tt,
         mkWorld (Promotions.mkState (Promotions.promotions s) (Promotions.employees s) false
                    (Promotions.dialogOpen s) (Promotions.formData s))
           (localStorage w)
           (ToastError (VStr "Failed to fetch data") :: Request b :: Request a :: trace w))
    end.
Proof.
  unfold Promotions.fetchData. step_handler. rewrite requests_of_cons.
  destruct (server e (requests_of (trace w)) _); cbn;
    [destruct (server e (requests_of (trace w) ++ _) _)|]; reflexivity.
Qed.

Lemma Payslips_fetch_run e w :
  run Payslips.fetchData e w =
    let s := ui w in
    let a := axios_get (API e +:+ "/payslips") (localStorage w !! "token") in
    let b := axios_get (API e +:+ "/employees") (localStorage w !! "token") in
    match server e (requests_of (trace w)) a, server e (requests_of (trace w) ++ [a]) b with
    | Resolved da, Resolved db =>
        (Normal tt,
         mkWorld (Payslips.mkState da db false (Payslips.dialogOpen s)
                    (Payslips.editingPayslip s) (Payslips.editFormData s) (Payslips.formData s))
           (localStorage w) (Request b :: Request a :: trace w))
    | _, _ =>
        (Normal tt,
         mkWorld (Payslips.mkState (Payslips.payslips s) (Payslips.employees s) false
                    (Payslips.dialogOpen s) (Payslips.editingPayslip s)
                    (Payslips.editFormData s) (Payslips.formData s))
           (localStorage w)
           (ToastError (VStr "Failed to fetch data") :: Request b :: Request a :: trace w))
    end.
Proof.
  unfold Payslips.fetchData. step_handler. rewrite requests_of_cons.
  destruct (server e (requests_of (trace w)) _); cbn;
    [destruct (server e (requests_of (trace w) ++ _) _)|]; reflexivity.
Qed.

Lemma PayslipsBasic_fetch_run e w :
  run PayslipsBasic.fetchData e w =
    let s := ui w in
    let a := axios_get (API e +:+ "/payslips") (localStorage w !! "token") in
    let b := axios_get (API e +:+ "/employees") (localStorage w !! "token") in
    match server e (requests_of (trace w)) a, server e (requests_of (trace w) ++ [a]) b with
    | Resolved da, Resolved db =>
        (Normal tt,
         mkWorld (PayslipsBasic.mkState da db false (PayslipsBasic.dialogOpen s)
                    (PayslipsBasic.formData s))
           (localStorage w) (Request b :: Request a :: trace w))
    | _, _ =>
        (Normal tt,
         mkWorld (PayslipsBasic.mkState (PayslipsBasic.payslips s) (PayslipsBasic.employees s)
                    false (PayslipsBasic.dialogOpen s) (PayslipsBasic.formData s))
           (localStorage w)
           (ToastError (VStr "Failed to fetch data") :: Request b :: Request a :: trace w))
    end.
Proof.
  unfold PayslipsBasic.fetchData. step_handler. rewrite requests_of_cons.
  destruct (server e (requests_of (trace w)) _); cbn;
    [destruct (server e (requests_of (trace w) ++ _) _)|]; reflexivity.
Qed.

Lemma Dashboard_fetch_run e w :
  run Dashboard.fetchStats e w =
    let a := axios_get (API e +:+ "/dashboard/stats") (localStorage w !! "token") in
    match server e (requests_of (trace w)) a with
    | Resolved d =>
        (Normal tt, mkWorld (Dashboard.mkState d false) (localStorage w) (Request a :: trace w))
    | Rejected rd =>
        (Normal tt,
         mkWorld (Dashboard.mkState (Dashboard.stats (ui w)) false) (localStorage w)
           (ConsoleError "Error fetching stats:" (AxiosError rd) :: Request a :: trace w))
    end.
Proof.
  unfold Dashboard.fetchStats. step_handler.
  destruct (server e _ _); reflexivity.
Qed.

(** The three entity list views (Payslips in both revisions) honour the
    contract with a notification. *)
Lemma Employees_load :
  Spec.load_contract Employees.fetchEmployees Spec.employees_fetches
    (fun s => [Employees.employees s]) Employees.loading true.
Proof.
  intros e w. rewrite Employees_fetch_run. cbn.
  destruct (server e _ _); cbn; [done|].
  split; [done|]. split; [done|]. by exists [ToastError (VStr "Failed to fetch employees")].
Qed.

Ltac two_fetches e w msg :=
  cbn;
  destruct (server e (requests_of (trace w)) _); cbn;
    [destruct (server e (requests_of (trace w) ++ _) _); cbn|];
    try done;
    (split; [done|]; split; [done|]; by exists [ToastError (VStr msg)]).

Lemma Promotions_load :
  Spec.load_contract Promotions.fetchData Spec.promotions_fetches
    (fun s => [Promotions.promotions s; Promotions.employees s]) Promotions.loading true.
Proof. intros e w. rewrite Promotions_fetch_run. two_fetches e w "Failed to fetch data". Qed.

Lemma Payslips_load :
  Spec.load_contract Payslips.fetchData Spec.payslips_fetches
    (fun s => [Payslips.payslips s; Payslips.employees s]) Payslips.loading true.
Proof. intros e w. rewrite Payslips_fetch_run. two_fetches e w "Failed to fetch data". Qed.

Lemma PayslipsBasic_load :
  Spec.load_contract PayslipsBasic.fetchData Spec.payslips_fetches
    (fun s => [PayslipsBasic.payslips s; PayslipsBasic.employees s])
    PayslipsBasic.loading true.
Proof. intros e w. rewrite PayslipsBasic_fetch_run. two_fetches e w "Failed to fetch data". Qed.

(** The dashboard honours it without one: a failure is only logged. *)
Lemma Dashboard_load :
  Spec.load_contract Dashboard.fetchStats Spec.dashboard_fetches
    (fun s => [Dashboard.stats s]) Dashboard.loading false.
Proof.
  intros e w. rewrite Dashboard_fetch_run. cbn.
  destruct (server e _ _) as [d|rd]; cbn; [done|].
  split; [done|]. split; [done|].
  by exists [ConsoleError "Error fetching stats:" (AxiosError rd)].
Qed.

(** C6 (as amended).  The load of the Employees, Promotions and Payslips
    list views sends its fetches; if all succeed the items are replaced
    wholesale by the responses and loading becomes false; if any fails an
    error notification is shown, loading becomes false and the items keep
    their previous value, none of them updated.  The Dashboard load does
    the same with its statistics, except that a failure shows no
    notification: it is only logged to the console. *)
Theorem C6_load_contract :
  Spec.load_contract Employees.fetchEmployees Spec.employees_fetches
    (fun s => [Employees.employees s]) Employees.loading true
  /\ Spec.load_contract Promotions.fetchData Spec.promotions_fetches
       (fun s => [Promotions.promotions s; Promotions.employees s]) Promotions.loading true
  /\ Spec.load_contract Payslips.fetchData Spec.payslips_fetches
       (fun s => [Payslips.payslips s; Payslips.employees s]) Payslips.loading true
  /\ Spec.load_contract PayslipsBasic.fetchData Spec.payslips_fetches
       (fun s => [PayslipsBasic.payslips s; PayslipsBasic.employees s])
       PayslipsBasic.loading true
  /\ Spec.load_contract Dashboard.fetchStats Spec.dashboard_fetches
       (fun s => [Dashboard.stats s]) Dashboard.loading false.
Proof.
  split; [apply Employees_load|].
  split; [apply Promotions_load|].
  split; [apply Payslips_load|].
  split; [apply PayslipsBasic_load|].
  apply Dashboard_load.
Qed.

(* ===================================================================== *)
(** * Create forms: the submit handlers                                   *)
(* ===================================================================== *)


Lemma Payslips_submit_run e w snap :
  run (Payslips.handleSubmit snap) e w =
    let s := ui w in
    let req := Payslips.generate_request e (localStorage w !! "token")
                 (Payslips.submit_payload (Payslips.formData snap)) in
    match server e (requests_of (trace w)) req with
    | Resolved _ =>
        (Normal tt,
         snd (run Payslips.fetchData e
                (mkWorld (Payslips.mkState (Payslips.payslips s) (Payslips.employees s)
                            (Payslips.loading s) false (Payslips.editingPayslip s)
                            (Payslips.editFormData s) (Payslips.resetFormData e))
                   (localStorage w)
                   (ToastSuccess (VStr "Payslip generated successfully")
                      :: Request req :: trace w))))
    | Rejected rd =>
        (Normal tt,
         mkWorld s (localStorage w)
           (ToastError (Spec.server_message rd "Failed to generate payslip")
              :: Request req :: trace w))
    end.
Proof.
  unfold Payslips.handleSubmit, Payslips.resetForm. step_handler.
  destruct (server e _ _) as [d|rd]; cbn; [reflexivity|].
  by rewrite <- surfaced_message.
Qed.


Lemma Employees_create_run e w snap :
  truthy (Employees.editingEmployee snap) = false ->
  run (Employees.handleSubmit snap) e w =
    let s := ui w in
    let req := Employees.create_request e (localStorage w !! "token")
                 (Employees.formData snap) in
    match server e (requests_of (trace w)) req with
    | Resolved _ =>
        (Normal tt,
         snd (run Employees.fetchEmployees e
                (mkWorld (Employees.mkState (Employees.employees s) (Employees.loading s) false
                            VNull (Employees.deleteDialogOpen s)
                            (Employees.employeeToDelete s) Employees.resetFormData)
                   (localStorage w)
                   (ToastSuccess (VStr "Employee created successfully")
                      :: Request req :: trace w))))
    | Rejected rd =>
        (Normal tt,
         mkWorld s (localStorage w)
           (ToastError (Spec.server_message rd "Operation failed") :: Request req :: trace w))
    end.
Proof.
  intros Hnew. unfold Employees.handleSubmit, Employees.resetForm. rewrite Hnew.
  step_handler.
  destruct (server e _ _) as [d|rd]; cbn; [reflexivity|].
  by rewrite <- surfaced_message.
Qed.

(** Exhibit the events of a run when nothing more is asked of them. *)
Ltac give_trace :=
  first [ by eexists [] | by eexists [_] | by eexists [_; _] | by eexists [_; _; _]
        | by eexists [_; _; _; _] | by eexists [_; _; _; _; _] ].

(** A truthy value has readable properties. *)
Lemma get_truthy v k : truthy v = true -> get v k = Normal (get_opt v k).
Proof. by destruct v. Qed.

Lemma get_readable v k : Spec.readable v -> get v k = Normal (get_opt v k).
Proof. by destruct v. Qed.

Lemma Employees_update_run e w snap :
  truthy (Employees.editingEmployee snap) = true ->
  run (Employees.handleSubmit snap) e w =
    let s := ui w in
    let req := Employees.update_request e (localStorage w !! "token")
                 (get_opt (Employees.editingEmployee snap) "id") (Employees.formData snap) in
    match server e (requests_of (trace w)) req with
    | Resolved _ =>
        (Normal tt,
         snd (run Employees.fetchEmployees e
                (mkWorld (Employees.mkState (Employees.employees s) (Employees.loading s) false
                            VNull (Employees.deleteDialogOpen s)
                            (Employees.employeeToDelete s) Employees.resetFormData)
                   (localStorage w)
                   (ToastSuccess (VStr "Employee updated successfully")
                      :: Request req :: trace w))))
    | Rejected rd =>
        (Normal tt,
         mkWorld s (localStorage w)
           (ToastError (Spec.server_message rd "Operation failed") :: Request req :: trace w))
    end.
Proof.
  intros Hedit. unfold Employees.handleSubmit, Employees.resetForm.
  rewrite Hedit, (get_truthy _ "id" Hedit). step_handler.
  destruct (server e _ _) as [d|rd]; cbn; [reflexivity|].
  by rewrite <- surfaced_message.
Qed.

Lemma requests_of_toast_success m t : requests_of (ToastSuccess m :: t) = requests_of t.
Proof. unfold requests_of. cbn. rewrite omap_app. apply app_nil_r. Qed.


(** The requests of the handlers are the calls of the specification. *)
Lemma bearer_header token : bearer token = Spec.authorization_header token.
Proof. by destruct token. Qed.

Lemma get_call e token path :
  axios_get (API e +:+ path) token = Spec.call e token GET path None.
Proof. unfold axios_get, Spec.call. by rewrite bearer_header. Qed.

Lemma Employees_create_call e token formData :
  Employees.create_request e token formData
  = Spec.call e token POST "/employees" (Some formData).
Proof. unfold Employees.create_request, Spec.call. by rewrite bearer_header. Qed.

Lemma Employees_update_call e token id formData :
  Employees.update_request e token id formData
  = Spec.call e token PUT ("/employees/" +:+ to_string id) (Some formData).
Proof. unfold Employees.update_request, Spec.call. by rewrite bearer_header. Qed.




Lemma Payslips_download_call e token id :
  Payslips.download_request e token id
  = Spec.call_binary e token ("/payslips/download/" +:+ to_string id).
Proof. unfold Payslips.download_request, Spec.call_binary. by rewrite bearer_header. Qed.










(* ===================================================================== *)
(** * Payslips: edit in place                                             *)
(* ===================================================================== *)

(** A whole number of days is read back as it is. *)
Lemma parseInt_whole_days v n : Spec.whole_days v n -> parseInt v = Fin false n 0.
Proof.
  intros [[-> Hn]|[-> Hn]].
  - by apply parseInt_typed_days.
  - pose proof (parseInt_day_number (Z.of_N n) ltac:(lia)) as H.
    unfold VInt, of_Z in H.
    destruct (Z.ltb_spec (Z.of_N n) 0) as [Hneg|_]; [lia|].
    by rewrite Zabs2N.id in H.
Qed.

Section SaveEdit.
Variables (e : env) (w : world Payslips.state) (snap : Payslips.state).
Variable fields : props.

Let payslip := VObj fields.
Let token := localStorage w !! "token".
Let del := Payslips.delete_request e token (get_opt payslip "id").
Let gen :=
Payslips.generate_request e token
  (VObj [ ("employee_id", get_opt payslip "employee_id");
          ("month", get_opt payslip "month");
          ("year", get_opt payslip "year");
          ("paid_days",
           VNum (parseInt (Payslips.prop (Payslips.editFormData snap) "paid_days")));
          ("lop_days",
           VNum (parseInt (Payslips.prop (Payslips.editFormData snap) "lop_days"))) ]).

(** The three ways a save can go. *)
Lemma Payslips_save_edit_run :
run (Payslips.handleSaveEdit snap payslip) e w =
  let s := ui w in
  match server e (requests_of (trace w)) del with
  | Rejected rd =>
      (Normal tt,
       mkWorld s (localStorage w)
         (ToastError (Spec.server_message rd "Failed to update payslip")
            :: Request del :: trace w))
  | Resolved _ =>
      match server e (requests_of (trace w) ++ [del]) gen with
      | Rejected rd =>
          (Normal tt,
           mkWorld s (localStorage w)
             (ToastError (Spec.server_message rd "Failed to update payslip")
                :: Request gen :: Request del :: trace w))
      | Resolved _ =>
          (Normal tt,
           snd (run Payslips.fetchData e
                  (mkWorld (Payslips.mkState (Payslips.payslips s) (Payslips.employees s)
                              (Payslips.loading s) (Payslips.dialogOpen s) VNull
                              (Payslips.editFormData s) (Payslips.formData s))
                     (localStorage w)
                     (ToastSuccess (VStr "Payslip updated successfully")
                        :: Request gen :: Request del :: trace w))))
      end
  end.
Proof.
unfold Payslips.handleSaveEdit. step_handler. fold token. fold payslip.
change (Payslips.delete_request e token (default VUndefined (lookup_prop "id" fields)))
  with del.
destruct (server e (requests_of (trace w)) del) as [d|rd]; cbn.
- rewrite requests_of_cons.
  change (Payslips.generate_request e token _) with gen.
  destruct (server e (requests_of (trace w) ++ [del]) gen) as [d'|rd']; cbn; [reflexivity|].
  by rewrite <- surfaced_message.
- by rewrite <- surfaced_message.
Qed.


End SaveEdit.

(** The spec's scenario: a payslip with 30 paid days edited to 25 paid and
    5 LOP days. *)
Example save_edit_scenario :
  let snap := Payslips.mkState (VArr [Samples.june_payslip]) (VArr [Samples.alice])
                false false (VStr "p1")
                (literal [("paid_days", VStr "25"); ("lop_days", VStr "5")])
                (Payslips.initialFormData Samples.accepting) in
  requests_of (trace (snd (run (Payslips.handleSaveEdit snap Samples.june_payslip)
                             Samples.accepting (Samples.fresh snap)))) =
    [ mkRequest DELETE "https://payroll.example/api/payslips/p1" None
        (Some "Bearer t0k3n") false;
      mkRequest POST "https://payroll.example/api/payslips/generate"
        (Some (VObj [ ("employee_id", VStr "e1"); ("month", VInt 6); ("year", VInt 2025);
                      ("paid_days", VInt 25); ("lop_days", VInt 5) ]))
        (Some "Bearer t0k3n") false;
      mkRequest GET "https://payroll.example/api/payslips" None (Some "Bearer t0k3n") false;
      mkRequest GET "https://payroll.example/api/employees" None (Some "Bearer t0k3n") false ].
Proof. vm_compute. reflexivity. Qed.

(* ===================================================================== *)
(** * Payslips: download                                                  *)
(* ===================================================================== *)

(** The label looked up in the [months] table is the English name of the
    month. *)
Lemma month_label_name month :
  (1 <= month <= 12)%Z -> Payslips.month_label month = Normal (Spec.month_name month).
Proof.
  intros H.
  assert (month = 1 \/ month = 2 \/ month = 3 \/ month = 4 \/ month = 5 \/ month = 6
          \/ month = 7 \/ month = 8 \/ month = 9 \/ month = 10 \/ month = 11
          \/ month = 12)%Z as Hc by lia.
  repeat (destruct Hc as [->|Hc]; [reflexivity|]). by subst.
Qed.

(** Outside 1..12 the lookup throws. *)
Lemma month_label_out_of_range month :
  (month < 1 \/ 12 < month)%Z -> exists x, Payslips.month_label month = Abrupt x.
Proof.
  intros H. unfold Payslips.month_label.
  destruct (Z.leb_spec 1 month) as [Hle|Hlt]; [|by eexists].
  rewrite (lookup_ge_None_2 Payslips.months) by (cbn; lia). by eexists.
Qed.

Lemma download_name_filename employeeNo month year :
  Payslips.download_name employeeNo (Spec.month_name month) year
  = Spec.payslip_filename employeeNo month year.
Proof. reflexivity. Qed.

Lemma Payslips_download_run e w payslipId employeeNo month year :
  run (Payslips.handleDownload payslipId employeeNo month year) e w =
    let req := Payslips.download_request e (localStorage w !! "token") payslipId in
    match server e (requests_of (trace w)) req with
    | Resolved content =>
        match Payslips.month_label month with
        | Normal label =>
            (Normal tt,
             mkWorld (ui w) (localStorage w)
               (ToastSuccess (VStr "Payslip downloaded successfully")
                  :: SaveFile (Payslips.download_name employeeNo label year) (VBlob content)
                  :: Request req :: trace w))
        | Abrupt x =>
            (Normal tt,
             mkWorld (ui w) (localStorage w)
               (ToastError (VStr "Failed to download payslip")
                  :: ConsoleError "Download error:" x :: Request req :: trace w))
        end
    | Rejected rd =>
        (Normal tt,
         mkWorld (ui w) (localStorage w)
           (ToastError (VStr "Failed to download payslip")
              :: ConsoleError "Download error:" (AxiosError (VBlob <$> rd))
              :: Request req :: trace w))
    end.
Proof.
  unfold Payslips.handleDownload. step_handler.
  destruct (server e _ _) as [d|rd]; cbn.
  - unfold Payslips.month_label.
    destruct (if (1 <=? month)%Z then _ else _) as [m|]; reflexivity.
  - by destruct rd.
Qed.

Lemma PayslipsBasic_download_run e w payslipId employeeNo month year :
  run (PayslipsBasic.handleDownload payslipId employeeNo month year) e w =
    let req := Payslips.download_request e (localStorage w !! "token") payslipId in
    match server e (requests_of (trace w)) req with
    | Resolved content =>
        match Payslips.month_label month with
        | Normal label =>
            (Normal tt,
             mkWorld (ui w) (localStorage w)
               (ToastSuccess (VStr "Payslip downloaded successfully")
                  :: SaveFile (Payslips.download_name employeeNo label year) (VBlob content)
                  :: Request req :: trace w))
        | Abrupt x =>
            (Normal tt,
             mkWorld (ui w) (localStorage w)
               (ToastError (VStr "Failed to download payslip") :: Request req :: trace w))
        end
    | Rejected rd =>
        (Normal tt,
         mkWorld (ui w) (localStorage w)
           (ToastError (VStr "Failed to download payslip") :: Request req :: trace w))
    end.
Proof.
  unfold PayslipsBasic.handleDownload. step_handler.
  destruct (server e _ _) as [d|rd]; cbn; [|reflexivity].
  unfold Payslips.month_label.
  destruct (if (1 <=? month)%Z then _ else _) as [m|]; reflexivity.
Qed.

(** Whatever the month and the answer, a download leaves the component
    state and the storage alone. *)
Lemma download_frame e w payslipId employeeNo month year :
  let w1 := snd (run (Payslips.handleDownload payslipId employeeNo month year) e w) in
  ui w1 = ui w /\ localStorage w1 = localStorage w.
Proof.
  rewrite Payslips_download_run. cbn zeta.
  destruct (server e _ _); [destruct (Payslips.month_label month)|]; done.
Qed.

Lemma Payslips_download : Spec.download_contract Payslips.handleDownload.
Proof.
  intros e w payslipId employeeNo month year Hm.
  rewrite Payslips_download_run, (month_label_name month Hm). cbn zeta.
  rewrite Payslips_download_call.
  destruct (server e _ _) as [content|rd]; cbn.
  - split; [done|]. split; [done|]. split; [done|]. by eexists [_; _].
  - split; [done|]. split; [done|]. split; [done|]. by eexists [_; _].
Qed.

Lemma PayslipsBasic_download : Spec.download_contract PayslipsBasic.handleDownload.
Proof.
  intros e w payslipId employeeNo month year Hm.
  rewrite PayslipsBasic_download_run, (month_label_name month Hm). cbn zeta.
  rewrite Payslips_download_call.
  destruct (server e _ _) as [content|rd]; cbn.
  - split; [done|]. split; [done|]. split; [done|]. by eexists [_; _].
  - split; [done|]. split; [done|]. split; [done|]. by eexists [_].
Qed.

(** C9.  A download for a payslip id, employee number, month in 1..12 and
    year sends one GET for binary content to /payslips/download/{id} with
    the stored token.  When it succeeds exactly one save follows, of the
    content received, under the name
    payslip_{employee_no}_{month_name}_{year}.pdf with the English month
    name, and no error is shown; when it fails nothing is saved and the
    error "Failed to download payslip" is shown.  Either way no
    application state changes: payslips, employees, dialog, drafts and
    loading flag are as before, and so is the storage.  This holds for
    both revisions of the component. *)
Theorem C9_download :
  Spec.download_contract Payslips.handleDownload
  /\ Spec.download_contract PayslipsBasic.handleDownload.
Proof. split; [apply Payslips_download | apply PayslipsBasic_download]. Qed.

(* ===================================================================== *)
(** * Promotions: the employee selector                                   *)
(* ===================================================================== *)

Lemma set_prop_fresh k v o :
  k ∉ map fst o -> set_prop k v o = o ++ [(k, v)].
Proof.
  induction o as [|[k' v'] o IH]; intros Hk; [done|].
  cbn in *. apply not_elem_of_cons in Hk as [Hne Hk].
  rewrite (proj2 (String.eqb_neq k' k)) by done. by rewrite IH.
Qed.

Lemma fold_set_fresh o : forall acc,
  NoDup (map fst (acc ++ o)) ->
  fold_left (fun o kv => set_prop (fst kv) (snd kv) o) o acc = acc ++ o.
Proof.
  induction o as [|[k v] o IH]; intros acc Hnd; cbn.
  - by rewrite app_nil_r.
  - rewrite set_prop_fresh.
    + rewrite IH; [by rewrite <- app_assoc|]. by rewrite <- app_assoc.
    + rewrite map_app in Hnd. cbn in Hnd.
      apply NoDup_app in Hnd as (_ & Hdis & _).
      intros Hin. apply (Hdis k Hin). left.
Qed.

(** Spreading an object into a fresh literal copies it. *)
Lemma literal_spread_copy o : NoDup (map fst o) -> literal (spread (VObj o)) = o.
Proof. intros H. unfold literal. cbn. by rewrite (fold_set_fresh o []). Qed.

Lemma lookup_literal_app kvs kvs' k :
  k ∉ map fst kvs' -> lookup_prop k (literal (kvs ++ kvs')) = lookup_prop k (literal kvs).
Proof.
  unfold literal. rewrite fold_left_app.
  generalize (fold_left (fun o kv => set_prop (fst kv) (snd kv) o) kvs []).
  induction kvs' as [|[k' v'] kvs' IH]; intros o Hk; [done|].
  cbn in *. apply not_elem_of_cons in Hk as [Hne Hk].
  rewrite IH by done. by apply lookup_set_prop_ne.
Qed.

Lemma find_no_match employeeId items :
  Forall (fun row => Spec.has_id employeeId row = false) items ->
  Promotions.find_by_id items employeeId = Normal VUndefined
  \/ exists x, Promotions.find_by_id items employeeId = Abrupt x.
Proof.
  induction 1 as [|row items Hrow _ IH]; cbn; [by left|].
  unfold Spec.has_id in Hrow.
  destruct row; cbn in *; try (by rewrite ?Hrow); by right; eexists.
Qed.

Lemma find_first_match employeeId before emp after :
  Forall (fun row => Spec.readable row /\ Spec.has_id employeeId row = false) before ->
  Spec.has_id employeeId emp = true ->
  Promotions.find_by_id (before ++ emp :: after) employeeId = Normal emp
  /\ exists o, emp = VObj o.
Proof.
  intros Hbefore Hemp. induction Hbefore as [|row before [Hr Hrow] _ IH]; cbn.
  - unfold Spec.has_id in Hemp. destruct emp; cbn in *; try done.
    rewrite Hemp. eauto.
  - unfold Spec.has_id in Hrow. destruct row; cbn in *; try done; by rewrite ?Hrow.
Qed.

(** C10.  In the promotion form's employee selector, a selected id that
    matches no row of the fetched employees leaves everything unchanged,
    in particular the whole draft; when a row matches, the first such row
    sets employee_id to the selected id and pre-fills new_designation with
    the row's designation and new_salary_components with a copy of the
    row's salary components (an empty object when the row has none),
    every other field of the draft and of the state staying as it was. *)
Theorem C10_employee_selector e w snap employeeId :
  (Forall (fun row => Spec.has_id employeeId row = false)
     (Spec.rows (Promotions.employees snap)) ->
   snd (run (Promotions.handleEmployeeChange snap employeeId) e w) = w)
  /\ (forall before emp after,
        Promotions.employees snap = VArr (before ++ emp :: after) ->
        Forall (fun row => Spec.readable row /\ Spec.has_id employeeId row = false) before ->
        Spec.has_id employeeId emp = true ->
        let '(r, w') := run (Promotions.handleEmployeeChange snap employeeId) e w in
        let s := ui w in
        let s' := ui w' in
        r = Normal tt
        /\ localStorage w' = localStorage w
        /\ trace w' = trace w
        /\ Promotions.promotions s' = Promotions.promotions s
        /\ Promotions.employees s' = Promotions.employees s
        /\ Promotions.loading s' = Promotions.loading s
        /\ Promotions.dialogOpen s' = Promotions.dialogOpen s
        /\ get_opt (VObj (Promotions.formData s')) "employee_id" = VStr employeeId
        /\ get_opt (VObj (Promotions.formData s')) "new_designation"
           = get_opt emp "designation"
        /\ (forall components,
              get_opt emp "salary_components" = VObj components ->
              NoDup (map fst components) ->
              get_opt (VObj (Promotions.formData s')) "new_salary_components"
              = VObj components)
        /\ (get_opt emp "salary_components" = VUndefined
            \/ get_opt emp "salary_components" = VNull ->
            get_opt (VObj (Promotions.formData s')) "new_salary_components" = VObj [])
        /\ (NoDup (map fst (Promotions.formData s)) ->
            forall k, k ∉ ["employee_id"; "new_designation"; "new_salary_components"] ->
              get_opt (VObj (Promotions.formData s')) k
              = get_opt (VObj (Promotions.formData s)) k)).
Proof.
  split.
  - intros Hno. unfold Promotions.handleEmployeeChange, Promotions.find_employee.
    destruct w as [s st t].
    destruct (Promotions.employees snap) as [| | | | | |items|]; try reflexivity.
    destruct (find_no_match employeeId items Hno) as [Hf|[x Hf]];
      step_handler; rewrite Hf; reflexivity.
  - intros before emp after Hemps Hbefore Hemp.
    destruct (find_first_match employeeId before emp after Hbefore Hemp) as [Hf [o ->]].
    unfold Promotions.handleEmployeeChange, Promotions.find_employee.
    rewrite Hemps. step_handler. rewrite Hf. cbn -[literal spread].
    repeat (split; [reflexivity|]).
    rewrite fold_left_app. cbn [fold_left fst snd].
    split; [|split; [|split; [|split]]].
    + rewrite !lookup_set_prop_ne by done. by rewrite lookup_set_prop_eq.
    + rewrite lookup_set_prop_ne by done. by rewrite lookup_set_prop_eq.
    + intros components Hc Hnd. rewrite lookup_set_prop_eq. cbn [default from_option].
      cbn [get_opt] in Hc. rewrite Hc, literal_spread_copy by done. reflexivity.
    + intros Hc. rewrite lookup_set_prop_eq. cbn [default from_option].
      cbn [get_opt] in Hc. by destruct Hc as [-> | ->].
    + intros Hnd k Hk.
      rewrite !not_elem_of_cons in Hk. destruct Hk as (H1 & H2 & H3 & _).
      rewrite !lookup_set_prop_ne by done.
      by rewrite (fold_set_fresh (Promotions.formData (ui w)) []).
Qed.

(* ===================================================================== *)
(** * Numeric coercion                                                    *)
(* ===================================================================== *)

Lemma Employees_salary_change_run e w name value :
  Spec.readable (Employees.formData (ui w)) ->
  run (Employees.handleSalaryChange name value) e w =
    let s := ui w in
    (Normal tt,
     mkWorld
       (Employees.mkState (Employees.employees s) (Employees.loading s)
          (Employees.dialogOpen s) (Employees.editingEmployee s)
          (Employees.deleteDialogOpen s) (Employees.employeeToDelete s)
          (VObj (literal (spread (Employees.formData s) ++
             [ ("salary_components",
                VObj (literal (spread (get_opt (Employees.formData s) "salary_components") ++
                  [ (name, or_else (VNum (parseFloat (VStr value))) (VInt 0)) ]))) ]))))
       (localStorage w) (trace w)).
Proof.
  intros Hr. unfold Employees.handleSalaryChange, Employees.updateFormData, update_state, run.
  destruct (Employees.formData (ui w)); try done.
Qed.

Lemma Promotions_salary_change_run e w name value :
  run (Promotions.handleSalaryChange name value) e w =
    let s := ui w in
    (Normal tt,
     mkWorld
       (Promotions.mkState (Promotions.promotions s) (Promotions.employees s)
          (Promotions.loading s) (Promotions.dialogOpen s)
          (literal (spread (VObj (Promotions.formData s)) ++
             [ ("new_salary_components",
                VObj (literal
                  (spread (Promotions.prop (Promotions.formData s) "new_salary_components") ++
                  [ (name, or_else (VNum (parseFloat (VStr value))) (VInt 0)) ]))) ])))
       (localStorage w) (trace w)).
Proof. reflexivity. Qed.



(** The day counts are read with [parseInt] and no fallback: a whole
    number of days is sent as that number. *)
Lemma save_edit_typed_days employee_id month year editFormData p l :
  Spec.whole_days (Payslips.prop editFormData "paid_days") p ->
  Spec.whole_days (Payslips.prop editFormData "lop_days") l ->
  Payslips.edit_payload employee_id month year editFormData =
    VObj [ ("employee_id", employee_id); ("month", month); ("year", year);
           ("paid_days", VNum (Fin false p 0)); ("lop_days", VNum (Fin false l 0)) ].
Proof.
  intros Hp Hl. unfold Payslips.edit_payload.
  by rewrite (parseInt_whole_days _ _ Hp), (parseInt_whole_days _ _ Hl).
Qed.

(* ===================================================================== *)
(** * Concrete runs                                                       *)
(* ===================================================================== *)

(** The spec's password scenario: new password "abc", confirmation "xyz". *)
Lemma C4_password_mismatch_witness :
  let snap := Settings.mkState (Settings.mkForm "old" "" "abc" "xyz") false in
  let w := Samples.fresh snap in
  Settings.new_password (Settings.formData snap)
    <> Settings.confirm_password (Settings.formData snap)
  /\ let '(r, w') := run (Settings.handleSubmit snap) Samples.accepting w in
     r = Normal tt
     /\ emits w w' [ToastError (VStr "New password and confirm password do not match")]
     /\ requests_of (trace w') = requests_of (trace w)
     /\ ui w' = ui w
     /\ localStorage w' = localStorage w.
Proof.
  intros snap w. split; [discriminate|].
  apply (C4_password_mismatch_aborts Samples.accepting w snap).
  discriminate.
Defined.

Lemma C7_session_store_witness :
  let w := mkWorld App.initial Samples.signed_in [] in
  to_string (VStr "t0k3n") <> ""
  /\ ui w = App.initial
  /\ App.isAuthenticated
       (ui (snd (run (App.handleLogin (VStr "t0k3n") (VStr "admin")) Samples.accepting w)))
     = true
  /\ Spec.session_inv
       (snd (run (App.handleLogin (VStr "t0k3n") (VStr "admin")) Samples.accepting w))
  /\ Spec.session_inv (snd (run App.useEffect_mount Samples.accepting w)).
Proof.
  intros w. split; [discriminate|]. split; [reflexivity|].
  destruct (C7_session_store Samples.accepting w (VStr "t0k3n") (VStr "admin"))
    as [(_ & _ & Hauth & Hinv) [_ Hstart]].
  split; [exact Hauth|]. split; [apply Hinv; discriminate|].
  exact (proj2 (proj2 (Hstart eq_refl))).
Defined.

(** With an empty token "a token is present" has no reading under which
    the claim holds: the key is stored yet startup leaves the session
    unauthenticated, and a login with the empty token authenticates. *)
Lemma C7_empty_token_counterexample :
  (let w := mkWorld App.initial {[ "token" := "" ]} [] in
   let w' := snd (run App.useEffect_mount Samples.accepting w) in
   localStorage w' !! "token" = Some "" /\ App.isAuthenticated (ui w') = false)
  /\ (let w := mkWorld App.initial ∅ [] in
      let w' := snd (run (App.handleLogin (VStr "") (VStr "admin")) Samples.accepting w) in
      localStorage w' !! "token" = Some "" /\ App.isAuthenticated (ui w') = true).
Proof. split; split; reflexivity. Qed.

Lemma C8_route_guards_witness :
  Spec.in_authenticated_section "/payslips" = true
  /\ App.resolve false "/payslips" = App.Redirect "/login"
  /\ Spec.is_login_path "/login" = true
  /\ App.resolve true "/login" = App.Redirect "/dashboard".
Proof.
  split; [vm_compute; reflexivity|].
  split; [exact (proj1 (proj1 (C8_route_guards "/payslips")) eq_refl)|].
  split; [reflexivity|].
  exact (proj2 (C8_route_guards "/login") eq_refl).
Defined.

(** Paths that differ from a section path in case or trailing slashes
    name the same location; a doubled leading slash names none. *)
Example locations :
  map Spec.in_authenticated_section
    [ "/"; "/dashboard"; "/Dashboard/"; "/settings///"; "//dashboard"; "/login";
      "/dashboard/x"; "" ]
  = [ true; true; true; true; false; false; false; true ]
  /\ map (App.resolve false) [ "/Dashboard/"; "//dashboard"; "//login"; "/reports" ]
     = [ App.Redirect "/login"; App.NoMatch; App.NoMatch; App.NoMatch ].
Proof. vm_compute. split; reflexivity. Qed.





Lemma C9_download_witness :
  let snap := Payslips.initial Samples.accepting in
  let w := Samples.fresh snap in
  let w' := snd (run (Payslips.handleDownload (VStr "p1") (VStr "EMP001") 6 (VInt 2025))
                   Samples.accepting w) in
  (1 <= 6 <= 12)%Z
  /\ ui w' = ui w
  /\ exists es,
       emits w w'
         (Request (mkRequest GET "https://payroll.example/api/payslips/download/p1" None
                     (Some "Bearer t0k3n") true) :: es)
       /\ omap Spec.saved_file es = [("payslip_EMP001_June_2025.pdf", VBlob VNull)].
Proof.
  intros snap w w'. split; [lia|].
  pose proof (proj1 C9_download Samples.accepting w (VStr "p1") (VStr "EMP001") 6%Z
                (VInt 2025) ltac:(lia)) as H.
  cbv zeta in H. unfold w'.
  destruct (run (Payslips.handleDownload (VStr "p1") (VStr "EMP001") 6 (VInt 2025))
              Samples.accepting w) as [r w1].
  destruct H as (_ & Hui & _ & es & Hem & _ & Hsaved). cbn in Hsaved.
  split; [exact Hui|]. exists es. split; [exact Hem|exact (proj1 Hsaved)].
Defined.

(** The spec's download scenario, and the same against a backend that
    rejects: the error body is binary content, so its detail is not
    shown. *)
Example download_scenario :
  let snap := Payslips.initial Samples.accepting in
  let download := Payslips.handleDownload (VStr "p1") (VStr "EMP001") 6 (VInt 2025) in
  let req := mkRequest GET "https://payroll.example/api/payslips/download/p1" None
               (Some "Bearer t0k3n") true in
  trace (snd (run download Samples.accepting (Samples.fresh snap))) =
    [ ToastSuccess (VStr "Payslip downloaded successfully");
      SaveFile "payslip_EMP001_June_2025.pdf" (VBlob VNull);
      Request req ]
  /\ trace (snd (run download Samples.rejecting (Samples.fresh snap))) =
       [ ToastError (VStr "Failed to download payslip");
         ConsoleError "Download error:"
           (AxiosError (Some (VBlob (VObj [("detail", VStr "Employee not found")]))));
         Request req ].
Proof. vm_compute. split; reflexivity. Qed.



(** A failed load of the dashboard shows no notification: the claim does
    not hold of it with the notification the other views show. *)
Lemma C6_dashboard_counterexample :
  ~ Spec.load_contract Dashboard.fetchStats Spec.dashboard_fetches
      (fun s => [Dashboard.stats s]) Dashboard.loading true.
Proof.
  intros H.
  specialize (H Samples.rejecting (Samples.fresh Dashboard.initial)).
  rewrite Dashboard_fetch_run in H. cbn in H.
  destruct H as (_ & _ & es & Hem & _ & Hn & _).
  unfold emits in Hem.
  destruct es as [|ev [|ev' es]]; cbn in Hem.
  - discriminate Hem.
  - injection Hem as <-. discriminate Hn.
  - apply (f_equal (@length event)) in Hem.
    rewrite !length_app, length_rev in Hem. cbn in Hem. lia.
Qed.

Example dashboard_failure_trace :
  trace (snd (run Dashboard.fetchStats Samples.rejecting (Samples.fresh Dashboard.initial))) =
    [ ConsoleError "Error fetching stats:"
        (AxiosError (Some (VObj [("detail", VStr "Employee not found")])));
      Request (mkRequest GET "https://payroll.example/api/dashboard/stats" None
                 (Some "Bearer t0k3n") false) ].
Proof. vm_compute. reflexivity. Qed.

Lemma C10_employee_selector_witness :
  let snap := Promotions.mkState (VArr []) (VArr [Samples.alice]) false true
                Promotions.initialFormData in
  let w := Samples.fresh snap in
  let draft id :=
    VObj (Promotions.formData
            (ui (snd (run (Promotions.handleEmployeeChange snap id) Samples.accepting w)))) in
  (Forall (fun row => Spec.has_id "nobody" row = false)
     (Spec.rows (Promotions.employees snap))
   /\ snd (run (Promotions.handleEmployeeChange snap "nobody") Samples.accepting w) = w)
  /\ (Promotions.employees snap = VArr ([] ++ Samples.alice :: [])
      /\ Forall (fun row => Spec.readable row /\ Spec.has_id "e1" row = false) []
      /\ Spec.has_id "e1" Samples.alice = true
      /\ get_opt (draft "e1") "employee_id" = VStr "e1"
      /\ get_opt (draft "e1") "new_designation" = VStr "Engineer"
      /\ get_opt (draft "e1") "new_salary_components"
         = get_opt Samples.alice "salary_components").
Proof.
  intros snap w draft.
  assert (Forall (fun row => Spec.has_id "nobody" row = false)
            (Spec.rows (Promotions.employees snap))) as Hno by (repeat constructor).
  split.
  - split; [exact Hno|].
    exact (proj1 (C10_employee_selector Samples.accepting w snap "nobody") Hno).
  - split; [reflexivity|]. split; [constructor|]. split; [reflexivity|].
    pose proof (proj2 (C10_employee_selector Samples.accepting w snap "e1")
                  [] Samples.alice [] eq_refl (List.Forall_nil _) eq_refl) as H.
    unfold draft.
    destruct (run (Promotions.handleEmployeeChange snap "e1") Samples.accepting w) as [r w'].
    destruct H as (_ & _ & _ & _ & _ & _ & _ & Hid & Hd & Hc & _).
    split; [exact Hid|]. split; [exact Hd|].
    apply Hc; [reflexivity|]. apply (bool_decide_unpack _). vm_compute. reflexivity.
Defined.

(* ===================================================================== *)
(** * Laws of the handler monad                                           *)
(* ===================================================================== *)

Section AuthorisedRules.
Context {S : Type}.
Variable token : option string.

Lemma emits_refl (w : world S) : emits w w [].
Proof. reflexivity. Qed.

Lemma emits_trans (w w1 w2 : world S) es1 es2 :
  emits w w1 es1 -> emits w1 w2 es2 -> emits w w2 (es1 ++ es2).
Proof.
  unfold emits. intros H1 H2. rewrite H2, H1, rev_app_distr. by rewrite <- app_assoc.
Qed.

Lemma requests_in_app es1 es2 :
  requests_in (es1 ++ es2) = requests_in es1 ++ requests_in es2.
Proof. apply omap_app. Qed.

Lemma authorised_ret {A} (a : A) : Laws.authorised token (mret a : M S A).
Proof. intros e w _. cbn. split; [done|]. by exists []. Qed.

Lemma authorised_throw {A} x : Laws.authorised token (throw x : M S A).
Proof. intros e w _. cbn. split; [done|]. by exists []. Qed.

Lemma authorised_eval {A} (c : completion A) : Laws.authorised token (eval c : M S A).
Proof. intros e w _. cbn. split; [done|]. by exists []. Qed.

Lemma authorised_ask : Laws.authorised token (ask : M S env).
Proof. intros e w _. cbn. split; [done|]. by exists []. Qed.

Lemma authorised_set_state f : Laws.authorised token (set_state f : M S unit).
Proof. intros e w _. cbn. split; [done|]. by exists []. Qed.

Lemma authorised_update_state f : Laws.authorised token (update_state f : M S unit).
Proof.
  intros e w _. unfold run, update_state. destruct (f (ui w)); cbn; (split; [done|]); by exists [].
Qed.

Lemma authorised_toast_success m : Laws.authorised token (toast_success m : M S unit).
Proof. intros e w _. cbn. split; [done|]. by eexists [_]. Qed.

Lemma authorised_toast_error m : Laws.authorised token (toast_error m : M S unit).
Proof. intros e w _. cbn. split; [done|]. by eexists [_]. Qed.

Lemma authorised_emit ev :
  match ev with Request _ => False | _ => True end ->
  Laws.authorised token (emit ev : M S unit).
Proof. intros Hev e w _. cbn. split; [done|]. exists [ev]. by destruct ev. Qed.

Lemma authorised_axios r :
  Laws.carries token r -> Laws.authorised token (axios r : M S value).
Proof.
  intros Hr e w _. unfold run, axios.
  destruct (server e _ r); cbn; (split; [done|]); exists [Request r]; split; try done;
    by repeat constructor.
Qed.

Lemma authorised_axios_all2 a b :
  Laws.carries token a ->
  Laws.carries token b ->
  Laws.authorised token (axios_all2 a b : M S (value * value)).
Proof.
  intros Ha Hb e w _. unfold run, axios_all2.
  destruct (server e _ a); [destruct (server e _ b)|]; cbn; (split; [done|]);
    exists [Request a; Request b]; split; try done; by repeat constructor.
Qed.

Lemma authorised_bind {A B} (c : M S A) (k : A -> M S B) :
  Laws.authorised token c -> (forall a, Laws.authorised token (k a)) ->
  Laws.authorised token (c ≫= k).
Proof.
  intros Hc Hk e w Htok. specialize (Hc e w Htok).
  unfold run, mbind, M_bind, bind in *.
  destruct (c e w) as [[a|x] w1]; destruct Hc as (Hst & es1 & Hem1 & Hall1).
  - specialize (Hk a e w1). rewrite Hst in Hk. specialize (Hk Htok).
    unfold run in Hk. destruct (k a e w1) as [r w2].
    destruct Hk as (Hst2 & es2 & Hem2 & Hall2).
    split; [done|]. exists (es1 ++ es2). split; [by eapply emits_trans|].
    rewrite requests_in_app. by apply Forall_app.
  - split; [done|]. by exists es1.
Qed.

(** Reading the token yields the token the requests must carry. *)
Lemma authorised_bind_token {B} (k : option string -> M S B) :
  Laws.authorised token (k token) ->
  Laws.authorised token (getItem "token" ≫= k).
Proof.
  intros Hk e w Htok. specialize (Hk e w Htok).
  unfold run, mbind, M_bind, bind, getItem in *. cbn. by rewrite Htok.
Qed.

Lemma authorised_try_catch {A} (body : M S A) handler :
  Laws.authorised token body -> (forall x, Laws.authorised token (handler x)) ->
  Laws.authorised token (try_catch body handler).
Proof.
  intros Hc Hk e w Htok. specialize (Hc e w Htok).
  unfold run, try_catch in *.
  destruct (body e w) as [[a|x] w1]; destruct Hc as (Hst & es1 & Hem1 & Hall1).
  - split; [done|]. by exists es1.
  - specialize (Hk x e w1). rewrite Hst in Hk. specialize (Hk Htok).
    unfold run in Hk. destruct (handler x e w1) as [r w2].
    destruct Hk as (Hst2 & es2 & Hem2 & Hall2).
    split; [done|]. exists (es1 ++ es2). split; [by eapply emits_trans|].
    rewrite requests_in_app. by apply Forall_app.
Qed.

Lemma authorised_try_finally {A} (body : M S A) final :
  Laws.authorised token body -> Laws.authorised token final ->
  Laws.authorised token (try_finally body final).
Proof.
  intros Hc Hk e w Htok. specialize (Hc e w Htok).
  unfold run, try_finally in *.
  destruct (body e w) as [r1 w1]. destruct Hc as (Hst & es1 & Hem1 & Hall1).
  specialize (Hk e w1). rewrite Hst in Hk. specialize (Hk Htok).
  unfold run in Hk. destruct (final e w1) as [[u|x] w2];
    destruct Hk as (Hst2 & es2 & Hem2 & Hall2);
    (split; [done|]; exists (es1 ++ es2); split; [by eapply emits_trans|];
     rewrite requests_in_app; by apply Forall_app).
Qed.

Lemma authorised_detached (c : M S unit) :
  Laws.authorised token c -> Laws.authorised token (detached c).
Proof.
  intros Hc e w Htok. specialize (Hc e w Htok).
  unfold run, detached in *. destruct (c e w) as [r w1]. done.
Qed.

End AuthorisedRules.

(** The requests of the handlers are built with [bearer]. *)
Lemma carries_bearer token m url data blob :
  Laws.carries token (mkRequest m url data (Some (bearer token)) blob).
Proof. unfold Laws.carries. by destruct token. Qed.

Ltac authorise_step :=
  lazymatch goal with
  | |- forall _, _ => intro
  | |- Laws.authorised _ (mbind _ (getItem "token")) => apply authorised_bind_token
  | |- Laws.authorised _ (mbind _ _) => apply authorised_bind
  | |- Laws.authorised _ (try_finally _ _) => apply authorised_try_finally
  | |- Laws.authorised _ (try_catch _ _) => apply authorised_try_catch
  | |- Laws.authorised _ (detached _) => apply authorised_detached
  | |- Laws.authorised _ (if ?b then _ else _) => destruct b
  | |- Laws.authorised _ (axios _) => apply authorised_axios; apply carries_bearer
  | |- Laws.authorised _ (axios_all2 _ _) => apply authorised_axios_all2; apply carries_bearer
  | |- Laws.authorised _ (emit _) => apply authorised_emit; exact I
  | |- Laws.authorised _ _ =>
      first [ apply authorised_ret | apply authorised_ask | apply authorised_eval
            | apply authorised_set_state | apply authorised_update_state
            | apply authorised_toast_success | apply authorised_toast_error ]
  end.

Ltac authorise := repeat authorise_step.

Lemma authorised_everywhere {S A} (c : M S A) :
  (forall token, Laws.authorised token c) -> Laws.sends_stored_token c.
Proof. intros H e w. by apply (H (localStorage w !! "token")). Qed.

Lemma Employees_fetch_authorised token : Laws.authorised token Employees.fetchEmployees.
Proof. unfold Employees.fetchEmployees. authorise. Qed.

Lemma Promotions_fetch_authorised token : Laws.authorised token Promotions.fetchData.
Proof. unfold Promotions.fetchData. authorise. Qed.

Lemma Payslips_fetch_authorised token : Laws.authorised token Payslips.fetchData.
Proof. unfold Payslips.fetchData. authorise. Qed.

Lemma PayslipsBasic_fetch_authorised token : Laws.authorised token PayslipsBasic.fetchData.
Proof. unfold PayslipsBasic.fetchData. authorise. Qed.

(** X1.  Every request sent by a handler of the Employees, Promotions,
    Payslips (both revisions) and Dashboard views carries the header
    Authorization: Bearer followed by the token held in localStorage when
    the handler starts ("null" when there is none), whatever the backend
    answers and whatever the arguments are; and none of these handlers
    writes to localStorage. *)
Theorem data_handlers_send_stored_token :
  Laws.sends_stored_token Employees.fetchEmployees
  /\ (forall snap, Laws.sends_stored_token (Employees.handleSubmit snap))
  /\ (forall snap, Laws.sends_stored_token (Employees.handleDelete snap))
  /\ Laws.sends_stored_token Promotions.fetchData
  /\ (forall snap, Laws.sends_stored_token (Promotions.handleSubmit snap))
  /\ Laws.sends_stored_token Payslips.fetchData
  /\ (forall snap, Laws.sends_stored_token (Payslips.handleSubmit snap))
  /\ (forall snap payslip, Laws.sends_stored_token (Payslips.handleSaveEdit snap payslip))
  /\ (forall id no month year,
        Laws.sends_stored_token (Payslips.handleDownload id no month year))
  /\ Laws.sends_stored_token PayslipsBasic.fetchData
  /\ (forall snap, Laws.sends_stored_token (PayslipsBasic.handleSubmit snap))
  /\ (forall id no month year,
        Laws.sends_stored_token (PayslipsBasic.handleDownload id no month year))
  /\ Laws.sends_stored_token Dashboard.fetchStats.
Proof.
  repeat split; intros; apply authorised_everywhere; intros token.
  - apply Employees_fetch_authorised.
  - unfold Employees.handleSubmit, Employees.resetForm. authorise;
      apply Employees_fetch_authorised.
  - unfold Employees.handleDelete. authorise. apply Employees_fetch_authorised.
  - apply Promotions_fetch_authorised.
  - unfold Promotions.handleSubmit, Promotions.resetForm. authorise.
    apply Promotions_fetch_authorised.
  - apply Payslips_fetch_authorised.
  - unfold Payslips.handleSubmit, Payslips.resetForm. authorise.
    apply Payslips_fetch_authorised.
  - unfold Payslips.handleSaveEdit. authorise. apply Payslips_fetch_authorised.
  - unfold Payslips.handleDownload. authorise.
  - apply PayslipsBasic_fetch_authorised.
  - unfold PayslipsBasic.handleSubmit, PayslipsBasic.resetForm. authorise.
    apply PayslipsBasic_fetch_authorised.
  - unfold PayslipsBasic.handleDownload. authorise.
  - unfold Dashboard.fetchStats. authorise.
Qed.

(* ===================================================================== *)
(** * Employees: update, terminate, and the dialog                        *)
(* ===================================================================== *)

(** X2.  Submitting the employee form while an employee is being edited
    sends exactly one PUT to /employees/{id of that employee} with the
    draft as body.  On success the dialog closes, the draft is reset, the
    editing target is cleared and the list is refetched once; on failure
    the state is left as it was and the server's detail (or "Operation
    failed") is shown. *)
Theorem Employees_update_submit e w snap :
  truthy (Employees.editingEmployee snap) = true ->
  let token := localStorage w !! "token" in
  let req := Spec.call e token PUT
               ("/employees/" +:+ to_string (get_opt (Employees.editingEmployee snap) "id"))
               (Some (Employees.formData snap)) in
  let '(r, w') := run (Employees.handleSubmit snap) e w in
  r = Normal tt
  /\ match server e (requests_of (trace w)) req with
     | Resolved _ =>
         (exists es, emits w w' (Request req :: es)
            /\ requests_in es = Spec.employees_fetches e token)
         /\ Employees.dialogOpen (ui w') = false
         /\ Employees.editingEmployee (ui w') = VNull
         /\ Employees.formData (ui w') = Spec.employee_defaults
     | Rejected rd =>
         emits w w' [Request req; ToastError (Spec.server_message rd "Operation failed")]
         /\ ui w' = ui w
     end.
Proof.
  intros Hedit. rewrite (Employees_update_run e w snap Hedit). cbn zeta.
  rewrite Employees_update_call.
  destruct (server e _ _) as [d|rd]; [|done].
  rewrite Employees_fetch_run. cbn.
  split; [done|].
  destruct (server e _ _); cbn; (split; [give_events|done]).
Qed.

Lemma Employees_delete_run e w snap :
  Spec.readable (Employees.employeeToDelete snap) ->
  run (Employees.handleDelete snap) e w =
    let s := ui w in
    let req := Laws.terminate_request e (localStorage w !! "token")
                 (get_opt (Employees.employeeToDelete snap) "id") in
    match server e (requests_of (trace w)) req with
    | Resolved _ =>
        (Normal tt,
         snd (run Employees.fetchEmployees e
                (mkWorld (Employees.mkState (Employees.employees s) (Employees.loading s)
                            (Employees.dialogOpen s) (Employees.editingEmployee s) false
                            (Employees.employeeToDelete s) (Employees.formData s))
                   (localStorage w)
                   (ToastSuccess (VStr "Employee terminated successfully")
                      :: Request req :: trace w))))
    | Rejected rd =>
        (Normal tt,
         mkWorld s (localStorage w)
           (ToastError (VStr "Failed to terminate employee") :: Request req :: trace w))
    end.
Proof.
  intros Hr. unfold Employees.handleDelete. rewrite (get_readable _ "id" Hr). step_handler.
  destruct (server e _ _) as [d|rd]; reflexivity.
Qed.

(** X3.  Confirming a termination sends exactly one DELETE to
    /employees/{id of the chosen employee}.  On success the handler
    clears the flag of the confirmation dialog and the list is refetched
    once, the chosen employee staying recorded; on failure the handler
    leaves the state as it was and the fixed message "Failed to terminate
    employee" is shown, whatever detail the server sent. *)
Theorem Employees_confirm_termination e w snap :
  Spec.readable (Employees.employeeToDelete snap) ->
  let token := localStorage w !! "token" in
  let req := Laws.terminate_request e token
               (get_opt (Employees.employeeToDelete snap) "id") in
  let '(r, w') := run (Employees.handleDelete snap) e w in
  r = Normal tt
  /\ match server e (requests_of (trace w)) req with
     | Resolved _ =>
         (exists es, emits w w' (Request req :: es)
            /\ requests_in es = Spec.employees_fetches e token)
         /\ Employees.deleteDialogOpen (ui w') = false
         /\ Employees.employeeToDelete (ui w') = Employees.employeeToDelete (ui w)
         /\ Employees.formData (ui w') = Employees.formData (ui w)
     | Rejected _ =>
         emits w w' [Request req; ToastError (VStr "Failed to terminate employee")]
         /\ ui w' = ui w
     end.
Proof.
  intros Hr. rewrite (Employees_delete_run e w snap Hr). cbn zeta.
  destruct (server e _ _) as [d|rd]; [|done].
  rewrite Employees_fetch_run. cbn.
  split; [done|].
  destruct (server e _ _); cbn; (split; [give_events|done]).
Qed.

(** X4.  Confirming a termination when no employee was chosen (the target
    is still null) sends nothing: the property read fails inside the try
    block, the handler shows "Failed to terminate employee" and leaves the
    state as it was. *)
Theorem Employees_terminate_without_target e w snap :
  Employees.employeeToDelete snap = VNull \/ Employees.employeeToDelete snap = VUndefined ->
  let '(r, w') := run (Employees.handleDelete snap) e w in
  r = Normal tt
  /\ emits w w' [ToastError (VStr "Failed to terminate employee")]
  /\ requests_of (trace w') = requests_of (trace w)
  /\ ui w' = ui w
  /\ localStorage w' = localStorage w.
Proof.
  intros [H|H]; unfold Employees.handleDelete; rewrite H; step_handler;
    repeat split; apply requests_of_toast_error.
Qed.

Lemma Employees_edit_run e w employee :
  run (Employees.handleEdit employee) e w =
    let s := ui w in
    (Normal tt,
     mkWorld (Employees.mkState (Employees.employees s) (Employees.loading s) true employee
                (Employees.deleteDialogOpen s) (Employees.employeeToDelete s) employee)
       (localStorage w) (trace w)).
Proof. reflexivity. Qed.

(** X5.  Opening a row for editing and submitting without a change sends
    the row back as it was fetched: one PUT to /employees/{the row's id}
    whose body is the row itself. *)
Theorem Employees_edit_then_submit e w employee :
  truthy employee = true ->
  let w1 := snd (run (Employees.handleEdit employee) e w) in
  let req := Spec.call e (localStorage w !! "token") PUT
               ("/employees/" +:+ to_string (get_opt employee "id")) (Some employee) in
  Employees.dialogOpen (ui w1) = true
  /\ Employees.formData (ui w1) = employee
  /\ exists es, emits w1 (snd (run (Employees.handleSubmit (ui w1)) e w1)) (Request req :: es).
Proof.
  intros Ht. rewrite Employees_edit_run. cbn zeta. cbn [snd ui Employees.dialogOpen
    Employees.formData].
  split; [done|]. split; [done|].
  rewrite Employees_update_run by done. cbn zeta.
  cbn [ui localStorage trace Employees.editingEmployee Employees.formData].
  rewrite Employees_update_call.
  destruct (server e _ _) as [d|rd].
  - rewrite Employees_fetch_run. cbn.
    destruct (server e _ _); cbn; give_trace.
  - cbn. give_trace.
Qed.

Lemma Employees_cancel_reopen_run e w employee :
  run (Employees.handleEdit employee;; Dialogs.Employees_cancel;;
       Dialogs.Employees_onOpenChange true) e w =
    let s := ui w in
    (Normal tt,
     mkWorld (Employees.mkState (Employees.employees s) (Employees.loading s) true employee
                (Employees.deleteDialogOpen s) (Employees.employeeToDelete s) employee)
       (localStorage w) (trace w)).
Proof. reflexivity. Qed.

Lemma Employees_dismiss_reopen_run e w employee :
  run (Employees.handleEdit employee;; Dialogs.Employees_onOpenChange false;;
       Dialogs.Employees_onOpenChange true) e w =
    let s := ui w in
    (Normal tt,
     mkWorld (Employees.mkState (Employees.employees s) (Employees.loading s) true VNull
                (Employees.deleteDialogOpen s) (Employees.employeeToDelete s)
                Employees.resetFormData)
       (localStorage w) (trace w)).
Proof. reflexivity. Qed.

(** X6.  In the Employees view the Cancel button only closes the dialog.
    After Edit on a row, Cancel, and opening the dialog again, the row is
    still the editing target and still fills the draft, so a submit sends
    a PUT for that row.  Dismissing the dialog instead (its onOpenChange
    with false) clears the target and resets the draft, and a submit after
    reopening sends a POST of the reset draft. *)
Theorem Employees_cancel_keeps_edit_target e w employee :
  truthy employee = true ->
  let token := localStorage w !! "token" in
  let cancelled :=
    snd (run (Employees.handleEdit employee;; Dialogs.Employees_cancel;;
              Dialogs.Employees_onOpenChange true) e w) in
  let dismissed :=
    snd (run (Employees.handleEdit employee;; Dialogs.Employees_onOpenChange false;;
              Dialogs.Employees_onOpenChange true) e w) in
  (Employees.dialogOpen (ui cancelled) = true
   /\ Employees.editingEmployee (ui cancelled) = employee
   /\ Employees.formData (ui cancelled) = employee
   /\ exists es,
        emits cancelled (snd (run (Employees.handleSubmit (ui cancelled)) e cancelled))
          (Request (Spec.call e token PUT
                      ("/employees/" +:+ to_string (get_opt employee "id")) (Some employee))
           :: es))
  /\ (Employees.dialogOpen (ui dismissed) = true
      /\ Employees.editingEmployee (ui dismissed) = VNull
      /\ Employees.formData (ui dismissed) = Spec.employee_defaults
      /\ exists es,
           emits dismissed (snd (run (Employees.handleSubmit (ui dismissed)) e dismissed))
             (Request (Spec.call e token POST "/employees" (Some Spec.employee_defaults))
              :: es)).
Proof.
  intros Ht. rewrite Employees_cancel_reopen_run, Employees_dismiss_reopen_run. cbn zeta.
  cbn [snd ui Employees.dialogOpen Employees.editingEmployee Employees.formData].
  split; (split; [done|]; split; [done|]; split; [done|]).
  - rewrite Employees_update_run by done. cbn zeta.
    cbn [ui localStorage trace Employees.editingEmployee Employees.formData].
    rewrite Employees_update_call.
    destruct (server e _ _) as [d|rd].
    + rewrite Employees_fetch_run. cbn. destruct (server e _ _); cbn; give_trace.
    + cbn. give_trace.
  - rewrite Employees_create_run by done. cbn zeta.
    cbn [ui localStorage trace Employees.editingEmployee Employees.formData].
    rewrite Employees_create_call.
    change Employees.resetFormData with Spec.employee_defaults.
    destruct (server e _ _) as [d|rd].
    + rewrite Employees_fetch_run. cbn. destruct (server e _ _); cbn; give_trace.
    + cbn. give_trace.
Qed.

(** X7.  In the Promotions and Payslips views too, Cancel keeps the draft
    and a dismissal resets it: after Cancel and reopening, the draft is
    what had been typed; after a dismissal and reopening, it is the reset
    draft.  Either way only the dialog flag and the draft can differ from
    before. *)
Theorem dialog_cancel_keeps_draft :
  (forall e (w : world Promotions.state),
     let cancelled :=
       ui (snd (run (Dialogs.Promotions_cancel;; Dialogs.Promotions_onOpenChange true) e w)) in
     let dismissed :=
       ui (snd (run (Dialogs.Promotions_onOpenChange false;;
                     Dialogs.Promotions_onOpenChange true) e w)) in
     cancelled = Promotions.mkState (Promotions.promotions (ui w)) (Promotions.employees (ui w))
                   (Promotions.loading (ui w)) true (Promotions.formData (ui w))
     /\ dismissed = Promotions.mkState (Promotions.promotions (ui w))
                      (Promotions.employees (ui w)) (Promotions.loading (ui w)) true
                      Promotions.resetFormData)
  /\ (forall e (w : world Payslips.state),
        let cancelled :=
          ui (snd (run (Dialogs.Payslips_cancel;; Dialogs.Payslips_onOpenChange true) e w)) in
        let dismissed :=
          ui (snd (run (Dialogs.Payslips_onOpenChange false;;
                        Dialogs.Payslips_onOpenChange true) e w)) in
        cancelled = Payslips.mkState (Payslips.payslips (ui w)) (Payslips.employees (ui w))
                      (Payslips.loading (ui w)) true (Payslips.editingPayslip (ui w))
                      (Payslips.editFormData (ui w)) (Payslips.formData (ui w))
        /\ dismissed = Payslips.mkState (Payslips.payslips (ui w)) (Payslips.employees (ui w))
                         (Payslips.loading (ui w)) true (Payslips.editingPayslip (ui w))
                         (Payslips.editFormData (ui w)) (Payslips.resetFormData e)).
Proof. split; intros e w; split; reflexivity. Qed.

(** X8.  Typing into a text field of the employee form stores the typed
    string under the field's name, whatever the draft was; on a draft with
    distinct keys every other field keeps its value, and nothing else in
    the state changes. *)
Theorem Employees_input_change e w name value :
  let '(r, w') := run (Employees.handleInputChange name value) e w in
  let s := ui w in
  r = Normal tt
  /\ w' = mkWorld (Employees.mkState (Employees.employees s) (Employees.loading s)
                     (Employees.dialogOpen s) (Employees.editingEmployee s)
                     (Employees.deleteDialogOpen s) (Employees.employeeToDelete s)
                     (Employees.formData (ui w')))
            (localStorage w) (trace w)
  /\ get_opt (Employees.formData (ui w')) name = VStr value
  /\ forall o k,
       Employees.formData s = VObj o -> NoDup (map fst o) -> k <> name ->
       get_opt (Employees.formData (ui w')) k = get_opt (Employees.formData s) k.
Proof.
  cbn. split; [done|]. split; [done|]. split.
  - by rewrite lookup_literal_last.
  - intros o k Ho Hnd Hk. rewrite Ho.
    rewrite lookup_literal_app by (cbn; rewrite list_elem_of_singleton; done).
    by rewrite (literal_spread_copy o Hnd).
Qed.

Lemma digit_not_infinity d :
  (d < 10)%N -> forall r, String.prefix "Infinity" (String (digit_char d) r) = false.
Proof.
  revert d.
  apply (small_digit
           (fun d => forall r, String.prefix "Infinity" (String (digit_char d) r) = false)).
  repeat (constructor; [intros r; reflexivity|]). constructor.
Qed.

(** The decimal text of a natural number below [2^53] parses as that
    number. *)
Lemma parseFloat_string_decimal n :
  (n < 2 ^ 53)%N -> parseFloat_string (Spec.decimal n) = Fin false n 0.
Proof.
  intros Hn. unfold Spec.decimal.
  destruct (N_digits_spec n) as (Hall & Hne & Hval).
  unfold parseFloat_string.
  destruct (N_digits n) as [|d ds] eqn:Hds; [done|].
  pose proof Hall as Hall'. apply Forall_cons in Hall' as [Hd _].
  destruct (digit_char_facts d Hd) as (Hdig & Hsp & Hm & Hp & _).
  pose proof (digit_not_infinity d Hd) as Hinf.
  assert (digits_string (d :: ds) = String (digit_char d) (digits_string ds)) as Hcons
    by reflexivity.
  rewrite Hcons, (trim_start_digit d _ Hd). cbn [strip_sign]. rewrite Hm, Hp, Hinf.
  rewrite <- Hcons, take_digits_digits by done.
  cbn [exponent_part length app]. rewrite app_nil_r, Hval.
  change (0 - Z.of_nat 0)%Z with 0%Z. by apply round_binary64_exact.
Qed.

(** X9.  An amount typed as a natural number below 2^53 (the whole
    numbers a JavaScript number holds exactly, whatever their size) into a
    salary field of the employee or promotion form is stored in the draft
    as that number (zero included), under the field's name. *)
Theorem salary_typed_amount n name :
  Spec.exact n ->
  (forall e w,
     Spec.readable (Employees.formData (ui w)) ->
     let d := Employees.formData
                (ui (snd (run (Employees.handleSalaryChange name (Spec.decimal n)) e w))) in
     get_opt (get_opt d "salary_components") name = VNum (Fin false n 0))
  /\ (forall e w,
        let d := Promotions.formData
                   (ui (snd (run (Promotions.handleSalaryChange name (Spec.decimal n)) e w))) in
        get_opt (get_opt (VObj d) "new_salary_components") name = VNum (Fin false n 0)).
Proof.
  intros Hn.
  assert (or_else (VNum (parseFloat (VStr (Spec.decimal n)))) (VInt 0) = VNum (Fin false n 0))
    as Hco.
  { unfold parseFloat. cbn [to_string]. rewrite (parseFloat_string_decimal n Hn).
    unfold or_else, truthy, num_is_zero, rounded.
    rewrite (round_binary64_exact false n Hn). cbn [num_is_nan orb].
    by destruct n. }
  split.
  - intros e w Hr. rewrite (Employees_salary_change_run e w name _ Hr).
    cbn zeta. cbn [snd ui Employees.formData]. rewrite Hco.
    rewrite get_opt_literal_last. apply get_opt_literal_last.
  - intros e w. rewrite Promotions_salary_change_run.
    cbn zeta. cbn [snd ui Promotions.formData]. rewrite Hco.
    rewrite get_opt_literal_last. apply get_opt_literal_last.
Qed.

(** Beyond 2^53 a typed amount is stored as the nearest number there is. *)
Example salary_typed_beyond_exact :
  let w := Samples.fresh Samples.creating_employee in
  let d := Employees.formData
             (ui (snd (run (Employees.handleSalaryChange "basic" "9007199254740993")
                         Samples.accepting w))) in
  get_opt (get_opt d "salary_components") "basic" = VNum (Fin false 9007199254740992 0).
Proof. vm_compute. reflexivity. Qed.

(* ===================================================================== *)
(** * Settings, Login and the session                                     *)
(* ===================================================================== *)

(** X10.  A credential change whose passwords match sends one PUT and ends
    with the loading flag off.  It never touches a stored item other than
    username, so the session token is kept.  On success the form is
    emptied and the stored username becomes the new one exactly when a new
    one was entered; on failure the draft and the storage are left as they
    were and the server's detail (or "Failed to update credentials") is
    shown. *)
Theorem Settings_submit_outcome e w snap :
  let f := Settings.formData snap in
  let req := Settings.credentials_request e (localStorage w !! "token") f in
  Settings.new_password f = Settings.confirm_password f ->
  let '(r, w') := run (Settings.handleSubmit snap) e w in
  r = Normal tt
  /\ Settings.loading (ui w') = false
  /\ (forall k, k <> "username" -> localStorage w' !! k = localStorage w !! k)
  /\ match server e (requests_of (trace w)) req with
     | Resolved _ =>
         emits w w' [Request req;
                     ToastSuccess (VStr "Admin credentials updated successfully")]
         /\ Settings.formData (ui w') = Settings.emptyForm
         /\ localStorage w' !! "username" =
              (if String.eqb (Settings.new_username f) "" then localStorage w !! "username"
               else Some (Settings.new_username f))
     | Rejected rd =>
         emits w w' [Request req;
                     ToastError (Spec.server_message rd "Failed to update credentials")]
         /\ Settings.formData (ui w') = Settings.formData (ui w)
         /\ localStorage w' = localStorage w
     end.
Proof.
  intros f req Heq. rewrite (Settings_submit_run e w snap Heq).
  fold f. fold req. destruct (server e _ req) as [d|rd].
  - cbn [truthy]. destruct (String.eqb (Settings.new_username f) "") eqn:Hnu; cbn.
    + repeat split.
    + split; [done|]. split; [done|]. split.
      * intros k Hk. by rewrite lookup_insert_ne.
      * split; [done|]. split; [done|]. apply lookup_insert_eq.
  - cbn. repeat split.
Qed.

Lemma Login_submit_run e w snap :
  run (Login.submit snap) e w =
    let s := ui w in
    let off := Login.mkState (Login.username (Login.own s)) (Login.password (Login.own s))
                 false in
    let req := Login.login_request e snap in
    match server e (requests_of (trace w)) req with
    | Resolved data =>
        match get data "token" with
        | Normal _ =>
            (Normal tt,
             mkWorld (Login.mkPage (App.mkState true (App.isLoading (Login.app s))) off)
               (<["username" := to_string (get_opt data "username")]>
                  (<["token" := to_string (get_opt data "token")]> (localStorage w)))
               (ToastSuccess (VStr "Login successful!") :: Request req :: trace w))
        | Abrupt _ =>
            (Normal tt,
             mkWorld (Login.mkPage (Login.app s) off) (localStorage w)
               (ToastError (VStr "Login failed")
                  :: ToastSuccess (VStr "Login successful!") :: Request req :: trace w))
        end
    | Rejected rd =>
        (Normal tt,
         mkWorld (Login.mkPage (Login.app s) off) (localStorage w)
           (ToastError (Spec.server_message rd "Login failed") :: Request req :: trace w))
    end.
Proof.
  unfold Login.submit, Login.handleSubmit, Login.in_app, Login.setLoading.
  step_handler.
  destruct (server e _ _) as [data|rd]; cbn.
  - destruct data; reflexivity.
  - by rewrite <- surfaced_message.
Qed.


(** X12.  A rejected login stores nothing and does not authenticate: the
    storage and the application state are as before, the loading flag is
    off, and the server's detail (or "Login failed") is shown. *)
Theorem Login_failure e w snap rd :
  let req := Login.login_request e snap in
  server e (requests_of (trace w)) req = Rejected rd ->
  let '(r, w') := run (Login.submit snap) e w in
  r = Normal tt
  /\ emits w w' [Request req; ToastError (Spec.server_message rd "Login failed")]
  /\ localStorage w' = localStorage w
  /\ Login.app (ui w') = Login.app (ui w)
  /\ Login.loading (Login.own (ui w')) = false.
Proof.
  intros req Hs. rewrite Login_submit_run. cbn zeta. fold req. by rewrite Hs.
Qed.

(** X13.  A login answered successfully but with an empty body (null)
    shows the success toast and then "Login failed": reading the token
    fails inside the try block, nothing is stored and the application
    stays as it was. *)
Theorem Login_empty_body e w snap :
  let req := Login.login_request e snap in
  server e (requests_of (trace w)) req = Resolved VNull ->
  let '(r, w') := run (Login.submit snap) e w in
  r = Normal tt
  /\ emits w w' [Request req; ToastSuccess (VStr "Login successful!");
                 ToastError (VStr "Login failed")]
  /\ localStorage w' = localStorage w
  /\ Login.app (ui w') = Login.app (ui w)
  /\ Login.loading (Login.own (ui w')) = false.
Proof.
  intros req Hs. rewrite Login_submit_run. cbn zeta. fold req. by rewrite Hs.
Qed.

(** X14.  The session survives a page reload and ends with a logout: after
    a login with a non-empty token, a fresh mount finds the application
    authenticated; after a logout, a fresh mount finds it not
    authenticated, whatever was stored before. *)
Theorem session_survives_reload e w token username :
  (to_string token <> "" ->
   App.isAuthenticated
     (ui (snd (run App.useEffect_mount e
                 (Laws.reload (snd (run (App.handleLogin token username) e w)))))) = true)
  /\ App.isAuthenticated
       (ui (snd (run App.useEffect_mount e
                   (Laws.reload (snd (run App.handleLogout e w)))))) = false.
Proof.
  rewrite login_run, logout_run. unfold Laws.reload. cbn [snd localStorage].
  rewrite !mount_run. cbn [snd ui localStorage App.isAuthenticated App.initial].
  rewrite !orb_false_r. split.
  - intros Htok. apply truthy_item. eexists. split; [|exact Htok].
    rewrite lookup_insert_ne by done. apply lookup_insert_eq.
  - rewrite lookup_delete_ne by done. by rewrite lookup_delete_eq.
Qed.

(** X15.  Login and logout touch the token and username items only, and a
    logout erases exactly what a login stored: the storage after login
    then logout is the storage after logout alone. *)
Theorem login_logout_storage e w token username :
  let after_login := localStorage (snd (run (App.handleLogin token username) e w)) in
  let after_logout := localStorage (snd (run App.handleLogout e w)) in
  let after_both :=
    localStorage (snd (run (App.handleLogin token username;; App.handleLogout) e w)) in
  (forall k, k <> "token" -> k <> "username" ->
     after_login !! k = localStorage w !! k /\ after_logout !! k = localStorage w !! k)
  /\ after_both = after_logout.
Proof.
  assert (run (App.handleLogin token username;; App.handleLogout) e w =
          (Normal tt,
           mkWorld (App.mkState false (App.isLoading (ui w)))
             (delete "username" (delete "token"
                (<["username" := to_string username]>
                   (<["token" := to_string token]> (localStorage w)))))
             (trace w))) as -> by reflexivity.
  rewrite login_run, logout_run. cbn [snd localStorage]. split.
  - intros k H1 H2. by rewrite !lookup_insert_ne, !lookup_delete_ne by done.
  - apply map_eq. intros k.
    destruct (decide (k = "username")) as [->|H2]; [by rewrite !lookup_delete_eq|].
    rewrite !(lookup_delete_ne _ "username") by done.
    destruct (decide (k = "token")) as [->|H1]; [by rewrite !lookup_delete_eq|].
    by rewrite !lookup_delete_ne, !lookup_insert_ne by done.
Qed.



(* ===================================================================== *)
(** * The router and the shell                                            *)
(* ===================================================================== *)

Lemma section_view_elements loc v :
  Spec.section_view loc = Some v -> v ∈ Laws.section_elements.
Proof.
  unfold Spec.section_view, Laws.section_elements.
  repeat (destruct (String.eqb loc _); [intros [= <-]; set_solver|]).
  discriminate.
Qed.

(** X17.  What the router can show.  Without a session the only view any
    location renders is the login page; with a session the login page is
    never rendered, and every rendered view is one of the five section
    views inside the layout. *)
Theorem rendered_views pathname vs :
  (App.resolve false pathname = App.Shows vs -> vs = [App.Login])
  /\ (App.resolve true pathname = App.Shows vs ->
      exists v, vs = [App.Layout; v] /\ v ∈ Laws.section_elements).
Proof.
  rewrite !resolve_table. unfold Spec.resolution.
  generalize (Spec.location pathname). intros loc.
  destruct (String.eqb loc "/login"); [split; [by intros [= <-]|discriminate]|].
  destruct (String.eqb loc "/"); [split; discriminate|].
  destruct (Spec.section_view loc) as [v|] eqn:Hv; [|split; discriminate].
  split; [discriminate|]. intros [= <-]. exists v. split; [done|].
  by eapply section_view_elements.
Qed.

(** X18.  Redirects do not chain: whenever a location resolves to a
    redirect, the target resolves, in the same session state, to a
    rendered view. *)
Theorem redirects_land b pathname target :
  App.resolve b pathname = App.Redirect target ->
  exists v vs, App.resolve b target = App.Shows (v :: vs).
Proof.
  rewrite (resolve_table b pathname). unfold Spec.resolution.
  assert (App.resolve false "/login" = App.Shows [App.Login]) as Hl
    by (vm_compute; reflexivity).
  assert (App.resolve true "/dashboard" = App.Shows [App.Layout; App.Dashboard]) as Hd
    by (vm_compute; reflexivity).
  generalize (Spec.location pathname). intros loc.
  destruct (String.eqb loc "/login").
  { destruct b; [|discriminate]. intros [= <-]; eauto. }
  destruct (String.eqb loc "/").
  { destruct b; intros [= <-]; eauto. }
  destruct (Spec.section_view loc); [|discriminate].
  destruct b; [discriminate|]. intros [= <-]; eauto.
Qed.

(** X19.  The links of the shell and the routes agree: with a session the
    five links lead, in order, to the five section views inside the
    layout, and without one each of them redirects to the login path. *)
Theorem nav_links_are_routed :
  map (fun item => App.resolve true (fst item)) Layout.navItems
  = map (fun v => App.Shows [App.Layout; v]) Laws.section_elements
  /\ Forall (fun item => App.resolve false (fst item) = App.Redirect "/login") Layout.navItems.
Proof. split; [vm_compute; reflexivity|]. repeat constructor. Qed.

(* ===================================================================== *)
(** * Payslips: the remaining paths                                       *)
(* ===================================================================== *)

(** X20.  A download asked for a payslip whose month is outside 1..12
    still fetches the content, but then saves nothing: looking up the
    month's label fails, the handler shows "Failed to download payslip"
    and leaves the state as it was.  Both revisions behave so. *)
Theorem download_month_out_of_range month :
  (month < 1 \/ 12 < month)%Z ->
  (forall e (w : world Payslips.state) payslipId employeeNo year content,
     let req := Payslips.download_request e (localStorage w !! "token") payslipId in
     server e (requests_of (trace w)) req = Resolved content ->
     let '(r, w') := run (Payslips.handleDownload payslipId employeeNo month year) e w in
     r = Normal tt /\ ui w' = ui w
     /\ exists x, emits w w' [Request req; ConsoleError "Download error:" x;
                              ToastError (VStr "Failed to download payslip")])
  /\ (forall e (w : world PayslipsBasic.state) payslipId employeeNo year content,
        let req := Payslips.download_request e (localStorage w !! "token") payslipId in
        server e (requests_of (trace w)) req = Resolved content ->
        let '(r, w') :=
          run (PayslipsBasic.handleDownload payslipId employeeNo month year) e w in
        r = Normal tt /\ ui w' = ui w
        /\ emits w w' [Request req; ToastError (VStr "Failed to download payslip")]).
Proof.
  intros Hm. destruct (month_label_out_of_range month Hm) as [x Hx].
  split; intros e w payslipId employeeNo year content req Hs.
  - rewrite Payslips_download_run. cbn zeta. fold req. rewrite Hs, Hx.
    split; [done|]. split; [done|]. by exists x.
  - rewrite PayslipsBasic_download_run. cbn zeta. fold req. by rewrite Hs, Hx.
Qed.

(** X21.  The edit of a payslip is not atomic.  When the delete succeeds
    and the regeneration is rejected, the handler stops there: the two
    requests are the only ones (nothing is refetched, nothing is created
    again), the error is shown, and the state is left as it was, the
    deleted payslip still listed and still being edited. *)
Theorem save_edit_generate_failure e w snap fields d rd :
  let payslip := VObj fields in
  let token := localStorage w !! "token" in
  let del := Payslips.delete_request e token (get_opt payslip "id") in
  let gen := Payslips.generate_request e token
               (Payslips.edit_payload (get_opt payslip "employee_id") (get_opt payslip "month")
                  (get_opt payslip "year") (Payslips.editFormData snap)) in
  server e (requests_of (trace w)) del = Resolved d ->
  server e (requests_of (trace w) ++ [del]) gen = Rejected rd ->
  let '(r, w') := run (Payslips.handleSaveEdit snap payslip) e w in
  r = Normal tt
  /\ emits w w' [Request del; Request gen;
                 ToastError (Spec.server_message rd "Failed to update payslip")]
  /\ ui w' = ui w
  /\ localStorage w' = localStorage w.
Proof.
  intros payslip token del gen Hd Hg. unfold payslip.
  rewrite Payslips_save_edit_run. cbn zeta.
  change (Payslips.delete_request e _ _) with del.
  change (Payslips.generate_request e _ _) with gen.
  by rewrite Hd, Hg.
Qed.

(** X22.  Saving an edit of something that is no payslip at all (null or
    undefined) sends nothing: reading its id fails inside the try block,
    "Failed to update payslip" is shown and the state is left as it was. *)
Theorem save_edit_unreadable_payslip e w snap payslip :
  payslip = VNull \/ payslip = VUndefined ->
  let '(r, w') := run (Payslips.handleSaveEdit snap payslip) e w in
  r = Normal tt
  /\ emits w w' [ToastError (VStr "Failed to update payslip")]
  /\ requests_of (trace w') = requests_of (trace w)
  /\ ui w' = ui w
  /\ localStorage w' = localStorage w.
Proof.
  intros [-> | ->]; unfold Payslips.handleSaveEdit; step_handler;
    repeat split; apply requests_of_toast_error.
Qed.

Lemma Payslips_edit_run e w fields :
  run (Payslips.handleEditPayslip (VObj fields)) e w =
    let s := ui w in
    (Normal tt,
     mkWorld (Payslips.mkState (Payslips.payslips s) (Payslips.employees s)
                (Payslips.loading s) (Payslips.dialogOpen s)
                (get_opt (VObj fields) "id")
                [ ("paid_days", get_opt (VObj fields) "paid_days");
                  ("lop_days", get_opt (VObj fields) "lop_days") ]
                (Payslips.formData s))
       (localStorage w) (trace w)).
Proof. reflexivity. Qed.

(** X23.  Starting the edit of a payslip and saving without touching the
    fields regenerates it with its own day counts: for a payslip whose
    paid_days and lop_days are whole numbers between 0 and 366, the
    payload of the regeneration carries exactly these two numbers. *)
Theorem edit_then_save_unchanged e w fields paid lop :
  let payslip := VObj fields in
  get_opt payslip "paid_days" = VInt paid -> (0 <= paid <= 366)%Z ->
  get_opt payslip "lop_days" = VInt lop -> (0 <= lop <= 366)%Z ->
  let s1 := ui (snd (run (Payslips.handleEditPayslip payslip) e w)) in
  Payslips.editingPayslip s1 = get_opt payslip "id"
  /\ Payslips.edit_payload (get_opt payslip "employee_id") (get_opt payslip "month")
       (get_opt payslip "year") (Payslips.editFormData s1)
     = VObj [ ("employee_id", get_opt payslip "employee_id");
              ("month", get_opt payslip "month");
              ("year", get_opt payslip "year");
              ("paid_days", VInt paid);
              ("lop_days", VInt lop) ].
Proof.
  intros payslip Hp Hpr Hl Hlr. unfold payslip. rewrite Payslips_edit_run. cbn zeta.
  cbn [snd ui Payslips.editingPayslip Payslips.editFormData].
  split; [done|]. fold payslip. rewrite Hp, Hl.
  unfold Payslips.edit_payload, Payslips.prop.
  cbn [lookup_prop String.eqb Ascii.eqb Bool.eqb default from_option id].
  change (default VUndefined (Some ?x)) with x.
  by rewrite !parseInt_day_number by done.
Qed.

Lemma seq_run {S A B} (c : M S A) (k : M S B) e w :
  run (c;; k) e w =
    match run c e w with
    | (Normal _, w') => run k e w'
    | (Abrupt x, w') => (Abrupt x, w')
    end.
Proof. reflexivity. Qed.

Lemma edit_typing_run changes : forall e w,
  exists d,
    run (Laws.edit_typing changes) e w =
      let s := ui w in
      (Normal tt,
       mkWorld (Payslips.mkState (Payslips.payslips s) (Payslips.employees s)
                  (Payslips.loading s) (Payslips.dialogOpen s) (Payslips.editingPayslip s)
                  d (Payslips.formData s))
         (localStorage w) (trace w)).
Proof.
  induction changes as [|[k v] rest IH]; intros e w.
  - exists (Payslips.editFormData (ui w)). by destruct w as [[] ? ?].
  - destruct (IH e (snd (run (Payslips.changeEditField k v) e w))) as [d Hd].
    exists d. exact Hd.
Qed.

(** X24.  Cancelling an inline edit discards it, whatever was typed: after
    starting the edit of a payslip, any number of changes of the edit
    fields and a cancel, no payslip is being edited, the edit draft is
    back at its defaults (30 paid days, 0 LOP days), and the rest of the
    state, the storage and the trace are as before. *)
Theorem edit_cancel_round_trip e w fields changes :
  run (Payslips.handleEditPayslip (VObj fields);; Laws.edit_typing changes;;
       Payslips.handleCancelEdit) e w =
    let s := ui w in
    (Normal tt,
     mkWorld (Payslips.mkState (Payslips.payslips s) (Payslips.employees s)
                (Payslips.loading s) (Payslips.dialogOpen s) VNull
                Payslips.defaultEditFormData (Payslips.formData s))
       (localStorage w) (trace w)).
Proof.
  rewrite seq_run, Payslips_edit_run. cbv beta iota zeta. rewrite seq_run.
  match goal with
  | |- context [run (Laws.edit_typing changes) e ?w1] =>
      destruct (edit_typing_run changes e w1) as [d ->]
  end.
  reflexivity.
Qed.

(** X25.  The month select and the file name agree: the value of each
    option of the months table, as parsed by the generate form, is the
    month number under which the download looks up that option's label,
    and this label is the English name of the month. *)
Theorem months_table_round_trip i value label :
  Payslips.months !! i = Some (value, label) ->
  parseInt (VStr value) = of_Z (Z.of_nat i + 1)
  /\ Payslips.month_label (Z.of_nat i + 1) = Normal label
  /\ Spec.month_name (Z.of_nat i + 1) = label.
Proof.
  intros H.
  do 12 (destruct i as [|i]; [injection H as <- <-; repeat split|]).
  discriminate H.
Qed.

(** X26.  After a payslip is generated, what the view lists is decided by
    the refetch, which the backend answers knowing of the generation.  The
    dialog is closed, the draft reset and loading off in every case; if
    both fetches succeed the two lists are the responses, and if one fails
    the lists stay as they were (the new payslip is not shown) and "Failed
    to fetch data" follows the success message. *)
Theorem generate_then_refetch e w snap d :
  let token := localStorage w !! "token" in
  let req := Payslips.generate_request e token
               (Payslips.submit_payload (Payslips.formData snap)) in
  let a := axios_get (API e +:+ "/payslips") token in
  let b := axios_get (API e +:+ "/employees") token in
  let history := requests_of (trace w) in
  server e history req = Resolved d ->
  let '(r, w') := run (Payslips.handleSubmit snap) e w in
  let done := ToastSuccess (VStr "Payslip generated successfully") in
  r = Normal tt
  /\ Payslips.dialogOpen (ui w') = false
  /\ Payslips.formData (ui w') = Payslips.resetFormData e
  /\ Payslips.loading (ui w') = false
  /\ match server e (history ++ [req]) a, server e ((history ++ [req]) ++ [a]) b with
     | Resolved da, Resolved db =>
         emits w w' [Request req; done; Request a; Request b]
         /\ Payslips.payslips (ui w') = da
         /\ Payslips.employees (ui w') = db
     | _, _ =>
         emits w w' [Request req; done; Request a; Request b;
                     ToastError (VStr "Failed to fetch data")]
         /\ Payslips.payslips (ui w') = Payslips.payslips (ui w)
         /\ Payslips.employees (ui w') = Payslips.employees (ui w)
     end.
Proof.
  intros token req a b history Hs. rewrite Payslips_submit_run. cbn zeta.
  fold token. fold req. fold history. rewrite Hs.
  rewrite Payslips_fetch_run. cbn zeta. cbn [ui localStorage trace snd].
  fold token. fold a. fold b.
  rewrite requests_of_toast_success, requests_of_cons. fold history.
  destruct (server e (history ++ [req]) a); [destruct (server e _ b)|]; cbn; done.
Qed.

Lemma get_opt_literal_mid kvs pre k v rest :
  k ∉ map fst rest -> get_opt (VObj (literal (kvs ++ pre ++ (k, v) :: rest))) k = v.
Proof.
  intros Hk. cbn [get_opt].
  change (pre ++ (k, v) :: rest) with (pre ++ ([(k, v)] ++ rest)).
  rewrite !app_assoc, lookup_literal_app by done.
  by rewrite lookup_literal_last.
Qed.

(** X27.  The payload of a payslip generation is the draft with its four
    integer fields parsed: month, year, paid_days and lop_days typed as
    natural numbers below 2^53 (the whole numbers a JavaScript number
    holds exactly) are sent as those numbers, and every other field of a
    draft with distinct keys except home_collection_visit, the employee_id
    in particular, is sent as it is in the draft. *)
Theorem generate_payload_fields formData month year paid lop :
  NoDup (map fst formData) ->
  Spec.exact month -> Spec.exact year -> Spec.exact paid -> Spec.exact lop ->
  Payslips.prop formData "month" = VStr (Spec.decimal month) ->
  Payslips.prop formData "year" = VStr (Spec.decimal year) ->
  Payslips.prop formData "paid_days" = VStr (Spec.decimal paid) ->
  Payslips.prop formData "lop_days" = VStr (Spec.decimal lop) ->
  let payload := Payslips.submit_payload formData in
  get_opt payload "month" = VNum (Fin false month 0)
  /\ get_opt payload "year" = VNum (Fin false year 0)
  /\ get_opt payload "paid_days" = VNum (Fin false paid 0)
  /\ get_opt payload "lop_days" = VNum (Fin false lop 0)
  /\ get_opt payload "employee_id" = Payslips.prop formData "employee_id"
  /\ forall k,
       k ∉ ["month"; "year"; "paid_days"; "lop_days"; "home_collection_visit"] ->
       get_opt payload k = Payslips.prop formData k.
Proof.
  intros Hnd Em Ey Ep El Hm Hy Hp Hl payload.
  assert (forall k,
            k ∉ ["month"; "year"; "paid_days"; "lop_days"; "home_collection_visit"] ->
            get_opt payload k = Payslips.prop formData k) as Hother.
  { intros k Hk. unfold payload, Payslips.submit_payload, Payslips.prop. cbn [get_opt].
    rewrite lookup_literal_app by exact Hk.
    by rewrite (literal_spread_copy formData Hnd). }
  assert (forall k (ks : list string), k ∉ ks <-> ~ In k ks) as Hin.
  { intros k ks. by rewrite list_elem_of_In. }
  assert (Payslips.submit_payload formData
          = VObj (literal (formData ++
              [ ("month", VNum (Fin false month 0));
                ("year", VNum (Fin false year 0));
                ("paid_days", VNum (Fin false paid 0));
                ("lop_days", VNum (Fin false lop 0));
                ("home_collection_visit",
                 or_else (VNum (parseFloat (Payslips.prop formData "home_collection_visit")))
                         (VInt 0)) ]))) as Hpayload.
  { unfold Payslips.submit_payload. cbn [spread].
    by rewrite Hm, Hy, Hp, Hl, (parseInt_typed_days month Em), (parseInt_typed_days year Ey),
      (parseInt_typed_days paid Ep), (parseInt_typed_days lop El). }
  split; [|split; [|split; [|split; [|split]]]].
  - unfold payload. rewrite Hpayload.
    apply (get_opt_literal_mid formData []). apply Hin. cbn. intuition discriminate.
  - unfold payload. rewrite Hpayload.
    apply (get_opt_literal_mid formData [_]). apply Hin. cbn. intuition discriminate.
  - unfold payload. rewrite Hpayload.
    apply (get_opt_literal_mid formData [_; _]). apply Hin. cbn. intuition discriminate.
  - unfold payload. rewrite Hpayload.
    apply (get_opt_literal_mid formData [_; _; _]). apply Hin. cbn. intuition discriminate.
  - apply Hother. apply Hin. cbn. intuition discriminate.
  - exact Hother.
Qed.

Lemma Employees_delete_click_run e w employee :
  run (Employees.handleDeleteClick employee) e w =
    let s := ui w in
    (Normal tt,
     mkWorld (Employees.mkState (Employees.employees s) (Employees.loading s)
                (Employees.dialogOpen s) (Employees.editingEmployee s) true employee
                (Employees.formData s))
       (localStorage w) (trace w)).
Proof. reflexivity. Qed.

Lemma Employees_delete_first_event e w snap :
  Spec.readable (Employees.employeeToDelete snap) ->
  exists es,
    emits w (snd (run (Employees.handleDelete snap) e w))
      (Request (Laws.terminate_request e (localStorage w !! "token")
                  (get_opt (Employees.employeeToDelete snap) "id")) :: es).
Proof.
  intros Hr. rewrite (Employees_delete_run e w snap Hr). cbn zeta.
  destruct (server e _ _) as [d|rd].
  - rewrite Employees_fetch_run. cbn. destruct (server e _ _); cbn; give_trace.
  - cbn. give_trace.
Qed.

(** X28.  Choosing Terminate on a row records the row and raises the flag
    of the confirmation dialog, and the handler run next sends the DELETE
    for that row's id.  The handler never clears the recorded row: it is
    still recorded afterwards whatever the backend answers, and after a
    rejection the state is as the click left it, so that running the
    handler again sends the same request again. *)
Theorem terminate_click_then_confirm e w employee :
  Spec.readable employee ->
  let w1 := snd (run (Employees.handleDeleteClick employee) e w) in
  let w2 := snd (run (Employees.handleDelete (ui w1)) e w1) in
  let req := Laws.terminate_request e (localStorage w !! "token") (get_opt employee "id") in
  Employees.deleteDialogOpen (ui w1) = true
  /\ Employees.employeeToDelete (ui w1) = employee
  /\ (exists es, emits w1 w2 (Request req :: es))
  /\ Employees.employeeToDelete (ui w2) = employee
  /\ forall rd,
       server e (requests_of (trace w)) req = Rejected rd ->
       ui w2 = ui w1
       /\ exists es,
            emits w2 (snd (run (Employees.handleDelete (ui w2)) e w2)) (Request req :: es).
Proof.
  intros Hr w1 w2 req.
  assert (Employees.employeeToDelete (ui w1) = employee) as Ht by reflexivity.
  assert (localStorage w1 = localStorage w) as Hs by reflexivity.
  split; [reflexivity|]. split; [exact Ht|]. split; [|split].
  - destruct (Employees_delete_first_event e w1 (ui w1)) as [es Hes]; [by rewrite Ht|].
    rewrite Ht, Hs in Hes. by exists es.
  - unfold w2. rewrite Employees_delete_run by (by rewrite Ht). cbn zeta.
    destruct (server e _ _) as [d|rd]; [|exact Ht].
    rewrite Employees_fetch_run. cbn. by destruct (server e _ _).
  - intros rd Hrej.
    assert (w2 = mkWorld (ui w1) (localStorage w)
                   (ToastError (VStr "Failed to terminate employee") :: Request req :: trace w))
      as Hw2.
    { unfold w2. rewrite Employees_delete_run by (by rewrite Ht). cbn zeta.
      rewrite Ht, Hs. change (trace w1) with (trace w). fold req. by rewrite Hrej. }
    rewrite Hw2. cbn [ui]. split; [reflexivity|].
    destruct (Employees_delete_first_event e
                (mkWorld (ui w1) (localStorage w)
                   (ToastError (VStr "Failed to terminate employee") :: Request req :: trace w))
                (ui w1)) as [es Hes]; [by rewrite Ht|].
    rewrite Ht in Hes. cbn [localStorage] in Hes. by exists es.
Qed.

(* ===================================================================== *)
(** * Concrete runs of the further handlers                               *)
(* ===================================================================== *)

Lemma Employees_update_submit_witness :
  let snap := Scenarios.editing_alice in
  let w := Samples.fresh snap in
  let w' := snd (run (Employees.handleSubmit snap) Samples.accepting w) in
  truthy (Employees.editingEmployee snap) = true
  /\ Employees.editingEmployee (ui w') = VNull
  /\ exists es,
       emits w w'
         (Request (mkRequest PUT "https://payroll.example/api/employees/e1"
                     (Some Samples.alice) (Some "Bearer t0k3n") false) :: es).
Proof.
  intros snap w w'. split; [reflexivity|].
  pose proof (Employees_update_submit Samples.accepting w snap eq_refl) as H.
  cbv zeta in H. unfold w'.
  destruct (run (Employees.handleSubmit snap) Samples.accepting w) as [r w1].
  cbn in H.
  destruct H as (_ & (es & Hem & _) & _ & He & _).
  split; [exact He|]. exists es. exact Hem.
Defined.

Lemma Employees_confirm_termination_witness :
  let snap := Scenarios.terminating_alice in
  let w := Samples.fresh snap in
  Spec.readable (Employees.employeeToDelete snap)
  /\ Employees.deleteDialogOpen
       (ui (snd (run (Employees.handleDelete snap) Samples.accepting w))) = false.
Proof.
  intros snap w. split; [exact I|].
  pose proof (Employees_confirm_termination Samples.accepting w snap I) as H.
  cbv zeta in H.
  destruct (run (Employees.handleDelete snap) Samples.accepting w) as [r w'].
  change (server Samples.accepting _ _) with (Resolved VNull) in H.
  destruct H as (_ & _ & Hd & _). exact Hd.
Defined.

Lemma Employees_terminate_without_target_witness :
  let snap := Employees.initial in
  let w := Samples.fresh snap in
  (Employees.employeeToDelete snap = VNull \/ Employees.employeeToDelete snap = VUndefined)
  /\ ui (snd (run (Employees.handleDelete snap) Samples.accepting w)) = ui w.
Proof.
  intros snap w. split; [left; reflexivity|].
  pose proof (Employees_terminate_without_target Samples.accepting w snap
                (or_introl eq_refl)) as H.
  destruct (run (Employees.handleDelete snap) Samples.accepting w) as [r w'].
  destruct H as (_ & _ & _ & Hui & _). exact Hui.
Defined.

Lemma Employees_edit_then_submit_witness :
  let w := Samples.fresh Employees.initial in
  truthy Samples.alice = true
  /\ Employees.formData
       (ui (snd (run (Employees.handleEdit Samples.alice) Samples.accepting w)))
     = Samples.alice.
Proof.
  intros w. split; [reflexivity|].
  exact (proj1 (proj2 (Employees_edit_then_submit Samples.accepting w Samples.alice eq_refl))).
Defined.

Lemma Employees_cancel_keeps_edit_target_witness :
  let w := Samples.fresh Employees.initial in
  truthy Samples.alice = true
  /\ Employees.editingEmployee
       (ui (snd (run (Employees.handleEdit Samples.alice;; Dialogs.Employees_cancel;;
                      Dialogs.Employees_onOpenChange true) Samples.accepting w)))
     = Samples.alice.
Proof.
  intros w. split; [reflexivity|].
  exact (proj1 (proj2 (proj1
           (Employees_cancel_keeps_edit_target Samples.accepting w Samples.alice eq_refl)))).
Defined.

Lemma Employees_input_change_witness :
  let w := Samples.fresh Scenarios.editing_alice in
  let w' := snd (run (Employees.handleInputChange "name" "Alicia") Samples.accepting w) in
  Employees.formData (ui w) = VObj Scenarios.alice_fields
  /\ NoDup (map fst Scenarios.alice_fields)
  /\ "designation" <> "name"
  /\ get_opt (Employees.formData (ui w')) "name" = VStr "Alicia"
  /\ get_opt (Employees.formData (ui w')) "designation" = VStr "Engineer".
Proof.
  intros w w'.
  assert (NoDup (map fst Scenarios.alice_fields)) as Hnd.
  { apply (bool_decide_unpack _). vm_compute. reflexivity. }
  split; [reflexivity|]. split; [exact Hnd|]. split; [discriminate|].
  pose proof (Employees_input_change Samples.accepting w "name" "Alicia") as H.
  unfold w'. destruct (run (Employees.handleInputChange "name" "Alicia") Samples.accepting w)
    as [r w1].
  destruct H as (_ & _ & Hname & Hrest). split; [exact Hname|].
  exact (Hrest Scenarios.alice_fields "designation" eq_refl Hnd ltac:(discriminate)).
Defined.

Lemma salary_typed_amount_witness :
  let w := Samples.fresh Employees.initial in
  Spec.exact 50000
  /\ Spec.readable (Employees.formData (ui w))
  /\ get_opt
       (get_opt
          (Employees.formData
             (ui (snd (run (Employees.handleSalaryChange "basic" (Spec.decimal 50000))
                         Samples.accepting w))))
          "salary_components")
       "basic" = VNum (Fin false 50000 0).
Proof.
  intros w. split; [reflexivity|]. split; [exact I|].
  exact (proj1 (salary_typed_amount 50000 "basic" eq_refl) Samples.accepting w I).
Defined.

Lemma Settings_submit_outcome_witness :
  let snap := Scenarios.renaming in
  let w := Samples.fresh snap in
  let w' := snd (run (Settings.handleSubmit snap) Samples.accepting w) in
  Settings.new_password (Settings.formData snap)
    = Settings.confirm_password (Settings.formData snap)
  /\ localStorage w' !! "username" = Some "root"
  /\ localStorage w' !! "token" = Some "t0k3n".
Proof.
  intros snap w w'. split; [reflexivity|].
  pose proof (Settings_submit_outcome Samples.accepting w snap eq_refl) as H.
  unfold w'. destruct (run (Settings.handleSubmit snap) Samples.accepting w) as [r w1].
  change (server Samples.accepting _ _) with (Resolved VNull) in H.
  destruct H as (_ & _ & Hkeep & _ & _ & Hname).
  split; [exact Hname|]. rewrite Hkeep by discriminate. reflexivity.
Defined.


Lemma Login_failure_witness :
  let e := Samples.rejecting in
  let w := Scenarios.login_page in
  let rd := Some (VObj [("detail", VStr "Employee not found")]) in
  server e (requests_of (trace w)) (Login.login_request e Scenarios.typed_login)
    = Rejected rd
  /\ localStorage (snd (run (Login.submit Scenarios.typed_login) e w)) = localStorage w.
Proof.
  intros e w rd. split; [reflexivity|].
  pose proof (Login_failure e w Scenarios.typed_login rd eq_refl) as H.
  destruct (run (Login.submit Scenarios.typed_login) e w) as [r w1].
  destruct H as (_ & _ & Hs & _). exact Hs.
Defined.

Lemma Login_empty_body_witness :
  let e := Samples.accepting in
  let w := Scenarios.login_page in
  server e (requests_of (trace w)) (Login.login_request e Scenarios.typed_login)
    = Resolved VNull
  /\ Login.app (ui (snd (run (Login.submit Scenarios.typed_login) e w))) = Login.app (ui w).
Proof.
  intros e w. split; [reflexivity|].
  pose proof (Login_empty_body e w Scenarios.typed_login eq_refl) as H.
  destruct (run (Login.submit Scenarios.typed_login) e w) as [r w1].
  destruct H as (_ & _ & _ & Ha & _). exact Ha.
Defined.

Lemma session_survives_reload_witness :
  let e := Samples.accepting in
  let w := mkWorld App.initial ∅ [] in
  to_string (VStr "t0k3n") <> ""
  /\ App.isAuthenticated
       (ui (snd (run App.useEffect_mount e
                   (Laws.reload (snd (run (App.handleLogin (VStr "t0k3n") (VStr "admin"))
                                        e w)))))) = true.
Proof.
  intros e w. split; [discriminate|].
  apply (proj1 (session_survives_reload e w (VStr "t0k3n") (VStr "admin"))). discriminate.
Defined.

Lemma login_logout_storage_witness :
  let e := Samples.accepting in
  let w := mkWorld App.initial {[ "theme" := "dark" ]} [] in
  "theme" <> "token" /\ "theme" <> "username"
  /\ localStorage (snd (run (App.handleLogin (VStr "t0k3n") (VStr "admin")) e w)) !! "theme"
     = Some "dark".
Proof.
  intros e w. split; [discriminate|]. split; [discriminate|].
  exact (proj1 (proj1 (login_logout_storage e w (VStr "t0k3n") (VStr "admin")) "theme"
                  ltac:(discriminate) ltac:(discriminate))).
Defined.


Lemma rendered_views_witness :
  App.resolve true "/payslips" = App.Shows [App.Layout; App.Payslips]
  /\ exists v, [App.Layout; App.Payslips] = [App.Layout; v] /\ v ∈ Laws.section_elements.
Proof.
  split; [vm_compute; reflexivity|].
  apply (proj2 (rendered_views "/payslips" [App.Layout; App.Payslips])).
  vm_compute. reflexivity.
Defined.

Lemma redirects_land_witness :
  App.resolve false "/payslips" = App.Redirect "/login"
  /\ exists v vs, App.resolve false "/login" = App.Shows (v :: vs).
Proof.
  split; [vm_compute; reflexivity|].
  apply (redirects_land false "/payslips" "/login"). vm_compute. reflexivity.
Defined.

Lemma download_month_out_of_range_witness :
  let e := Samples.accepting in
  let w := Samples.fresh (Payslips.initial e) in
  (13 < 1 \/ 12 < 13)%Z
  /\ server e (requests_of (trace w))
       (Payslips.download_request e (localStorage w !! "token") (VStr "p1")) = Resolved VNull
  /\ ui (snd (run (Payslips.handleDownload (VStr "p1") (VStr "EMP001") 13 (VInt 2025)) e w))
     = ui w.
Proof.
  intros e w. split; [lia|]. split; [reflexivity|].
  pose proof (proj1 (download_month_out_of_range 13 ltac:(lia)) e w (VStr "p1")
                (VStr "EMP001") (VInt 2025) VNull eq_refl) as H.
  destruct (run (Payslips.handleDownload (VStr "p1") (VStr "EMP001") 13 (VInt 2025)) e w)
    as [r w1].
  destruct H as (_ & Hui & _). exact Hui.
Defined.

Lemma save_edit_generate_failure_witness :
  let e := Scenarios.deleting_only in
  let snap := Payslips.initial e in
  let w := Samples.fresh snap in
  let payslip := VObj Scenarios.june_fields in
  let token := localStorage w !! "token" in
  let del := Payslips.delete_request e token (get_opt payslip "id") in
  let gen := Payslips.generate_request e token
               (Payslips.edit_payload (get_opt payslip "employee_id") (get_opt payslip "month")
                  (get_opt payslip "year") (Payslips.editFormData snap)) in
  let rd := Some (VObj [("detail", VStr "Employee not found")]) in
  server e (requests_of (trace w)) del = Resolved VNull
  /\ server e (requests_of (trace w) ++ [del]) gen = Rejected rd
  /\ ui (snd (run (Payslips.handleSaveEdit snap payslip) e w)) = ui w.
Proof.
  intros e snap w payslip token del gen rd. split; [reflexivity|]. split; [reflexivity|].
  pose proof (save_edit_generate_failure e w snap Scenarios.june_fields VNull rd
                eq_refl eq_refl) as H.
  cbv zeta in H. fold payslip in H.
  destruct (run (Payslips.handleSaveEdit snap payslip) e w) as [r w1].
  destruct H as (_ & _ & Hui & _). exact Hui.
Defined.

Lemma save_edit_unreadable_payslip_witness :
  let e := Samples.accepting in
  let snap := Payslips.initial e in
  let w := Samples.fresh snap in
  (VNull = VNull \/ VNull = VUndefined)
  /\ requests_of (trace (snd (run (Payslips.handleSaveEdit snap VNull) e w)))
     = requests_of (trace w).
Proof.
  intros e snap w. split; [left; reflexivity|].
  pose proof (save_edit_unreadable_payslip e w snap VNull (or_introl eq_refl)) as H.
  destruct (run (Payslips.handleSaveEdit snap VNull) e w) as [r w1].
  destruct H as (_ & _ & Hreq & _). exact Hreq.
Defined.

Lemma edit_then_save_unchanged_witness :
  let e := Samples.accepting in
  let w := Samples.fresh (Payslips.initial e) in
  let payslip := VObj Scenarios.june_fields in
  get_opt payslip "paid_days" = VInt 30 /\ (0 <= 30 <= 366)%Z
  /\ get_opt payslip "lop_days" = VInt 0 /\ (0 <= 0 <= 366)%Z
  /\ Payslips.editingPayslip (ui (snd (run (Payslips.handleEditPayslip payslip) e w)))
     = VStr "p1".
Proof.
  intros e w payslip. split; [reflexivity|]. split; [lia|]. split; [reflexivity|].
  split; [lia|].
  exact (proj1 (edit_then_save_unchanged e w Scenarios.june_fields 30 0 eq_refl
                  ltac:(lia) eq_refl ltac:(lia))).
Defined.

Lemma months_table_round_trip_witness :
  Payslips.months !! 5%nat = Some ("6", "June")
  /\ parseInt (VStr "6") = of_Z 6
  /\ Payslips.month_label 6 = Normal "June".
Proof.
  split; [reflexivity|].
  destruct (months_table_round_trip 5 "6" "June" eq_refl) as (Hp & Hl & _).
  split; [exact Hp|exact Hl].
Defined.

Lemma generate_then_refetch_witness :
  let e := Samples.accepting in
  let snap := Payslips.initial e in
  let w := Samples.fresh snap in
  server e (requests_of (trace w))
    (Payslips.generate_request e (localStorage w !! "token")
       (Payslips.submit_payload (Payslips.formData snap))) = Resolved VNull
  /\ Payslips.loading (ui (snd (run (Payslips.handleSubmit snap) e w))) = false.
Proof.
  intros e snap w. split; [reflexivity|].
  pose proof (generate_then_refetch e w snap VNull eq_refl) as H.
  destruct (run (Payslips.handleSubmit snap) e w) as [r w1].
  destruct H as (_ & _ & _ & Hl & _). exact Hl.
Defined.

Lemma generate_payload_fields_witness :
  let formData := Scenarios.typed_draft in
  let payload := Payslips.submit_payload formData in
  NoDup (map fst formData)
  /\ Spec.exact 6 /\ Spec.exact 2025 /\ Spec.exact 28 /\ Spec.exact 2
  /\ Payslips.prop formData "month" = VStr (Spec.decimal 6)
  /\ Payslips.prop formData "year" = VStr (Spec.decimal 2025)
  /\ Payslips.prop formData "paid_days" = VStr (Spec.decimal 28)
  /\ Payslips.prop formData "lop_days" = VStr (Spec.decimal 2)
  /\ get_opt payload "paid_days" = VNum (Fin false 28 0)
  /\ get_opt payload "employee_id" = VStr "e1".
Proof.
  intros formData payload.
  assert (NoDup (map fst formData)) as Hnd.
  { apply (bool_decide_unpack _). vm_compute. reflexivity. }
  split; [exact Hnd|]. do 8 (split; [reflexivity|]).
  destruct (generate_payload_fields formData 6 2025 28 2 Hnd eq_refl eq_refl eq_refl eq_refl
              eq_refl eq_refl eq_refl eq_refl)
    as (_ & _ & Hp & _ & He & _).
  split; [exact Hp|exact He].
Defined.

Lemma terminate_click_then_confirm_witness :
  let e := Samples.rejecting in
  let w := Samples.fresh Employees.initial in
  let w1 := snd (run (Employees.handleDeleteClick Samples.alice) e w) in
  let w2 := snd (run (Employees.handleDelete (ui w1)) e w1) in
  let rd := Some (VObj [("detail", VStr "Employee not found")]) in
  Spec.readable Samples.alice
  /\ server e (requests_of (trace w))
       (Laws.terminate_request e (localStorage w !! "token") (get_opt Samples.alice "id"))
     = Rejected rd
  /\ ui w2 = ui w1.
Proof.
  intros e w w1 w2 rd. split; [exact I|]. split; [reflexivity|].
  exact (proj1 (proj2 (proj2 (proj2 (proj2
           (terminate_click_then_confirm e w Samples.alice I)))) rd eq_refl)).
Defined.
